(** * synclocal: the conditional-sync engine of terraform-provider-synclocal

    A shallow embedding of [internal/provider/resource_file.go] and
    [internal/provider/resource_url.go], with the provider of
    [internal/provider/provider.go] and the helpers of the acceptance tests
    (the checks of the destruction and the handlers of the test server).
    Go strings are byte strings, so
    they are Rocq [string]s (one [ascii] per byte).  The Go standard library
    functions the provider calls are modelled in modules named after their
    packages ([fmt], [strconv], [filepath], [url], [textproto], [http],
    [diag], [os], [io]); the operating system is a Unix one (the path
    separator is the slash).

    The provider runs in a [World]: a file system, the [ResourceData] its
    functions share through a pointer, and the log of the calls that leave
    the process.  What it does not decide is an [Env]: the digest, the
    media type parser and the quoting of the standard library, the working
    directory, the server, and the faults of the file system.  A run
    returns or panics ([outcome]); a Go [error] is a value ([result]).

    A file is named by the spelling of its path: two spellings of one file
    are two files.  A node is a regular file, a directory that is not
    empty, or something that may not be touched; a regular file can always
    be unlinked. *)

From Stdlib Require Import ZArith Ascii String List Bool Lia.
From stdpp Require Import base option list strings gmap.

Local Open Scope Z_scope.

(** ** Bytes and strings *)

Definition byte_val (c : ascii) : Z := Z.of_N (N_of_ascii c).

Definition byte_in (lo hi c : ascii) : bool :=
  (byte_val lo <=? byte_val c) && (byte_val c <=? byte_val hi).

Definition byte_eq (a b : ascii) : bool := Ascii.eqb a b.

Definition is_lower (c : ascii) : bool := byte_in "a" "z" c.
Definition is_upper (c : ascii) : bool := byte_in "A" "Z" c.
Definition is_digit (c : ascii) : bool := byte_in "0" "9" c.
Definition is_alpha (c : ascii) : bool := is_lower c || is_upper c.

Definition byte_of_Z (z : Z) : ascii := ascii_of_N (Z.to_N z).

(** ASCII case mapping, as [strings.ToLower] and [strings.ToUpper] act on
    ASCII bytes. *)
Definition to_lower (c : ascii) : ascii :=
  if is_upper c then byte_of_Z (byte_val c + 32) else c.
Definition to_upper (c : ascii) : ascii :=
  if is_lower c then byte_of_Z (byte_val c - 32) else c.

Fixpoint str_map (f : ascii -> ascii) (s : string) : string :=
  match s with
  | EmptyString => EmptyString
  | String c s' => String (f c) (str_map f s')
  end.

Fixpoint str_forall (p : ascii -> bool) (s : string) : bool :=
  match s with
  | EmptyString => true
  | String c s' => p c && str_forall p s'
  end.

Fixpoint str_exists (p : ascii -> bool) (s : string) : bool :=
  match s with
  | EmptyString => false
  | String c s' => p c || str_exists p s'
  end.

(** [strings.HasPrefix s p]. *)
Fixpoint HasPrefix (s p : string) {struct p} : bool :=
  match p, s with
  | EmptyString, _ => true
  | String a p', String b s' => byte_eq a b && HasPrefix s' p'
  | String _ _, EmptyString => false
  end.

(** [strings.Contains s sub]. *)
Fixpoint Contains (s sub : string) : bool :=
  HasPrefix s sub ||
  match s with
  | EmptyString => false
  | String _ s' => Contains s' sub
  end.

(** [s[n:]]. *)
Fixpoint str_drop (n : nat) (s : string) : string :=
  match n, s with
  | O, _ => s
  | S n', String _ s' => str_drop n' s'
  | S _, EmptyString => EmptyString
  end.

(** [s[:n]]. *)
Fixpoint str_take (n : nat) (s : string) : string :=
  match n, s with
  | O, _ => EmptyString
  | S n', String c s' => String c (str_take n' s')
  | S _, EmptyString => EmptyString
  end.

(** [strings.Cut s sep] for a one-byte separator: the text before the first
    [sep] and the text after it, or [None] when [sep] does not occur. *)
Fixpoint cut_byte (sep : ascii) (s : string) : option (string * string) :=
  match s with
  | EmptyString => None
  | String c s' =>
      if byte_eq c sep then Some (EmptyString, s')
      else match cut_byte sep s' with
           | Some (a, b) => Some (String c a, b)
           | None => None
           end
  end.

(** The same at the last occurrence of [sep] ([strings.LastIndex]). *)
Fixpoint cut_last_byte (sep : ascii) (s : string) : option (string * string) :=
  match s with
  | EmptyString => None
  | String c s' =>
      match cut_last_byte sep s' with
      | Some (a, b) => Some (String c a, b)
      | None => if byte_eq c sep then Some (EmptyString, s') else None
      end
  end.

(** [strings.Split s "/"]: never empty, the pieces hold no slash. *)
Fixpoint split_byte (sep : ascii) (s : string) : list string :=
  match s with
  | EmptyString => [EmptyString]
  | String c s' =>
      if byte_eq c sep then EmptyString :: split_byte sep s'
      else match split_byte sep s' with
           | x :: xs => String c x :: xs
           | [] => [String c EmptyString]
           end
  end.

(** [strings.Join l sep] for a one-byte separator. *)
Fixpoint join_byte (sep : ascii) (l : list string) : string :=
  match l with
  | [] => EmptyString
  | [x] => x
  | x :: xs => x +:+ String sep (join_byte sep xs)
  end.

Definition str_eqb (a b : string) : bool := String.eqb a b.

(** The double quote, for messages that carry one. *)
Definition dquote : string := String (ascii_of_nat 34) EmptyString.

(** ** Go errors *)

Inductive errno := ENOENT | EACCES | EISDIR | ENOTEMPTY | EIO | ENOSPC.

Inductive NumErrKind := ErrSyntax | ErrRange.

(** The [error] values the provider meets: [*fs.PathError],
    [*strconv.NumError], [errors.New] and [fmt.Errorf] without [%w],
    [fmt.Errorf] with a final [%w] (kept as the format, the arguments
    before the wrapped error, already as text, and the wrapped error),
    [url.EscapeError], [url.InvalidHostError] and [*url.Error]. *)
Inductive error :=
| PathError (op path : string) (e : errno)
| NumError (fn num : string) (k : NumErrKind)
| errorString (msg : string)
| wrapError (format : string) (args : list string) (err : error)
| EscapeError (s : string)
| InvalidHostError (s : string)
| urlError (op url : string) (err : error).

Inductive result (A : Type) :=
| Val (a : A)
| Err (e : error).
Arguments Val {A} a.
Arguments Err {A} e.

Definition is_Val {A} (r : result A) : bool :=
  match r with Val _ => true | Err _ => false end.

(** [os.IsNotExist]: looks through a [PathError] only, not through [%w]. *)
Definition IsNotExist (e : error) : bool :=
  match e with
  | PathError _ _ ENOENT => true
  | _ => false
  end.

Definition errno_msg (e : errno) : string :=
  match e with
  | ENOENT => "no such file or directory"
  | EACCES => "permission denied"
  | EISDIR => "is a directory"
  | ENOTEMPTY => "directory not empty"
  | EIO => "input/output error"
  | ENOSPC => "no space left on device"
  end.

(** ** fmt *)

Module fmt.
Section Rendering.

(** [strconv.Quote], which the verb [%q] and several [Error] methods
    call. *)
Variable Quote : string -> string.

(** [fmt.Sprintf] for the verbs the provider uses on text: [%s] and [%q];
    [%w] prints like [%s].  A verb with no argument left prints Go's
    [MISSING] marker. *)
Fixpoint Sprintf (format : string) (args : list string) : string :=
  match format with
  | EmptyString => EmptyString
  | String c rest =>
      if byte_eq c "%" then
        match rest with
        | String v rest' =>
            if byte_eq v "%" then String "%" (Sprintf rest' args)
            else
              match args with
              | [] => "%!" +:+ String v "(MISSING)" +:+ Sprintf rest' args
              | a :: args' =>
                  (if byte_eq v "q" then Quote a else a)
                  +:+ Sprintf rest' args'
              end
        | EmptyString => "%!(NOVERB)"
        end
      else String c (Sprintf rest args)
  end.

Definition NumErrKind_msg (k : NumErrKind) : string :=
  match k with
  | ErrSyntax => "invalid syntax"
  | ErrRange => "value out of range"
  end.

(** The [Error] method. *)
Fixpoint Error (e : error) : string :=
  match e with
  | PathError op path en => op +:+ " " +:+ path +:+ ": " +:+ errno_msg en
  | NumError fn num k =>
      "strconv." +:+ fn +:+ ": parsing " +:+ Quote num +:+ ": "
      +:+ NumErrKind_msg k
  | errorString msg => msg
  | wrapError format args err => Sprintf format (args ++ [Error err])
  | EscapeError s => "invalid URL escape " +:+ Quote s
  | InvalidHostError s => "invalid character " +:+ Quote s +:+ " in host name"
  | urlError op u err => op +:+ " " +:+ Quote u +:+ ": " +:+ Error err
  end.

End Rendering.
End fmt.

(** ** strconv *)

Module strconv.

Definition lower (c : Z) : Z := Z.lor c 32.

(** The value of a digit byte in [ParseUint]'s loop. *)
Definition digit (c : ascii) : option Z :=
  let n := byte_val c in
  if (48 <=? n) && (n <=? 57) then Some (n - 48)
  else if (97 <=? lower n) && (lower n <=? 122) then Some (lower n - 97 + 10)
  else None.

Definition uint64 (z : Z) : Z := z mod 2 ^ 64.

Fixpoint ParseUint_loop (base cutoff maxVal : Z) (s : string) (n : Z)
  : Z + NumErrKind :=
  match s with
  | EmptyString => inl n
  | String c s' =>
      match digit c with
      | None => inr ErrSyntax
      | Some d =>
          if base <=? d then inr ErrSyntax
          else if cutoff <=? n then inr ErrRange
          else
            let n' := uint64 (n * base) in
            let n1 := uint64 (n' + d) in
            if (n1 <? n') || (maxVal <? n1) then inr ErrRange
            else ParseUint_loop base cutoff maxVal s' n1
      end
  end.

(** [strconv.ParseUint(s, base, bitSize)] for an explicit base in 2..36
    and a bit size in 1..64 (the provider calls it with 8 and 32). *)
Definition ParseUint (s : string) (base bitSize : Z) : result Z :=
  match s with
  | EmptyString => Err (NumError "ParseUint" s ErrSyntax)
  | _ =>
      let cutoff := (2 ^ 64 - 1) / base + 1 in
      let maxVal := 2 ^ bitSize - 1 in
      match ParseUint_loop base cutoff maxVal s 0 with
      | inl n => Val n
      | inr k => Err (NumError "ParseUint" s k)
      end
  end.

End strconv.

(** ** path/filepath (Unix) *)

Module filepath.

Definition Separator : ascii := "/".

Definition IsAbs (path : string) : bool := HasPrefix path "/".

Definition ToSlash (path : string) : string := path.
Definition FromSlash (path : string) : string := path.

(** One round of [Clean]'s loop, on the path element [el]; [out] is the
    output buffer as the list of its elements, last one first.  An empty
    element and [.] are skipped; [..] removes the last element when there
    is one to remove ([out.w > dotdot] in the Go loop), is dropped at the
    root, and is kept in front of a relative path; any other element is
    appended. *)
Definition clean_step (rooted : bool) (out : list string) (el : string)
  : list string :=
  if str_eqb el "" then out
  else if str_eqb el "." then out
  else if str_eqb el ".." then
    match out with
    | top :: rest => if str_eqb top ".." then el :: out else rest
    | [] => if rooted then [] else [el]
    end
  else el :: out.

Definition Clean (path : string) : string :=
  if str_eqb path "" then "."
  else
    let rooted := IsAbs path in
    let out := fold_left (clean_step rooted) (split_byte Separator path) [] in
    if rooted then "/" +:+ join_byte Separator (rev out)
    else match out with
         | [] => "."
         | _ => join_byte Separator (rev out)
         end.

(** [filepath.Join(a, b)]: empty leading elements are ignored. *)
Definition Join (a b : string) : string :=
  if negb (str_eqb a "") then Clean (a +:+ "/" +:+ b)
  else if negb (str_eqb b "") then Clean b
  else "".

(** [filepath.Abs]; [getwd] is the outcome of [os.Getwd]. *)
Definition Abs (getwd : result string) (path : string) : result string :=
  if IsAbs path then Val (Clean path)
  else match getwd with
       | Err e => Err e
       | Val wd => Val (Join wd path)
       end.

End filepath.


(** ** net/url *)

Module url.

Inductive encoding :=
| encodePath | encodePathSegment | encodeHost | encodeZone
| encodeUserPassword | encodeQueryComponent | encodeFragment.

Definition is_host_mode (mode : encoding) : bool :=
  match mode with encodeHost | encodeZone => true | _ => false end.

(** [c] is one of the bytes of [set]. *)
Definition one_of (set : string) (c : ascii) : bool :=
  str_exists (byte_eq c) set.

Definition shouldEscape (c : ascii) (mode : encoding) : bool :=
  if is_lower c || is_upper c || is_digit c then false
  else if is_host_mode mode && one_of ("!$&'()*+,;=:[]<>" +:+ dquote) c
  then false
  else if one_of "-_.~" c then false
  else if one_of "$&+,/:;=?@" c then
    match mode with
    | encodePath => byte_eq c "?"
    | encodePathSegment => one_of "/;,?" c
    | encodeUserPassword => one_of "@/?:" c
    | encodeQueryComponent => true
    | encodeFragment => false
    | encodeHost | encodeZone => true
    end
  else match mode with
       | encodeFragment => negb (one_of "!()*" c)
       | _ => true
       end.

Definition upperhex (n : Z) : ascii :=
  match String.get (Z.to_nat n) "0123456789ABCDEF" with
  | Some c => c
  | None => "0"
  end.

Definition ishex (c : ascii) : bool :=
  is_digit c || byte_in "a" "f" c || byte_in "A" "F" c.

Definition unhex (c : ascii) : Z :=
  if is_digit c then byte_val c - 48
  else if byte_in "a" "f" c then byte_val c - 97 + 10
  else if byte_in "A" "F" c then byte_val c - 65 + 10
  else 0.

Definition is_query_mode (mode : encoding) : bool :=
  match mode with encodeQueryComponent => true | _ => false end.

Fixpoint escape (s : string) (mode : encoding) : string :=
  match s with
  | EmptyString => EmptyString
  | String c s' =>
      if shouldEscape c mode then
        if byte_eq c " " && is_query_mode mode
        then String "+" (escape s' mode)
        else String "%" (String (upperhex (Z.shiftr (byte_val c) 4))
               (String (upperhex (Z.land (byte_val c) 15)) (escape s' mode)))
      else String c (escape s' mode)
  end.

(** First pass of [unescape]: every percent sign starts a well-formed
    escape, and a host holds no byte that must be escaped. *)
Fixpoint unescape_check (s : string) (mode : encoding) : option error :=
  match s with
  | EmptyString => None
  | String c s' =>
      if byte_eq c "%" then
        match s' with
        | String h1 (String h2 s'') =>
            if ishex h1 && ishex h2 then
              let esc := String c (String h1 (String h2 EmptyString)) in
              let v := byte_of_Z (Z.lor (Z.shiftl (unhex h1) 4) (unhex h2)) in
              match mode with
              | encodeHost =>
                  if (unhex h1 <? 8) && negb (str_eqb esc "%25")
                  then Some (EscapeError esc)
                  else unescape_check s'' mode
              | encodeZone =>
                  if negb (str_eqb esc "%25") && negb (byte_eq v " ")
                     && shouldEscape v encodeHost
                  then Some (EscapeError esc)
                  else unescape_check s'' mode
              | _ => unescape_check s'' mode
              end
            else Some (EscapeError (str_take 3 s))
        | _ => Some (EscapeError (str_take 3 s))
        end
      else if is_host_mode mode && (byte_val c <? 128)
              && shouldEscape c encodeHost
      then Some (InvalidHostError (String c EmptyString))
      else unescape_check s' mode
  end.

(** Second pass of [unescape], on a string that passed the first. *)
Fixpoint unescape_decode (s : string) (mode : encoding) : string :=
  match s with
  | EmptyString => EmptyString
  | String c s' =>
      if byte_eq c "%" then
        match s' with
        | String h1 (String h2 s'') =>
            String (byte_of_Z (Z.lor (Z.shiftl (unhex h1) 4) (unhex h2)))
                   (unescape_decode s'' mode)
        | _ => EmptyString
        end
      else if byte_eq c "+" && is_query_mode mode
      then String " " (unescape_decode s' mode)
      else String c (unescape_decode s' mode)
  end.

Definition unescape (s : string) (mode : encoding) : result string :=
  match unescape_check s mode with
  | Some e => Err e
  | None => Val (unescape_decode s mode)
  end.

Definition validEncoded (s : string) (mode : encoding) : bool :=
  str_forall (fun c => one_of "!$&'()*+,;=:@[]%" c || negb (shouldEscape c mode)) s.

(** [*url.URL]; [User] is the user name and the optional password. *)
Record URL := {
  Scheme : string;
  Opaque : string;
  User : option (string * option string);
  Host : string;
  Path : string;
  RawPath : string;
  OmitHost : bool;
  ForceQuery : bool;
  RawQuery : string;
  Fragment : string;
  RawFragment : string
}.

Definition empty : URL :=
  {| Scheme := ""; Opaque := ""; User := None; Host := ""; Path := "";
     RawPath := ""; OmitHost := false; ForceQuery := false; RawQuery := "";
     Fragment := ""; RawFragment := "" |}.

Definition nonempty (s : string) : bool := negb (str_eqb s "").

Definition EscapedPath (u : URL) : string :=
  if nonempty (RawPath u) && validEncoded (RawPath u) encodePath
     && match unescape (RawPath u) encodePath with
        | Val p => str_eqb p (Path u)
        | Err _ => false
        end
  then RawPath u
  else if str_eqb (Path u) "*" then "*"
  else escape (Path u) encodePath.

Definition EscapedFragment (u : URL) : string :=
  if nonempty (RawFragment u) && validEncoded (RawFragment u) encodeFragment
     && match unescape (RawFragment u) encodeFragment with
        | Val f => str_eqb f (Fragment u)
        | Err _ => false
        end
  then RawFragment u
  else escape (Fragment u) encodeFragment.

Definition Userinfo_String (ui : string * option string) : string :=
  match ui with
  | (name, None) => escape name encodeUserPassword
  | (name, Some pw) =>
      escape name encodeUserPassword +:+ ":" +:+ escape pw encodeUserPassword
  end.

Definition first_segment (path : string) : string :=
  match cut_byte "/" path with
  | Some (seg, _) => seg
  | None => path
  end.

(** The [String] method of a [URL]. *)
Definition String_ (u : URL) : string :=
  let scheme := if nonempty (Scheme u) then Scheme u +:+ ":" else "" in
  if nonempty (Opaque u) then
    scheme +:+ Opaque u
    +:+ (if ForceQuery u || nonempty (RawQuery u) then "?" +:+ RawQuery u else "")
    +:+ (if nonempty (Fragment u) then "#" +:+ EscapedFragment u else "")
  else
    let has_user := match User u with Some _ => true | None => false end in
    let authority :=
      if nonempty (Scheme u) || nonempty (Host u) || has_user then
        if OmitHost u && negb (nonempty (Host u)) && negb has_user then ""
        else
          (if nonempty (Host u) || nonempty (Path u) || has_user then "//" else "")
          +:+ match User u with
              | Some ui => Userinfo_String ui +:+ "@"
              | None => ""
              end
          +:+ (if nonempty (Host u) then escape (Host u) encodeHost else "")
      else "" in
    let path := EscapedPath u in
    let lead :=
      if nonempty path && negb (HasPrefix path "/") && nonempty (Host u)
      then "/" else "" in
    let buf := scheme +:+ authority +:+ lead in
    let dot :=
      if negb (nonempty buf) && Contains (first_segment path) ":"
      then "./" else "" in
    buf +:+ dot +:+ path
    +:+ (if ForceQuery u || nonempty (RawQuery u) then "?" +:+ RawQuery u else "")
    +:+ (if nonempty (Fragment u) then "#" +:+ EscapedFragment u else "").

(** *** Parsing *)

Inductive scheme_scan :=
| NoScheme
| MissingScheme
| FoundScheme (scheme rest : string).

(** The loop of [getScheme]; [first] says that the byte is [rawURL[0]]. *)
Fixpoint getScheme_loop (first : bool) (s : string) : scheme_scan :=
  match s with
  | EmptyString => NoScheme
  | String c s' =>
      let continue :=
        match getScheme_loop false s' with
        | FoundScheme sc rest => FoundScheme (String c sc) rest
        | r => r
        end in
      if is_alpha c then continue
      else if is_digit c || one_of "+-." c then
        if first then NoScheme else continue
      else if byte_eq c ":" then
        if first then MissingScheme else FoundScheme EmptyString s'
      else NoScheme
  end.

Definition getScheme (rawURL : string) : result (string * string) :=
  match getScheme_loop true rawURL with
  | NoScheme => Val (EmptyString, rawURL)
  | MissingScheme => Err (errorString "missing protocol scheme")
  | FoundScheme sc rest => Val (sc, rest)
  end.

Definition stringContainsCTLByte (s : string) : bool :=
  str_exists (fun c => (byte_val c <? 32) || (byte_val c =? 127)) s.

Definition validOptionalPort (port : string) : bool :=
  match port with
  | EmptyString => true
  | String c ds => byte_eq c ":" && str_forall is_digit ds
  end.

Definition validUserinfo (s : string) : bool :=
  str_forall (fun c => is_alpha c || is_digit c
                       || one_of "-._:~!$&'()*+,;=%@" c) s.

(** The first occurrence of [%25] in [s]: the text before it and the text
    from it on. *)
Fixpoint cut_zone (s : string) : option (string * string) :=
  if HasPrefix s "%25" then Some (EmptyString, s)
  else match s with
       | EmptyString => None
       | String c s' =>
           match cut_zone s' with
           | Some (a, b) => Some (String c a, b)
           | None => None
           end
       end.

Definition parseHost (host : string) : result string :=
  let plain :=
    match unescape host encodeHost with
    | Val h => Val h
    | Err e => Err e
    end in
  if HasPrefix host "[" then
    match cut_last_byte "]" host with
    | None => Err (errorString "missing ']' in host")
    | Some (lit, colonPort) =>
        if negb (validOptionalPort colonPort)
        then Err (errorString "invalid port after host")
        else match cut_zone lit with
             | Some (h1, zone) =>
                 match unescape h1 encodeHost with
                 | Err e => Err e
                 | Val host1 =>
                     match unescape zone encodeZone with
                     | Err e => Err e
                     | Val host2 =>
                         match unescape ("]" +:+ colonPort) encodeHost with
                         | Err e => Err e
                         | Val host3 => Val (host1 +:+ host2 +:+ host3)
                         end
                     end
                 end
             | None => plain
             end
    end
  else match cut_last_byte ":" host with
       | Some (_, port) =>
           if negb (validOptionalPort (":" +:+ port))
           then Err (errorString "invalid port after host")
           else plain
       | None => plain
       end.

Definition parseAuthority (authority : string)
  : result (option (string * option string) * string) :=
  match cut_last_byte "@" authority with
  | None =>
      match parseHost authority with
      | Err e => Err e
      | Val host => Val (None, host)
      end
  | Some (userinfo, hostpart) =>
      match parseHost hostpart with
      | Err e => Err e
      | Val host =>
          if negb (validUserinfo userinfo)
          then Err (errorString "net/url: invalid userinfo")
          else match cut_byte ":" userinfo with
               | None =>
                   match unescape userinfo encodeUserPassword with
                   | Err e => Err e
                   | Val name => Val (Some (name, None), host)
                   end
               | Some (username, password) =>
                   match unescape username encodeUserPassword with
                   | Err e => Err e
                   | Val name =>
                       match unescape password encodeUserPassword with
                       | Err e => Err e
                       | Val pw => Val (Some (name, Some pw), host)
                       end
                   end
               end
      end
  end.

(** [setPath]: [Path] is the decoded path, [RawPath] the path as given
    when it is not the default encoding of [Path]. *)
Definition setPath (u : URL) (p : string) : result URL :=
  match unescape p encodePath with
  | Err e => Err e
  | Val path =>
      Val {| Scheme := Scheme u; Opaque := Opaque u; User := User u;
             Host := Host u; Path := path;
             RawPath := if str_eqb p (escape path encodePath) then "" else p;
             OmitHost := OmitHost u; ForceQuery := ForceQuery u;
             RawQuery := RawQuery u; Fragment := Fragment u;
             RawFragment := RawFragment u |}
  end.

Definition setFragment (u : URL) (f : string) : result URL :=
  match unescape f encodeFragment with
  | Err e => Err e
  | Val frag =>
      Val {| Scheme := Scheme u; Opaque := Opaque u; User := User u;
             Host := Host u; Path := Path u; RawPath := RawPath u;
             OmitHost := OmitHost u; ForceQuery := ForceQuery u;
             RawQuery := RawQuery u; Fragment := frag;
             RawFragment :=
               if str_eqb f (escape frag encodeFragment) then "" else f |}
  end.

(** [parse(rawURL, false)]: the URL without its fragment. *)
Definition parse (rawURL : string) : result URL :=
  if stringContainsCTLByte rawURL
  then Err (errorString "net/url: invalid control character in URL")
  else if str_eqb rawURL "*"
  then Val {| Scheme := ""; Opaque := ""; User := None; Host := "";
              Path := "*"; RawPath := ""; OmitHost := false;
              ForceQuery := false; RawQuery := ""; Fragment := "";
              RawFragment := "" |}
  else
    match getScheme rawURL with
    | Err e => Err e
    | Val (scheme0, rest0) =>
        let scheme := str_map to_lower scheme0 in
        let '(rest, force, query) :=
          match cut_byte "?" rest0 with
          | Some (a, b) => if str_eqb b "" then (a, true, b) else (a, false, b)
          | None => (rest0, false, EmptyString)
          end in
        let u0 := {| Scheme := scheme; Opaque := ""; User := None; Host := "";
                     Path := ""; RawPath := ""; OmitHost := false;
                     ForceQuery := force; RawQuery := query; Fragment := "";
                     RawFragment := "" |} in
        if negb (HasPrefix rest "/") && nonempty scheme then
          Val {| Scheme := scheme; Opaque := rest; User := None; Host := "";
                 Path := ""; RawPath := ""; OmitHost := false;
                 ForceQuery := force; RawQuery := query; Fragment := "";
                 RawFragment := "" |}
        else if negb (HasPrefix rest "/") && Contains (first_segment rest) ":"
        then Err (errorString "first path segment in URL cannot contain colon")
        else if (nonempty scheme || negb (HasPrefix rest "///"))
                && HasPrefix rest "//" then
          let after := str_drop 2 rest in
          let '(authority, rest') :=
            match cut_byte "/" after with
            | Some (a, b) => (a, "/" +:+ b)
            | None => (after, EmptyString)
            end in
          match parseAuthority authority with
          | Err e => Err e
          | Val (user, host) =>
              setPath {| Scheme := scheme; Opaque := ""; User := user;
                         Host := host; Path := ""; RawPath := "";
                         OmitHost := false; ForceQuery := force;
                         RawQuery := query; Fragment := "";
                         RawFragment := "" |} rest'
          end
        else if nonempty scheme && HasPrefix rest "/" then
          setPath {| Scheme := scheme; Opaque := ""; User := None; Host := "";
                     Path := ""; RawPath := ""; OmitHost := true;
                     ForceQuery := force; RawQuery := query; Fragment := "";
                     RawFragment := "" |} rest
        else setPath u0 rest
    end.

(** [url.Parse]. *)
Definition Parse (rawURL : string) : result URL :=
  let '(u, frag) :=
    match cut_byte "#" rawURL with
    | Some (a, b) => (a, b)
    | None => (rawURL, EmptyString)
    end in
  match parse u with
  | Err e => Err (urlError "parse" u e)
  | Val url =>
      if str_eqb frag "" then Val url
      else match setFragment url frag with
           | Err e => Err (urlError "parse" rawURL e)
           | Val url' => Val url'
           end
  end.

End url.

(** ** net/textproto and net/http *)

Module textproto.

(** The token bytes of a header field name. *)
Definition validHeaderFieldByte (c : ascii) : bool :=
  is_alpha c || is_digit c || url.one_of "!#$%&'*+-.^_`|~" c.

(** Upper case for the first letter and for a letter after a hyphen, lower
    case for the others. *)
Fixpoint canon_case (upper : bool) (s : string) : string :=
  match s with
  | EmptyString => EmptyString
  | String c s' =>
      let c' := if upper then to_upper c else to_lower c in
      String c' (canon_case (byte_eq c' "-") s')
  end.

(** A name with a byte that is no token byte is returned as it is. *)
Definition CanonicalMIMEHeaderKey (s : string) : string :=
  if str_forall validHeaderFieldByte s then canon_case true s else s.

End textproto.

Module http.

Abbreviation Header := (gmap string (list string)).

Definition Header_Set (h : Header) (key value : string) : Header :=
  <[textproto.CanonicalMIMEHeaderKey key := [value]]> h.

Definition Header_Get (h : Header) (key : string) : string :=
  match h !! textproto.CanonicalMIMEHeaderKey key with
  | Some (v :: _) => v
  | _ => EmptyString
  end.

Record Request := {
  Method : string;
  URL : url.URL;
  ReqHeader : Header
}.

(** A response body: the bytes the reader delivers and, when reading
    fails, the error met after them. *)
Record Body := {
  body_bytes : string;
  body_err : option error
}.

Record Response := {
  StatusCode : Z;
  Status : string;
  RespHeader : Header;
  RespBody : Body
}.

(** What [Client.Do] returns: a response, or an error with no response
    (the server cannot be reached, the TLS handshake fails, ...), or an
    error together with the last response (a refused redirect). *)
Inductive DoResult :=
| DoResponse (resp : Response)
| DoError (err : error) (resp : option Response).

Definition hasPort (host : string) : bool :=
  match cut_last_byte ":" host with
  | None => false
  | Some (_, after) =>
      match cut_last_byte "]" after with
      | None => true
      | Some _ => false
      end
  end.

Definition removeEmptyPort (host : string) : string :=
  if hasPort host then
    match cut_last_byte ":" host with
    | Some (h, EmptyString) => h
    | _ => host
    end
  else host.

Definition with_Host (u : url.URL) (host : string) : url.URL :=
  {| url.Scheme := url.Scheme u; url.Opaque := url.Opaque u;
     url.User := url.User u; url.Host := host; url.Path := url.Path u;
     url.RawPath := url.RawPath u; url.OmitHost := url.OmitHost u;
     url.ForceQuery := url.ForceQuery u; url.RawQuery := url.RawQuery u;
     url.Fragment := url.Fragment u; url.RawFragment := url.RawFragment u |}.

(** [http.NewRequest(method, url, nil)] for a valid method. *)
Definition NewRequest (method rawurl : string) : result Request :=
  match url.Parse rawurl with
  | Err e => Err e
  | Val u =>
      Val {| Method := method;
             URL := with_Host u (removeEmptyPort (url.Host u));
             ReqHeader := ∅ |}
  end.

Definition set_header (req : Request) (key value : string) : Request :=
  {| Method := Method req; URL := URL req;
     ReqHeader := Header_Set (ReqHeader req) key value |}.

Definition StatusOK : Z := 200.
Definition StatusNotModified : Z := 304.
Definition StatusUnauthorized : Z := 401.
Definition StatusForbidden : Z := 403.
Definition MethodGet : string := "GET".

End http.

(** ** diag *)

Module diag.

Inductive Severity := Error | Warning.

Record Diagnostic := {
  Sev : Severity;
  Summary : string;
  Detail : string
}.

Definition Diagnostics := list Diagnostic.

Definition is_error (d : Diagnostic) : bool :=
  match Sev d with Error => true | Warning => false end.

Definition HasError (ds : Diagnostics) : bool := existsb is_error ds.

End diag.

(** ** The world the provider runs in *)

(** [schema.ResourceData]: the resource identity, the string-valued fields,
    and the [headers] map as the pairs a [range] over it yields (their order
    is the iteration order, which Go leaves unspecified). *)
Record ResourceData := {
  d_id : string;
  d_attrs : gmap string string;
  d_headers : list (string * string)
}.

(** [data.Get(key).(string)]: the zero value when the field is not set. *)
Definition data_Get (d : ResourceData) (key : string) : string :=
  default EmptyString (d_attrs d !! key).

(** [data.GetOk(key)]: the value, and whether it is set to a non-zero
    value. *)
Definition data_GetOk (d : ResourceData) (key : string) : string * bool :=
  (data_Get d key, negb (str_eqb (data_Get d key) "")).

(** A regular file: its bytes, its mode, and the offset at which reading it
    fails, if it does. *)
Record file := {
  f_data : string;
  f_mode : Z;
  f_bad : option nat
}.

(** What a path names: a regular file, a directory that is not empty, or
    something the process may not touch. *)
Inductive node :=
| File (f : file)
| Dir (mode : Z)
| Denied.

(** The calls that leave the process, in the order they are made. *)
Inductive event :=
| EvOpen (path : string)
| EvStat (path : string)
| EvRead (path : string)
| EvCreate (path : string) (mode : Z)
| EvWrite (path : string) (bytes : string)
| EvClose (path : string)
| EvRemove (path : string)
| EvChmod (path : string) (mode : Z)
| EvHTTP (req : http.Request).

Record World := {
  fs : gmap string node;
  data : ResourceData;
  log : list event
}.

(** What the program does not decide: the digest and the parsers of the
    standard library that are taken as given, the working directory, the
    server, and the faults of the file system. *)
Record Env := {
  (** [hex.EncodeToString] of the SHA-256 digest of the bytes *)
  sha256_hex : string -> string;
  (** [mime.ParseMediaType]: the media type, or an error *)
  ParseMediaType : string -> result string;
  (** [strconv.Quote] *)
  Quote : string -> string;
  (** [os.Getwd] *)
  Getwd : result string;
  (** [(&http.Client).Do] *)
  client_Do : http.Request -> http.DoResult;
  (** the number of bytes that can be written to a path before a write to
      it fails, if there is such a limit *)
  write_quota : string -> option nat;
  (** closing a file written at this path reports an error *)
  close_fails : string -> bool
}.

(** A run either returns or panics. *)
Inductive outcome (A : Type) :=
| Done (a : A) (w : World)
| Panic (w : World).
Arguments Done {A} a w.
Arguments Panic {A} w.

Definition M (A : Type) : Type := World -> outcome A.

#[export] Instance M_ret : MRet M := fun A a w => Done a w.
#[export] Instance M_bind : MBind M := fun A B f m w =>
  match m w with
  | Done a w' => f a w'
  | Panic w' => Panic w'
  end.

Definition panic {A} : M A := fun w => Panic w.

Definition get_data : M ResourceData := fun w => Done (data w) w.
Definition get_fs : M (gmap string node) := fun w => Done (fs w) w.

Definition put_fs (m : gmap string node) : M unit := fun w =>
  Done tt {| fs := m; data := data w; log := log w |}.

Definition emit (e : event) : M unit := fun w =>
  Done tt {| fs := fs w; data := data w; log := log w ++ [e] |}.

(** [data.Set(key, value)]. *)
Definition data_Set (key value : string) : M unit := fun w =>
  Done tt {| fs := fs w;
             data := {| d_id := d_id (data w);
                        d_attrs := <[key := value]> (d_attrs (data w));
                        d_headers := d_headers (data w) |};
             log := log w |}.

(** [data.SetId(id)]. *)
Definition data_SetId (id : string) : M unit := fun w =>
  Done tt {| fs := fs w;
             data := {| d_id := id; d_attrs := d_attrs (data w);
                        d_headers := d_headers (data w) |};
             log := log w |}.

(** ** os and io *)

Module os.

(** The permission bits of a mode. *)
Definition Perm (mode : Z) : Z := Z.land mode 511.

Definition mode_letter (mode : Z) (bit : Z) (c : ascii) : string :=
  if Z.testbit mode bit then String c EmptyString else EmptyString.

Fixpoint type_letters (mode : Z) (i : Z) (s : string) : string :=
  match s with
  | EmptyString => EmptyString
  | String c s' => mode_letter mode (31 - i) c +:+ type_letters mode (i + 1) s'
  end.

Fixpoint perm_letters (mode : Z) (i : Z) (s : string) : string :=
  match s with
  | EmptyString => EmptyString
  | String c s' =>
      String (if Z.testbit mode (8 - i) then c else "-"%char)
             (perm_letters mode (i + 1) s')
  end.

(** The [String] method of [os.FileMode]. *)
Definition FileMode_String (mode : Z) : string :=
  let t := type_letters mode 0 "dalTLDpSugct?" in
  (if str_eqb t "" then "-" else t) +:+ perm_letters mode 0 "rwxrwxrwx".

(** A call to the system: it is logged, it returns what [f] computes from
    the file system, and it leaves the file system as [f] says. *)
Definition call {A} (ev : event) (f : gmap string node -> A * gmap string node)
  : M A := fun w =>
  Done (f (fs w)).1
       {| fs := (f (fs w)).2; data := data w; log := log w ++ [ev] |}.

Definition stat_of (m : gmap string node) (path : string) : result Z :=
  match m !! path with
  | None => Err (PathError "stat" path ENOENT)
  | Some Denied => Err (PathError "stat" path EACCES)
  | Some (File f) => Val (f_mode f)
  | Some (Dir mode) => Val mode
  end.

Definition Stat (path : string) : M (result Z) :=
  call (EvStat path) (fun m => (stat_of m path, m)).

Definition open_of (m : gmap string node) (path : string) : result string :=
  match m !! path with
  | None => Err (PathError "open" path ENOENT)
  | Some Denied => Err (PathError "open" path EACCES)
  | Some _ => Val path
  end.

(** [os.Open]: the handle is the path. *)
Definition Open (path : string) : M (result string) :=
  call (EvOpen path) (fun m => (open_of m path, m)).

Definition create_of (m : gmap string node) (path : string) (mode : Z)
  : result string * gmap string node :=
  match m !! path with
  | None =>
      (Val path,
       <[path := File {| f_data := ""; f_mode := Perm mode; f_bad := None |}]> m)
  | Some (File f) =>
      (Val path,
       <[path := File {| f_data := ""; f_mode := f_mode f; f_bad := None |}]> m)
  | Some (Dir _) => (Err (PathError "open" path EISDIR), m)
  | Some Denied => (Err (PathError "open" path EACCES), m)
  end.

(** [os.OpenFile(path, O_CREATE|O_TRUNC|O_WRONLY, mode)]: a missing file
    is created empty with the permission bits of [mode] (the umask of the
    process is zero), an existing one is truncated and keeps its mode. *)
Definition OpenFile (path : string) (mode : Z) : M (result string) :=
  call (EvCreate path mode) (fun m => create_of m path mode).

Definition remove_of (m : gmap string node) (path : string)
  : option error * gmap string node :=
  match m !! path with
  | None => (Some (PathError "remove" path ENOENT), m)
  | Some (File _) => (None, delete path m)
  | Some (Dir _) => (Some (PathError "remove" path ENOTEMPTY), m)
  | Some Denied => (Some (PathError "remove" path EACCES), m)
  end.

Definition Remove (path : string) : M (option error) :=
  call (EvRemove path) (fun m => remove_of m path).

Definition chmod_of (m : gmap string node) (path : string) (mode : Z)
  : option error * gmap string node :=
  match m !! path with
  | None => (Some (PathError "chmod" path ENOENT), m)
  | Some (File f) =>
      (None,
       <[path := File {| f_data := f_data f; f_mode := Perm mode;
                         f_bad := f_bad f |}]> m)
  | Some (Dir _) => (None, <[path := Dir (Perm mode)]> m)
  | Some Denied => (Some (PathError "chmod" path EACCES), m)
  end.

Definition Chmod (path : string) (mode : Z) : M (option error) :=
  call (EvChmod path mode) (fun m => chmod_of m path mode).

(** The [Stat] method of an open file. *)
Definition File_Stat (fd : string) : M (result Z) := Stat fd.

Definition read_of (m : gmap string node) (fd : string)
  : string * option error :=
  match m !! fd with
  | Some (File f) =>
      match f_bad f with
      | None => (f_data f, None)
      | Some n => (str_take n (f_data f), Some (PathError "read" fd EIO))
      end
  | Some (Dir _) => (EmptyString, Some (PathError "read" fd EISDIR))
  | _ => (EmptyString, Some (PathError "read" fd EIO))
  end.

(** Reading an open file to its end: the bytes read and the error that
    stopped the reading, if one did. *)
Definition File_read (fd : string) : M (string * option error) :=
  call (EvRead fd) (fun m => (read_of m fd, m)).

(** The [Close] method of an open file. *)
Definition File_Close (env : Env) (fd : string) : M (option error) :=
  call (EvClose fd)
       (fun m => (if close_fails env fd then Some (PathError "close" fd EIO)
                  else None, m)).

Definition append_of (m : gmap string node) (fd : string) (bytes : string)
  : gmap string node :=
  match m !! fd with
  | Some (File f) =>
      <[fd := File {| f_data := f_data f +:+ bytes; f_mode := f_mode f;
                      f_bad := f_bad f |}]> m
  | _ => m
  end.

(** Appending [bytes] to the file open for writing at [fd]. *)
Definition File_append (fd : string) (bytes : string) : M unit :=
  call (EvWrite fd bytes) (fun m => (tt, append_of m fd bytes)).

End os.

Module io.

(** What a copy to [dest] achieves when the source delivers [bytes] and
    then ends, or fails with [rderr]: the bytes written, up to the quota of
    the path, and the error of the copy. *)
Definition copy_plan (quota : option nat) (dest : string) (bytes : string)
           (rderr : option error) : string * option error :=
  match quota with
  | Some q =>
      if (q <? String.length bytes)%nat
      then (str_take q bytes, Some (PathError "write" dest ENOSPC))
      else (bytes, rderr)
  | None => (bytes, rderr)
  end.

(** [io.Copy(dest, src)] into a file. *)
Definition Copy (env : Env) (dest : string) (bytes : string)
           (rderr : option error) : M (option error) :=
  let plan := copy_plan (write_quota env dest) dest bytes rderr in
  os.File_append dest plan.1;;
  mret plan.2.

End io.

(** ** The provider *)

Section Provider.

Variable env : Env.

Definition Errorf (format : string) (args : list string) : error :=
  errorString (fmt.Sprintf (Quote env) format args).

Definition Errorf_w (format : string) (args : list string) (err : error)
  : error :=
  wrapError format args err.

(** [diag.FromErr] on an error that is not nil. *)
Definition FromErr (err : error) : diag.Diagnostics :=
  [ {| diag.Sev := diag.Error;
       diag.Summary := fmt.Error (Quote env) err;
       diag.Detail := "" |} ].

(** *** The identity codec *)

Definition idToFile (id : string) : result string :=
  match url.Parse id with
  | Err err => Err (Errorf_w "invalid id format %q: %w" [id] err)
  | Val u =>
      if negb (str_eqb (url.Scheme u) "file")
      then Err (Errorf "invalid id scheme %q, should be 'file'" [url.Scheme u])
      else filepath.Abs (Getwd env) (filepath.FromSlash (url.Path u))
  end.

Definition fileToID (file : string) : result string :=
  match filepath.Abs (Getwd env) file with
  | Err err => Err err
  | Val abs =>
      Val (url.String_
             {| url.Scheme := "file"; url.Opaque := ""; url.User := None;
                url.Host := ""; url.Path := filepath.ToSlash abs;
                url.RawPath := ""; url.OmitHost := false;
                url.ForceQuery := false; url.RawQuery := "";
                url.Fragment := ""; url.RawFragment := "" |})
  end.

(** *** The content fingerprint *)

Definition hashFile (filename : string) : M (result string) :=
  r ← os.Open filename;
  match r with
  | Err err => mret (Err err)
  | Val fd =>
      '(bytes, rderr) ← os.File_read fd;
      _ ← os.File_Close env fd;
      match rderr with
      | Some err =>
          mret (Err (Errorf_w "could not hash file %q: %w" [filename] err))
      | None => mret (Val (sha256_hex env bytes))
      end
  end.

(** *** The local copy engine *)

Definition copyFile (source destination : string) (mode : Z)
  : M (option error) :=
  r ← os.Open source;
  match r with
  | Err err =>
      mret (Some (Errorf_w "could not open source file %q: %w" [source] err))
  | Val src =>
      rmode ← (if mode =? 0 then os.File_Stat src else mret (Val mode));
      match rmode with
      | Err err =>
          _ ← os.File_Close env src;
          mret (Some (Errorf_w "could not stat source file %q: %w"
                               [source] err))
      | Val mode =>
          r ← os.OpenFile destination mode;
          match r with
          | Err err =>
              _ ← os.File_Close env src;
              mret (Some (Errorf_w "could not create destination file %q: %w"
                                   [destination] err))
          | Val dest =>
              '(bytes, rderr) ← os.File_read src;
              cerr ← io.Copy env dest bytes rderr;
              match cerr with
              | Some err =>
                  (* clean up dest *)
                  _ ← os.File_Close env dest;
                  _ ← os.Remove destination;
                  _ ← os.File_Close env dest;
                  _ ← os.File_Close env src;
                  mret (Some (Errorf_w "error copying %q => %q: %w"
                                       [source; destination] err))
              | None =>
                  closeErr ← os.File_Close env dest;
                  _ ← os.File_Close env src;
                  mret closeErr
              end
          end
      end
  end.

Definition invalid_mode_diag (err : error) : diag.Diagnostic :=
  {| diag.Sev := diag.Error;
     diag.Summary := "file_mode is not a valid octal number";
     diag.Detail := fmt.Error (Quote env) err |}.

Definition ensureFileMode : M diag.Diagnostics :=
  d ← get_data;
  let source := data_Get d "source" in
  let dest := data_Get d "destination" in
  destStat ← os.Stat dest;
  match destStat with
  | Err err =>
      mret (FromErr (Errorf_w "could not stat destination %q: %w" [dest] err))
  | Val destMode =>
      let '(v, ok) := data_GetOk d "file_mode" in
      rmode ←
        (if ok then
           match strconv.ParseUint v 8 32 with
           | Err err => mret (inl [invalid_mode_diag err])
           | Val m => mret (inr m)
           end
         else
           srcStat ← os.Stat source;
           match srcStat with
           | Err err =>
               mret (inl (FromErr (Errorf_w "could not stat source %q: %w"
                                            [dest] err)))
           | Val srcMode => mret (inr srcMode)
           end);
      match rmode with
      | inl diags => mret diags
      | inr mode =>
          if mode =? destMode then mret []
          else
            cerr ← os.Chmod dest mode;
            match cerr with
            | Some err =>
                mret (FromErr (Errorf_w "failed to chmod %s %q: %w"
                                        [os.FileMode_String mode; dest] err))
            | None => mret []
            end
      end
  end.

Definition ensureCopyFile : M diag.Diagnostics :=
  d ← get_data;
  let source := data_Get d "source" in
  let dest := data_Get d "destination" in
  rs ← hashFile source;
  match rs with
  | Err err => mret (FromErr err)
  | Val sourceHash =>
      rd ← hashFile dest;
      if match rd with
         | Val destHash => str_eqb destHash sourceHash
         | Err _ => false
         end
      then ensureFileMode
      else
        let '(v, ok) := data_GetOk d "file_mode" in
        match (if ok then strconv.ParseUint v 8 32 else Val 0) with
        | Err err => mret [invalid_mode_diag err]
        | Val mode =>
            cerr ← copyFile source dest mode;
            match cerr with
            | Some err => mret (FromErr err)
            | None => data_Set "content_sha256" sourceHash;; mret []
            end
        end
  end.

Definition resourceFileDelete : M diag.Diagnostics :=
  d ← get_data;
  let id := d_id d in
  match idToFile id with
  | Err err => mret (FromErr err)
  | Val name =>
      st ← os.Stat name;
      match st with
      | Err err =>
          if IsNotExist err then mret []
          else mret (FromErr (Errorf_w "could not stat file %q: %w" [name] err))
      | Val _ =>
          rerr ← os.Remove name;
          match rerr with
          | Some err =>
              mret (FromErr (Errorf_w "could not remove file %q: %w"
                                      [name] err))
          | None => mret []
          end
      end
  end.

Definition resourceFileRead : M diag.Diagnostics :=
  d ← get_data;
  match idToFile (d_id d) with
  | Err err => mret (FromErr err)
  | Val file =>
      r ← hashFile file;
      match r with
      | Err err =>
          if IsNotExist err then data_SetId "";; mret []
          else mret (FromErr err)
      | Val fileHash => data_Set "content_sha256" fileHash;; mret []
      end
  end.

Definition resourceFileUpdate : M diag.Diagnostics :=
  diags ← ensureCopyFile;
  if diag.HasError diags then mret diags
  else resourceFileRead.

Definition resourceFileCreate : M diag.Diagnostics :=
  diags ← ensureCopyFile;
  if diag.HasError diags then mret diags
  else
    d ← get_data;
    match fileToID (data_Get d "destination") with
    | Err err => mret (FromErr err)
    | Val id => data_SetId id;; mret diags
    end.

(** *** The remote fetch engine *)

Definition makeRequest (method : string) (d : ResourceData)
  : result http.Request :=
  let source := data_Get d "url" in
  let etag := data_Get d "etag" in
  let modified := data_Get d "last_modified" in
  match http.NewRequest method source with
  | Err err => Err err
  | Val req =>
      let req :=
        fold_left (fun r kv => http.set_header r (fst kv) (snd kv))
                  (d_headers d) req in
      Val (if negb (str_eqb etag "")
           then http.set_header req "If-None-Match" etag
           else if negb (str_eqb modified "")
                then http.set_header req "If-Modified-Since" modified
                else req)
  end.

Definition getFileMode (d : ResourceData) : result Z :=
  let '(v, ok) := data_GetOk d "file_mode" in
  if ok then
    match strconv.ParseUint v 8 32 with
    | Err _ => Err (Errorf "file_mode is not a valid octal number" [])
    | Val m => Val m
    end
  else Val 436.

Definition getNormalizedMediaType (contentType : string) : string :=
  match ParseMediaType env contentType with
  | Err _ => ""
  | Val mt =>
      match cut_byte "/" mt with
      | None => ""
      | Some (_, EmptyString) => ""
      | Some (type, _) =>
          match cut_last_byte "+" mt with
          | Some (_, EmptyString) => ""
          | Some (_, suffix) => type +:+ "/" +:+ suffix
          | None => mt
          end
      end
  end.

Definition isTextual (contentType : string) : bool :=
  let mt := getNormalizedMediaType contentType in
  if str_eqb mt "" then false
  else if HasPrefix mt "text/" then true
  else str_eqb mt "application/json" || str_eqb mt "application/xml"
       || str_eqb mt "application/yaml" || str_eqb mt "application/x-yaml".

Definition diagResponseError (resp : http.Response) (format : string)
           (v : list string) : diag.Diagnostics :=
  let primary detail :=
    {| diag.Sev := diag.Error;
       diag.Summary := fmt.Sprintf (Quote env) format v;
       diag.Detail := detail |} in
  if isTextual (http.Header_Get (http.RespHeader resp) "Content-Type") then
    match http.body_err (http.RespBody resp) with
    | Some err =>
        [ {| diag.Sev := diag.Warning;
             diag.Summary := "could not read response body";
             diag.Detail := fmt.Error (Quote env) err |};
          primary "" ]
    | None => [ primary (http.body_bytes (http.RespBody resp)) ]
    end
  else [ primary "" ].

Definition writeResponseBody (body : http.Body) (filename : string) (mode : Z)
  : M (option error) :=
  let mode := if mode =? 0 then 420 else mode in
  r ← os.OpenFile filename mode;
  match r with
  | Err err =>
      mret (Some (Errorf_w "could not create destination file %q: %w"
                           [filename] err))
  | Val dest =>
      cerr ← io.Copy env dest (http.body_bytes body) (http.body_err body);
      match cerr with
      | Some err =>
          (* clean up dest *)
          _ ← os.File_Close env dest;
          _ ← os.Remove filename;
          _ ← os.File_Close env dest;
          mret (Some (Errorf_w "error reading request body into %q: %w"
                               [filename] err))
      | None => os.File_Close env dest
      end
  end.

Definition msg_unauthorized : string :=
  "this url requires authorization. You may need to add Authorization header to this resource".

Definition msg_forbidden : string :=
  "the server rejected your auth credentials. They may be expired or you may not be allowed to download this anymore.".

Definition msg_unexpected : string :=
  "the server returned an unexpected response code: %s".

Definition ensureDownloadFile (mode : Z) : M diag.Diagnostics :=
  d ← get_data;
  match makeRequest http.MethodGet d with
  | Err err => mret (FromErr err)
  | Val req =>
      emit (EvHTTP req);;
      (* on an error of Do the diagnostics are built and dropped, and the
         run goes on with the response *)
      let resp :=
        match client_Do env req with
        | http.DoResponse resp => Some resp
        | http.DoError _ resp => resp
        end in
      let dest := data_Get d "filename" in
      match resp with
      | None => panic (* resp.Body of a nil response *)
      | Some resp =>
          let code := http.StatusCode resp in
          if code =? http.StatusNotModified then mret []
          else if code =? http.StatusOK then
            data_Set "etag" (http.Header_Get (http.RespHeader resp) "ETag");;
            data_Set "last_modified"
                     (http.Header_Get (http.RespHeader resp) "Last-Modified");;
            werr ← writeResponseBody (http.RespBody resp) dest mode;
            match werr with
            | Some err => mret (FromErr err)
            | None =>
                data_Set "content_sha256"
                  (sha256_hex env (http.body_bytes (http.RespBody resp)));;
                mret []
            end
          else if code =? http.StatusUnauthorized then
            mret (diagResponseError resp msg_unauthorized [])
          else if code =? http.StatusForbidden then
            mret (diagResponseError resp msg_forbidden [])
          else mret (diagResponseError resp msg_unexpected [http.Status resp])
      end
  end.

Definition resourceURLDelete : M diag.Diagnostics :=
  d ← get_data;
  let id := d_id d in
  match idToFile id with
  | Err err => mret (FromErr err)
  | Val name =>
      st ← os.Stat name;
      match st with
      | Err err =>
          if IsNotExist err then mret []
          else mret (FromErr (Errorf_w "could not stat file %q: %w" [name] err))
      | Val _ =>
          rerr ← os.Remove name;
          match rerr with
          | Some err =>
              mret (FromErr (Errorf_w "could not remove file %q: %w"
                                      [name] err))
          | None => mret []
          end
      end
  end.

Definition resourceURLRead : M diag.Diagnostics :=
  d ← get_data;
  match idToFile (d_id d) with
  | Err err => mret (FromErr err)
  | Val file =>
      st ← os.Stat file;
      match st with
      | Err err =>
          if IsNotExist err then data_SetId "";; mret []
          else mret (FromErr err)
      | Val _ =>
          match getFileMode d with
          | Err err => mret (FromErr err)
          | Val mode => ensureDownloadFile mode
          end
      end
  end.

Definition resourceURLCreate : M diag.Diagnostics :=
  d ← get_data;
  match getFileMode d with
  | Err err => mret (FromErr err)
  | Val mode =>
      diags ← ensureDownloadFile mode;
      if diag.HasError diags then mret diags
      else
        d ← get_data;
        match fileToID (data_Get d "filename") with
        | Err err => mret (FromErr err)
        | Val id => data_SetId id;; mret diags
        end
  end.

End Provider.

(** ** An environment for the worked examples *)

(** Go's quoting of a text that needs no escape. *)
Definition quote_plain (s : string) : string := dquote +:+ s +:+ dquote.

(** The media type before the parameters, in lower case. *)
Definition media_type_plain (v : string) : result string :=
  let base := match cut_byte ";" v with
              | Some (b, _) => b
              | None => v
              end in
  if str_eqb base "" then Err (errorString "mime: no media type")
  else Val (str_map to_lower base).

(** The examples stand on a server [srv] and on a file system with no
    faults.  The digest is a stand-in that tags the bytes: no theorem
    depends on which function it is. *)
Definition test_env (srv : http.Request -> http.DoResult) : Env :=
  {| sha256_hex := fun bytes => "sha256:" +:+ bytes;
     ParseMediaType := media_type_plain;
     Quote := quote_plain;
     Getwd := Val "/work";
     client_Do := srv;
     write_quota := fun _ => None;
     close_fails := fun _ => false |}.

(** The same with a working directory that cannot be found. *)
Definition no_cwd_env : Env :=
  {| sha256_hex := fun bytes => "sha256:" +:+ bytes;
     ParseMediaType := media_type_plain;
     Quote := quote_plain;
     Getwd := Err (PathError "getwd" "." ENOENT);
     client_Do := fun _ =>
       http.DoError (errorString "dial tcp: connection refused") None;
     write_quota := fun _ => None;
     close_fails := fun _ => false |}.

(** A server that cannot be reached. *)
Definition unreachable (req : http.Request) : http.DoResult :=
  http.DoError (errorString "dial tcp: connection refused") None.

(** A server that answers every request with [resp]. *)
Definition answers (resp : http.Response) (req : http.Request) : http.DoResult :=
  http.DoResponse resp.

Definition new_file (bytes : string) (mode : Z) : node :=
  File {| f_data := bytes; f_mode := mode; f_bad := None |}.

(** * The vocabulary of the statements *)

(** No byte of [s] is [sep]. *)
Definition no_byte (sep : ascii) (s : string) : bool :=
  str_forall (fun c => negb (byte_eq c sep)) s.

(** A path element that [Clean] keeps. *)
Definition real_element (el : string) : Prop :=
  el <> "" /\ el <> "." /\ el <> ".." /\ no_byte "/" el = true.

(** The elements [Clean] keeps of a rooted path. *)
Definition clean_elements (p : string) : list string :=
  rev (fold_left (filepath.clean_step true) (split_byte "/" p) []).

(** A byte that ends no part of a URL: no control byte, no question mark,
    no number sign. *)
Definition path_byte (c : ascii) : bool :=
  negb ((byte_val c <? 32) || (byte_val c =? 127))
  && negb (byte_eq c "?") && negb (byte_eq c "#").

(** The URL that [fileToID] builds for a rooted path. *)
Definition file_url (path : string) : url.URL :=
  {| url.Scheme := "file"; url.Opaque := ""; url.User := None;
     url.Host := ""; url.Path := path; url.RawPath := "";
     url.OmitHost := false; url.ForceQuery := false; url.RawQuery := "";
     url.Fragment := ""; url.RawFragment := "" |}.

(** The world after some more calls were logged. *)
Definition logged (w : World) (evs : list event) : World :=
  {| fs := fs w; data := data w; log := log w ++ evs |}.

(** The error of streaming [bytes], read with the outcome [rderr], into
    [dest]. *)
Definition stream_error (env : Env) (dest bytes : string) (rderr : option error)
  : option error :=
  (io.copy_plan (write_quota env dest) dest bytes rderr).2.

(** A path at which a file can be opened for writing. *)
Definition writable (m : gmap string node) (path : string) : Prop :=
  m !! path = None \/ exists f, m !! path = Some (File f).

(** The response that [ensureDownloadFile] goes on with. *)
Definition response_of (r : http.DoResult) : option http.Response :=
  match r with
  | http.DoResponse resp => Some resp
  | http.DoError _ resp => resp
  end.

(** The fields a successful fetch writes. *)
Definition fetched_attrs (env : Env) (resp : http.Response)
           (attrs : gmap string string) : gmap string string :=
  <["content_sha256" := sha256_hex env (http.body_bytes (http.RespBody resp))]>
    (<["last_modified" := http.Header_Get (http.RespHeader resp) "Last-Modified"]>
       (<["etag" := http.Header_Get (http.RespHeader resp) "ETag"]> attrs)).

(** What [hashFile] returns on the file system [m]. *)
Definition fingerprint (env : Env) (m : gmap string node) (path : string)
  : result string :=
  match os.open_of m path with
  | Err err => Err err
  | Val fd =>
      match (os.read_of m fd).2 with
      | Some err => Err (Errorf_w "could not hash file %q: %w" [path] err)
      | None => Val (sha256_hex env (os.read_of m fd).1)
      end
  end.

(** The calls [hashFile] makes. *)
Definition hash_events (m : gmap string node) (path : string) : list event :=
  match os.open_of m path with
  | Err _ => [EvOpen path]
  | Val _ => [EvOpen path; EvRead path; EvClose path]
  end.

(** A call that changes the file system. *)
Definition is_write_event (ev : event) : bool :=
  match ev with
  | EvCreate _ _ | EvWrite _ _ | EvRemove _ | EvChmod _ _ => true
  | _ => false
  end.

(** No call of [evs] changes the file system. *)
Definition read_only (evs : list event) : Prop :=
  Forall (fun ev => is_write_event ev = false) evs.

(** A node without its mode. *)
Definition content (n : node) : node :=
  match n with
  | File f => File {| f_data := f_data f; f_mode := 0; f_bad := f_bad f |}
  | Dir _ => Dir 0
  | Denied => Denied
  end.

(** Two file systems with the same paths and the same bytes at each. *)
Definition same_bytes (m m' : gmap string node) : Prop :=
  forall p, content <$> m !! p = content <$> m' !! p.

(** A call that creates, writes or removes a file. *)
Definition is_copy_event (ev : event) : bool :=
  match ev with
  | EvCreate _ _ | EvWrite _ _ | EvRemove _ => true
  | _ => false
  end.

(** No call of [evs] creates, writes or removes a file. *)
Definition no_copy (evs : list event) : Prop :=
  Forall (fun ev => is_copy_event ev = false) evs.

(** The mode that [ensureFileMode] wants: the file mode when there is one,
    the mode of the source otherwise. *)
Definition mode_known (w : World) : Prop :=
  let d := data w in
  (data_Get d "file_mode" <> ""
   /\ is_Val (strconv.ParseUint (data_Get d "file_mode") 8 32) = true)
  \/ (data_Get d "file_mode" = ""
      /\ is_Val (os.stat_of (fs w) (data_Get d "source")) = true).

(** The header after the configured pairs were set, in the order the map
    yields them. *)
Definition custom_headers (pairs : list (string * string)) : http.Header :=
  fold_left (fun h kv => http.Header_Set h kv.1 kv.2) pairs ∅.

(** The name under which a configured pair is set. *)
Definition canonical (kv : string * string) : string :=
  textproto.CanonicalMIMEHeaderKey kv.1.

(** * The worlds of the worked examples *)

(** A resource whose backing file is gone. *)
Definition C9_world : World :=
  {| fs := {[ "/srv/app.conf" := new_file "port=80" 420 ]};
     data := {| d_id := "file:///srv/gone.conf"; d_attrs := ∅; d_headers := [] |};
     log := [] |}.



(** A resource that was fetched once: the file is in place and the
    validators of the last answer are cached. *)
Definition fetched_data : ResourceData :=
  {| d_id := "file:///srv/www/index.html";
     d_attrs := {[ "url" := "http://example.org/index.html";
                   "filename" := "/srv/www/index.html";
                   "etag" := "v1";
                   "last_modified" := "Mon, 02 Jan 2006 15:04:05 GMT";
                   "content_sha256" := "sha256:old page" ]};
     d_headers := [("Authorization", "Bearer secret")] |}.

(** The world of that resource. *)
Definition fetched_world : World :=
  {| fs := {[ "/srv/www/index.html" := new_file "old page" 436 ]};
     data := fetched_data;
     log := [] |}.

(** The request the engine builds for it. *)
Definition fetched_request : http.Request :=
  {| http.Method := "GET";
     http.URL := {| url.Scheme := "http"; url.Opaque := ""; url.User := None;
                    url.Host := "example.org"; url.Path := "/index.html";
                    url.RawPath := ""; url.OmitHost := false;
                    url.ForceQuery := false; url.RawQuery := "";
                    url.Fragment := ""; url.RawFragment := "" |};
     http.ReqHeader := {[ "Authorization" := ["Bearer secret"];
                          "If-None-Match" := ["v1"] ]} |}.



(** An answer of 200 with a body of five bytes. *)
Definition C10_response : http.Response :=
  {| http.StatusCode := 200; http.Status := "200 OK";
     http.RespHeader := {[ "Etag" := ["v1"] ]};
     http.RespBody := {| http.body_bytes := "hello"; http.body_err := None |} |}.

(** A resource that was never fetched and has no file mode. *)
Definition first_fetch_data : ResourceData :=
  {| d_id := "";
     d_attrs := {[ "url" := "http://example.org/a.txt";
                   "filename" := "/srv/a.txt" ]};
     d_headers := [] |}.

Definition first_fetch_world : World :=
  {| fs := ∅; data := first_fetch_data; log := [] |}.

(** The request of its first fetch: no header at all. *)
Definition first_fetch_request : http.Request :=
  {| http.Method := "GET";
     http.URL := {| url.Scheme := "http"; url.Opaque := ""; url.User := None;
                    url.Host := "example.org"; url.Path := "/a.txt";
                    url.RawPath := ""; url.OmitHost := false;
                    url.ForceQuery := false; url.RawQuery := "";
                    url.Fragment := ""; url.RawFragment := "" |};
     http.ReqHeader := ∅ |}.

(** An answer of 401 with no content type and no body. *)
Definition C7_response : http.Response :=
  {| http.StatusCode := 401; http.Status := "401 Unauthorized";
     http.RespHeader := ∅;
     http.RespBody := {| http.body_bytes := ""; http.body_err := None |} |}.

(** An answer of 403 with a body of plain text. *)
Definition C7_forbidden : http.Response :=
  {| http.StatusCode := 403; http.Status := "403 Forbidden";
     http.RespHeader := {[ "Content-Type" := ["text/plain; charset=utf-8"] ]};
     http.RespBody := {| http.body_bytes := "forbidden"; http.body_err := None |} |}.

(** An answer of 200 with new validators and a new body. *)
Definition C2_response : http.Response :=
  {| http.StatusCode := 200; http.Status := "200 OK";
     http.RespHeader := {[ "Etag" := ["v2"];
                           "Last-Modified" := ["Tue, 03 Jan 2006 15:04:05 GMT"] ]};
     http.RespBody := {| http.body_bytes := "new page"; http.body_err := None |} |}.

(** An answer of 304. *)
Definition C2_not_modified : http.Response :=
  {| http.StatusCode := 304; http.Status := "304 Not Modified";
     http.RespHeader := ∅;
     http.RespBody := {| http.body_bytes := ""; http.body_err := None |} |}.

(** A local copy whose file mode is not an octal number. *)
Definition C8_world : World :=
  {| fs := {[ "/src/motd" := new_file "welcome" 420 ]};
     data := {| d_id := "";
                d_attrs := {[ "source" := "/src/motd";
                              "destination" := "/etc/motd";
                              "file_mode" := "rw-r--r--" ]};
                d_headers := [] |};
     log := [] |}.

(** A resource that cached an entity tag and is configured with a header of
    the name the engine uses for it. *)
Definition C6_data : ResourceData :=
  {| d_id := "";
     d_attrs := {[ "url" := "http://example.org/a.txt";
                   "filename" := "/srv/a.txt";
                   "etag" := "v1" ]};
     d_headers := [("If-None-Match", "configured")] |}.

(** A local copy to a destination that does not exist yet. *)
Definition C1_world : World :=
  {| fs := {[ "/src/motd" := new_file "welcome" 420 ]};
     data := {| d_id := "";
                d_attrs := {[ "source" := "/src/motd";
                              "destination" := "/etc/motd" ]};
                d_headers := [] |};
     log := [] |}.

(** The world after a first Create. *)
Definition C1_synced : World :=
  match resourceFileCreate (test_env unreachable) C1_world with
  | Done _ w => w
  | Panic w => w
  end.



(** * The plan, the provider and the acceptance tests *)

(** ** helper/schema *)

Module schema.

Inductive ValueType := TypeString | TypeMap.

(** [schema.Schema], with the fields the provider sets; a field that a
    literal leaves out is false, empty or nil. *)
Record Schema := {
  Type_ : ValueType;
  Required : bool;
  Optional : bool;
  Computed : bool;
  ForceNew : bool;
  Description : string;
  Elem : option ValueType
}.

(** [schema.ResourceDiff]: the schema of the resource, the planned values
    of its string fields, and the keys that were marked as computed anew. *)
Record ResourceDiff := {
  diff_schema : gmap string Schema;
  diff_attrs : gmap string string;
  diff_computed : gset string
}.

(** [diff.Get(key).(string)]. *)
Definition ResourceDiff_Get (diff : ResourceDiff) (key : string) : string :=
  default EmptyString (diff_attrs diff !! key).

(** [diff.SetNewComputed(key)]: the key must be a computed field of the
    schema; it is then marked. *)
Definition SetNewComputed (diff : ResourceDiff) (key : string)
  : ResourceDiff * option error :=
  match diff_schema diff !! key with
  | None => (diff, Some (errorString ("SetNewComputed: invalid key: " +:+ key)))
  | Some s =>
      if Computed s then
        ({| diff_schema := diff_schema diff; diff_attrs := diff_attrs diff;
            diff_computed := {[ key ]} ∪ diff_computed diff |}, None)
      else
        (diff,
         Some (errorString ("SetNewComputed only operates on computed keys - "
                            +:+ key +:+ " is not one")))
  end.

(** [schema.Resource]: the operations that are set, and the schema. *)
Record Resource := {
  ReadContext : option (M diag.Diagnostics);
  CreateContext : option (M diag.Diagnostics);
  UpdateContext : option (M diag.Diagnostics);
  DeleteContext : option (M diag.Diagnostics);
  CustomizeDiff : option (ResourceDiff -> M (ResourceDiff * option error));
  SchemaMap : gmap string Schema
}.

Record Provider := {
  ResourcesMap : gmap string Resource
}.

End schema.

(** ** The resources and the provider *)

Section Plugin.

Variable env : Env.

Definition resourceURLSchema : gmap string schema.Schema :=
  <["url" :=
      {| schema.Type_ := schema.TypeString; schema.Required := true;
         schema.Optional := false; schema.Computed := false;
         schema.ForceNew := true; schema.Description := "source url";
         schema.Elem := None |}]>
  (<["headers" :=
      {| schema.Type_ := schema.TypeMap; schema.Required := false;
         schema.Optional := true; schema.Computed := false;
         schema.ForceNew := true;
         schema.Description := "additional headers to add to the request";
         schema.Elem := Some schema.TypeString |}]>
  (<["filename" :=
      {| schema.Type_ := schema.TypeString; schema.Required := true;
         schema.Optional := false; schema.Computed := false;
         schema.ForceNew := true; schema.Description := "Destination file path";
         schema.Elem := None |}]>
  (<["file_mode" :=
      {| schema.Type_ := schema.TypeString; schema.Required := false;
         schema.Optional := true; schema.Computed := false;
         schema.ForceNew := true;
         schema.Description := "File mode for the destination (Octal String). Mirrors the source file if not provided.";
         schema.Elem := None |}]>
  (<["last_modified" :=
      {| schema.Type_ := schema.TypeString; schema.Required := false;
         schema.Optional := false; schema.Computed := true;
         schema.ForceNew := false;
         schema.Description := "the last modified date when it was retrieved from the upstream url";
         schema.Elem := None |}]>
  (<["etag" :=
      {| schema.Type_ := schema.TypeString; schema.Required := false;
         schema.Optional := false; schema.Computed := true;
         schema.ForceNew := false;
         schema.Description := "the etag of the resource";
         schema.Elem := None |}]>
  (<["content_sha256" :=
      {| schema.Type_ := schema.TypeString; schema.Required := false;
         schema.Optional := false; schema.Computed := true;
         schema.ForceNew := false;
         schema.Description := "SHA256 hash of the file contents";
         schema.Elem := None |}]> ∅)))))).

Definition resourceURL : schema.Resource :=
  {| schema.ReadContext := Some (resourceURLRead env);
     schema.CreateContext := Some (resourceURLCreate env);
     schema.UpdateContext := None;
     schema.DeleteContext := Some (resourceURLDelete env);
     schema.CustomizeDiff := Some (fun diff => mret (diff, None));
     schema.SchemaMap := resourceURLSchema |}.

Definition resourceFileSchema : gmap string schema.Schema :=
  <["source" :=
      {| schema.Type_ := schema.TypeString; schema.Required := true;
         schema.Optional := false; schema.Computed := false;
         schema.ForceNew := false; schema.Description := "source file path";
         schema.Elem := None |}]>
  (<["destination" :=
      {| schema.Type_ := schema.TypeString; schema.Required := true;
         schema.Optional := false; schema.Computed := false;
         schema.ForceNew := true; schema.Description := "Destination file path";
         schema.Elem := None |}]>
  (<["file_mode" :=
      {| schema.Type_ := schema.TypeString; schema.Required := false;
         schema.Optional := true; schema.Computed := false;
         schema.ForceNew := false;
         schema.Description := "File mode for the destination (Octal String). Mirrors the source file if not provided.";
         schema.Elem := None |}]>
  (<["content_sha256" :=
      {| schema.Type_ := schema.TypeString; schema.Required := false;
         schema.Optional := false; schema.Computed := true;
         schema.ForceNew := false;
         schema.Description := "SHA256 hash of the file contents";
         schema.Elem := None |}]> ∅))).

(** The [CustomizeDiff] of the file resource: the fingerprint is planned
    as computed anew when the destination does not exist or does not have
    the fingerprint of the source. *)
Definition resourceFile_CustomizeDiff (diff : schema.ResourceDiff)
  : M (schema.ResourceDiff * option error) :=
  rd ← hashFile env (schema.ResourceDiff_Get diff "destination");
  if match rd with
     | Err err => IsNotExist err
     | Val _ => false
     end
  then mret (schema.SetNewComputed diff "content_sha256")
  else
    let destHash := match rd with
                    | Val h => h
                    | Err _ => EmptyString
                    end in
    rs ← hashFile env (schema.ResourceDiff_Get diff "source");
    match rs with
    | Err err => mret (diff, Some err)
    | Val srcHash =>
        if negb (str_eqb destHash srcHash)
        then mret (schema.SetNewComputed diff "content_sha256")
        else mret (diff, None)
    end.

Definition resourceFile : schema.Resource :=
  {| schema.ReadContext := Some (resourceFileRead env);
     schema.CreateContext := Some (resourceFileCreate env);
     schema.UpdateContext := Some (resourceFileUpdate env);
     schema.DeleteContext := Some (resourceFileDelete env);
     schema.CustomizeDiff := Some resourceFile_CustomizeDiff;
     schema.SchemaMap := resourceFileSchema |}.

Definition Provider : schema.Provider :=
  {| schema.ResourcesMap :=
       <["synclocal_file" := resourceFile]>
         (<["synclocal_url" := resourceURL]> ∅) |}.

End Plugin.

(** ** The acceptance tests *)

Module terraform.

(** [terraform.ResourceState]: the type of the resource and the identity
    of its primary instance, when it has one. *)
Record ResourceState := {
  Type_ : string;
  Primary : option string
}.

End terraform.

(** The check that runs after the destruction, on the resources of the
    root module in the order the [range] yields them. *)
Fixpoint testAccDestroyFile (resources : list terraform.ResourceState)
  : M (option error) :=
  match resources with
  | [] => mret None
  | rs :: rest =>
      if negb (str_eqb (terraform.Type_ rs) "file")
      then testAccDestroyFile rest
      else match terraform.Primary rs with
           | None => panic
           | Some id => os.Remove id
           end
  end.

Fixpoint testAccDestroyURL (resources : list terraform.ResourceState)
  : M (option error) :=
  match resources with
  | [] => mret None
  | rs :: rest =>
      if negb (str_eqb (terraform.Type_ rs) "file")
      then testAccDestroyURL rest
      else match terraform.Primary rs with
           | None => panic
           | Some id => os.Remove id
           end
  end.

Module httptest.

(** The [http.ResponseWriter] of the test server: the header map that the
    handler edits, the status and the header as they were when
    [WriteHeader] was first called, and the body written. *)
Record ResponseWriter := {
  header : http.Header;
  sent : option (Z * http.Header);
  body : string
}.

Definition NewWriter : ResponseWriter :=
  {| header := ∅; sent := None; body := "" |}.

(** [w.Header().Set(key, value)]. *)
Definition Header_Set (w : ResponseWriter) (key value : string)
  : ResponseWriter :=
  {| header := http.Header_Set (header w) key value; sent := sent w;
     body := body w |}.

(** [w.WriteHeader(status)] for a status in 100..999: the first call
    counts. *)
Definition WriteHeader (w : ResponseWriter) (status : Z) : ResponseWriter :=
  match sent w with
  | Some _ => w
  | None => {| header := header w; sent := Some (status, header w);
               body := body w |}
  end.

Definition bodyAllowedForStatus (status : Z) : bool :=
  if (100 <=? status) && (status <=? 199) then false
  else if status =? 204 then false
  else if status =? 304 then false
  else true.

(** [w.Write(bytes)] in answer to a request of method [method]: the
    header is written with 200 when it was not written yet; nothing is
    stored for a status without a body and for a HEAD request. *)
Definition Write (w : ResponseWriter) (method bytes : string)
  : ResponseWriter :=
  let w := WriteHeader w 200 in
  match sent w with
  | Some (status, _) =>
      if bodyAllowedForStatus status && negb (str_eqb method "HEAD")
      then {| header := header w; sent := sent w; body := body w +:+ bytes |}
      else w
  | None => w
  end.

End httptest.

(** [http.Handler], as a function of the writer and the request. *)
Definition Handler : Type :=
  httptest.ResponseWriter -> http.Request -> httptest.ResponseWriter.

Record testResourceURLHandlers := {
  Handlers : list Handler;
  Index : Z
}.

(** [l[i]], which panics out of range. *)
Definition at_index {A} (l : list A) (i : Z) : option A :=
  if i <? 0 then None else l !! Z.to_nat i.

(** The [ServeHTTP] method of [*testResourceURLHandlers]; [None] is a
    panic. *)
Definition ServeHTTP (h : testResourceURLHandlers) (w : httptest.ResponseWriter)
           (r : http.Request)
  : option (testResourceURLHandlers * httptest.ResponseWriter) :=
  match at_index (Handlers h) (Index h) with
  | None => None
  | Some handler =>
      let h' := {| Handlers := Handlers h;
                   Index := Z.rem (Index h + 1)
                                  (Z.of_nat (length (Handlers h))) |} in
      Some (h', handler w r)
  end.

Section AcceptanceTests.

Variable env : Env.

(** [time.Parse(layout, value)] and [t.Format(layout)]; a time is the
    count of its nanoseconds since the zero time. *)
Variable time_Parse : string -> string -> result Z.
Variable time_Format : Z -> string -> string.

Definition RFC1123 : string := "Mon, 02 Jan 2006 15:04:05 MST".

(** [readTestFile]: the bytes of the file and its quoted digest; [None]
    when the test is failed with [t.Fatalf]. *)
Definition readTestFile (filename : string) : M (option (string * string)) :=
  r ← os.Open filename;
  match r with
  | Err _ => mret None
  | Val fd =>
      '(bytes, rderr) ← os.File_read fd;
      _ ← os.File_Close env fd;
      match rderr with
      | Some _ => mret None
      | None => mret (Some (bytes, Quote env (sha256_hex env bytes)))
      end
  end.

(** The handler that [testURLHandler] returns for a file with the bytes
    [content] and the quoted digest [hash], made at the time [modified]. *)
Definition testURLHandler_serve (content hash : string) (modified : Z)
  : Handler := fun w r =>
  let auth := http.Header_Get (http.ReqHeader r) "Authorization" in
  if str_eqb auth "" then
    httptest.Write (httptest.WriteHeader w http.StatusUnauthorized)
                   (http.Method r) "not authorized"
  else if negb (str_eqb auth "Bearer secret") then
    httptest.Write (httptest.WriteHeader w http.StatusForbidden)
                   (http.Method r) "forbidden"
  else
    let etag := http.Header_Get (http.ReqHeader r) "If-None-Match" in
    let ims := http.Header_Get (http.ReqHeader r) "If-Modified-Since" in
    let ifModifiedSince :=
      if negb (str_eqb ims "") then
        match time_Parse RFC1123 ims with
        | Val t => t
        | Err _ => 0
        end
      else 0 in
    if (if negb (str_eqb etag "") then str_eqb etag hash
        else if negb (ifModifiedSince =? 0) then ifModifiedSince <? modified
             else false)
    then httptest.WriteHeader w http.StatusNotModified
    else
      let w := httptest.Header_Set w "ETag" hash in
      let w := httptest.Header_Set w "Last-Modified"
                                   (time_Format modified RFC1123) in
      let w := httptest.WriteHeader w http.StatusOK in
      if str_eqb (http.Method r) "HEAD" then w
      else httptest.Write w (http.Method r) content.

(** [testURLHandler(t, filename)] at the time [now]. *)
Definition testURLHandler (filename : string) (now : Z) : M (option Handler) :=
  r ← readTestFile filename;
  match r with
  | None => mret None
  | Some (content, hash) => mret (Some (testURLHandler_serve content hash now))
  end.

End AcceptanceTests.

(** * The vocabulary of the further statements *)

(** The world a run ends in. *)
Definition final {A} (o : outcome A) : World :=
  match o with
  | Done _ w => w
  | Panic w => w
  end.

(** The fields of [d] other than [keys] are those of [d']. *)
Definition same_fields_but (keys : list string) (d d' : ResourceData) : Prop :=
  d_id d' = d_id d /\ d_headers d' = d_headers d
  /\ forall k, k ∉ keys -> d_attrs d' !! k = d_attrs d !! k.

(** The paths other than [path] name in [m'] what they name in [m]. *)
Definition same_files_but (path : string) (m m' : gmap string node) : Prop :=
  forall p, p <> path -> m' !! p = m !! p.

(** An octal digit, and the number that a text of octal digits writes after
    the digits that gave [n]. *)
Definition octal_digit (c : ascii) : bool := byte_in "0" "7" c.

Fixpoint octal_from (n : Z) (s : string) : Z :=
  match s with
  | EmptyString => n
  | String c s' => octal_from (n * 8 + (byte_val c - 48)) s'
  end.

Definition octal_value (s : string) : Z := octal_from 0 s.

(** The last byte of a text. *)
Fixpoint last_byte (s : string) : option ascii :=
  match s with
  | EmptyString => None
  | String c EmptyString => Some c
  | String _ s' => last_byte s'
  end.

(** The mode of what is at a path. *)
Definition mode_at (m : gmap string node) (path : string) : option Z :=
  match m !! path with
  | Some (File f) => Some (f_mode f)
  | Some (Dir mode) => Some mode
  | _ => None
  end.

(** The bytes of the regular file at a path. *)
Definition bytes_at (m : gmap string node) (path : string) : option string :=
  match m !! path with
  | Some (File f) => Some (f_data f)
  | _ => None
  end.

(** What the engines want the mode of the destination to be: the file
    mode when it is set, the mode of the source otherwise. *)
Definition wanted_mode (w : World) : result Z :=
  let v := data_Get (data w) "file_mode" in
  if str_eqb v "" then os.stat_of (fs w) (data_Get (data w) "source")
  else strconv.ParseUint v 8 32.

(** The fingerprint of the destination as the plan compares it: empty when
    the destination could not be hashed. *)
Definition planned_hash (env : Env) (m : gmap string node) (path : string)
  : string :=
  match fingerprint env m path with
  | Val h => h
  | Err _ => EmptyString
  end.

(** A call that asks a server. *)
Definition is_request (ev : event) : bool :=
  match ev with
  | EvHTTP _ => true
  | _ => false
  end.

(** No call of [evs] asks a server. *)
Definition no_request (evs : list event) : Prop :=
  Forall (fun ev => is_request ev = false) evs.

(** The requests of a list served one after the other; [None] is a
    panic. *)
Fixpoint serve_all (h : testResourceURLHandlers) (reqs : list http.Request)
  : option (testResourceURLHandlers * list httptest.ResponseWriter) :=
  match reqs with
  | [] => Some (h, [])
  | r :: reqs' =>
      match ServeHTTP h httptest.NewWriter r with
      | None => None
      | Some (h', w) =>
          match serve_all h' reqs' with
          | None => None
          | Some (h'', ws) => Some (h'', w :: ws)
          end
      end
  end.

(** The client gets from [srv] what the handler [h] writes: the status,
    the validators and the body. *)
Definition delivers (srv : http.Request -> http.DoResult) (h : Handler)
  : Prop :=
  forall req, exists resp status hdr,
    srv req = http.DoResponse resp
    /\ httptest.sent (h httptest.NewWriter req) = Some (status, hdr)
    /\ http.StatusCode resp = status
    /\ http.Header_Get (http.RespHeader resp) "ETag" = http.Header_Get hdr "ETag"
    /\ http.Header_Get (http.RespHeader resp) "Last-Modified"
       = http.Header_Get hdr "Last-Modified"
    /\ http.RespBody resp =
       {| http.body_bytes := httptest.body (h httptest.NewWriter req);
          http.body_err := None |}.

(** A transport that hands over what the handler wrote and nothing else. *)
Definition direct (h : Handler) (req : http.Request) : http.DoResult :=
  let w := httptest.WriteHeader (h httptest.NewWriter req) 200 in
  http.DoResponse
    {| http.StatusCode := match httptest.sent w with
                          | Some (status, _) => status
                          | None => 200
                          end;
       http.Status := "";
       http.RespHeader := match httptest.sent w with
                          | Some (_, hdr) => hdr
                          | None => ∅
                          end;
       http.RespBody := {| http.body_bytes := httptest.body w;
                           http.body_err := None |} |}.

(** * The worlds of the further examples *)

(** An answer of 404 with a page of HTML. *)
Definition not_found_response : http.Response :=
  {| http.StatusCode := 404; http.Status := "404 Not Found";
     http.RespHeader := {[ "Content-Type" := ["text/html"] ]};
     http.RespBody := {| http.body_bytes := "<h1>no such page</h1>";
                         http.body_err := None |} |}.


(** A resource whose backing file may not be touched. *)
Definition read_denied_world : World :=
  {| fs := {[ "/srv/gone.conf" := Denied ]};
     data := {| d_id := "file:///srv/gone.conf"; d_attrs := ∅; d_headers := [] |};
     log := [] |}.

(** The resource that was fetched once, with a file mode that is no octal
    number. *)
Definition read_bad_mode_world : World :=
  {| fs := fs fetched_world;
     data := {| d_id := d_id fetched_data;
                d_attrs := <["file_mode" := "0o644"]> (d_attrs fetched_data);
                d_headers := d_headers fetched_data |};
     log := [] |}.

(** A file resource whose destination was replaced behind its back. *)
Definition read_file_world : World :=
  {| fs := {[ "/src/motd" := new_file "welcome" 420;
              "/etc/motd" := new_file "changed by hand" 420 ]};
     data := {| d_id := "file:///etc/motd";
                d_attrs := {[ "source" := "/src/motd";
                              "destination" := "/etc/motd";
                              "content_sha256" := "sha256:welcome" ]};
                d_headers := [] |};
     log := [] |}.

(** The world after the first fetch of the resource that was never
    fetched. *)
Definition first_fetched_world : World :=
  final (resourceURLCreate (test_env (answers C10_response)) first_fetch_world).


(** A local copy that is in place with the mode 0644, while the file mode
    asks for 0600. *)
Definition chmod_world : World :=
  {| fs := {[ "/src/motd" := new_file "welcome" 436;
              "/etc/motd" := new_file "welcome" 420 ]};
     data := {| d_id := "file:///etc/motd";
                d_attrs := {[ "source" := "/src/motd";
                              "destination" := "/etc/motd";
                              "file_mode" := "0600" ]};
                d_headers := [] |};
     log := [] |}.

(** A file system on which closing the page fails. *)
Definition close_fails_env (srv : http.Request -> http.DoResult) : Env :=
  {| sha256_hex := fun bytes => "sha256:" +:+ bytes;
     ParseMediaType := media_type_plain;
     Quote := quote_plain;
     Getwd := Val "/work";
     client_Do := srv;
     write_quota := fun _ => None;
     close_fails := fun path => str_eqb path "/srv/www/index.html" |}.

(** The plan of the local copy whose destination does not exist yet, and
    the plan of the one that is in place. *)
Definition C1_diff : schema.ResourceDiff :=
  {| schema.diff_schema := resourceFileSchema;
     schema.diff_attrs := d_attrs (data C1_world);
     schema.diff_computed := ∅ |}.

Definition C1_synced_diff : schema.ResourceDiff :=
  {| schema.diff_schema := resourceFileSchema;
     schema.diff_attrs := d_attrs (data C1_synced);
     schema.diff_computed := ∅ |}.

(** A clock for the handlers of the examples: one time can be parsed, and
    every time is written as that one. *)
Definition test_time_Parse (layout value : string) : result Z :=
  if str_eqb value "Mon, 02 Jan 2006 15:04:05 UTC"
  then Val 63271811045000000000
  else Err (errorString "parsing time: cannot parse").

Definition test_time_Format (t : Z) (layout : string) : string :=
  "Mon, 02 Jan 2006 15:04:05 UTC".

(** The handlers of the acceptance test of the URL resource, for two files
    with the bytes [hello] and [world]. *)
Definition file1 : Handler :=
  testURLHandler_serve test_time_Parse test_time_Format
                       "hello" (quote_plain "sha256:hello") 63271811045000000500.

Definition file2 : Handler :=
  testURLHandler_serve test_time_Parse test_time_Format
                       "world" (quote_plain "sha256:world") 63271811045000000500.

Definition test_handlers : testResourceURLHandlers :=
  {| Handlers := [file1; file1; file2; file2; file1; file1]; Index := 0 |}.

(** A request with the token of the test, and one without. *)
Definition token_request : http.Request :=
  {| http.Method := "GET"; http.URL := http.URL first_fetch_request;
     http.ReqHeader := {[ "Authorization" := ["Bearer secret"] ]} |}.

Definition anonymous_request : http.Request :=
  {| http.Method := "GET"; http.URL := http.URL first_fetch_request;
     http.ReqHeader := ∅ |}.

(** A URL resource that was never fetched and is configured with the token
    of the test. *)
Definition token_world : World :=
  {| fs := ∅;
     data := {| d_id := "";
                d_attrs := d_attrs first_fetch_data;
                d_headers := [("Authorization", "Bearer secret")] |};
     log := [] |}.

(** A local copy whose source and destination are both missing, and its
    plan. *)
Definition no_source_world : World :=
  {| fs := ∅; data := data C1_world; log := [] |}.

Definition no_source_diff : schema.ResourceDiff :=
  {| schema.diff_schema := resourceFileSchema;
     schema.diff_attrs := d_attrs (data C1_world);
     schema.diff_computed := ∅ |}.

(** A local copy of a file onto itself. *)
Definition self_world : World :=
  {| fs := {[ "/etc/motd" := new_file "welcome" 420 ]};
     data := {| d_id := "";
                d_attrs := {[ "source" := "/etc/motd";
                              "destination" := "/etc/motd" ]};
                d_headers := [] |};
     log := [] |}.

(** * Facts about the library models *)

(** ** Strings *)

Lemma str_eqb_eq (a b : string) : str_eqb a b = true <-> a = b.
Proof. apply String.eqb_eq. Qed.

Lemma str_eqb_neq (a b : string) : str_eqb a b = false <-> a <> b.
Proof. apply String.eqb_neq. Qed.

Lemma str_eqb_refl (a : string) : str_eqb a a = true.
Proof. apply String.eqb_refl. Qed.

Lemma byte_eq_eq (a b : ascii) : byte_eq a b = true <-> a = b.
Proof. apply Ascii.eqb_eq. Qed.

Lemma byte_eq_refl (a : ascii) : byte_eq a a = true.
Proof. apply Ascii.eqb_refl. Qed.

Lemma app_String (c : ascii) (a b : string) :
  String c a +:+ b = String c (a +:+ b).
Proof. reflexivity. Qed.

Lemma app_empty_r (a : string) : a +:+ "" = a.
Proof.
  induction a as [|c a IH]; [reflexivity |].
  now rewrite app_String, IH.
Qed.

Lemma app_assoc_str (a b c : string) : (a +:+ b) +:+ c = a +:+ (b +:+ c).
Proof.
  induction a as [|x a IH]; [reflexivity |].
  now rewrite !app_String, IH.
Qed.

Lemma str_forall_app p (a b : string) :
  str_forall p (a +:+ b) = str_forall p a && str_forall p b.
Proof.
  induction a as [|c a IH]; [reflexivity |].
  rewrite app_String. simpl. now rewrite IH, andb_assoc.
Qed.

Lemma str_exists_forall p (s : string) :
  str_exists p s = negb (str_forall (fun c => negb (p c)) s).
Proof.
  induction s as [|c s IH]; simpl; [reflexivity |].
  rewrite IH. now destruct (p c).
Qed.

Lemma cut_byte_none sep (s : string) :
  no_byte sep s = true -> cut_byte sep s = None.
Proof.
  induction s as [|c s IH]; simpl; [reflexivity |].
  intros H. apply andb_true_iff in H as [Hc Hs].
  apply negb_true_iff in Hc. rewrite Hc, (IH Hs). reflexivity.
Qed.

Lemma cut_last_byte_none sep (s : string) :
  no_byte sep s = true -> cut_last_byte sep s = None.
Proof.
  induction s as [|c s IH]; simpl; [reflexivity |].
  intros H. apply andb_true_iff in H as [Hc Hs].
  apply negb_true_iff in Hc. rewrite Hc, (IH Hs). reflexivity.
Qed.

(** ** Splitting and joining at the separator *)

Lemma split_byte_nonempty sep (s : string) : split_byte sep s <> [].
Proof.
  induction s as [|c s IH]; simpl; [discriminate |].
  destruct (byte_eq c sep); [discriminate |].
  destruct (split_byte sep s); [contradiction | discriminate].
Qed.

Lemma split_byte_pieces sep (s : string) :
  Forall (fun x => no_byte sep x = true) (split_byte sep s).
Proof.
  induction s as [|c s IH]; simpl.
  - repeat constructor.
  - destruct (byte_eq c sep) eqn:E.
    + constructor; [reflexivity | exact IH].
    + destruct (split_byte sep s) as [|x xs].
      * constructor; [| constructor]. unfold no_byte. simpl. now rewrite E.
      * inversion IH as [|? ? Hx Hxs]; subst.
        constructor; [| exact Hxs]. unfold no_byte in *. simpl. now rewrite E, Hx.
Qed.

Lemma split_byte_app sep (x t : string) :
  no_byte sep x = true ->
  split_byte sep (x +:+ String sep t) = x :: split_byte sep t.
Proof.
  induction x as [|c x IH]; intros H.
  - change ("" +:+ String sep t) with (String sep t). simpl.
    now rewrite byte_eq_refl.
  - rewrite app_String. simpl in *.
    apply andb_true_iff in H as [Hc Hx]. apply negb_true_iff in Hc.
    rewrite Hc, (IH Hx). reflexivity.
Qed.

Lemma split_byte_whole sep (x : string) :
  no_byte sep x = true -> split_byte sep x = [x].
Proof.
  induction x as [|c x IH]; simpl; intros H; [reflexivity |].
  apply andb_true_iff in H as [Hc Hx]. apply negb_true_iff in Hc.
  rewrite Hc, (IH Hx). reflexivity.
Qed.

Lemma split_join sep (els : list string) :
  els <> [] ->
  Forall (fun x => no_byte sep x = true) els ->
  split_byte sep (join_byte sep els) = els.
Proof.
  induction els as [|x els IH]; [contradiction |].
  intros _ H. inversion H as [|? ? Hx Hels]; subst.
  destruct els as [|y els].
  - simpl. now apply split_byte_whole.
  - change (join_byte sep (x :: y :: els))
      with (x +:+ String sep (join_byte sep (y :: els))).
    rewrite split_byte_app by exact Hx.
    rewrite IH; [reflexivity | discriminate | exact Hels].
Qed.

(** ** filepath.Clean on rooted paths *)

Lemma clean_step_real (out : list string) (el : string) :
  real_element el -> filepath.clean_step true out el = el :: out.
Proof.
  intros (H1 & H2 & H3 & _). unfold filepath.clean_step.
  apply str_eqb_neq in H1, H2, H3. now rewrite H1, H2, H3.
Qed.

Lemma clean_step_keeps_real (out : list string) (el : string) :
  Forall real_element out -> no_byte "/" el = true ->
  Forall real_element (filepath.clean_step true out el).
Proof.
  intros Hout Hel. unfold filepath.clean_step.
  destruct (str_eqb el "") eqn:E1; [exact Hout |].
  destruct (str_eqb el ".") eqn:E2; [exact Hout |].
  destruct (str_eqb el "..") eqn:E3.
  - destruct out as [|top rest]; [constructor |].
    inversion Hout as [|? ? Htop Hrest]; subst.
    destruct (str_eqb top "..") eqn:E4; [| exact Hrest].
    apply str_eqb_eq in E4. destruct Htop as (_ & _ & Hn & _). contradiction.
  - constructor; [| exact Hout].
    apply str_eqb_neq in E1, E2, E3. repeat split; assumption.
Qed.

Lemma fold_clean_keeps_real (els out : list string) :
  Forall real_element out ->
  Forall (fun x => no_byte "/" x = true) els ->
  Forall real_element (fold_left (filepath.clean_step true) els out).
Proof.
  revert out. induction els as [|el els IH]; intros out Hout Hels; simpl.
  - exact Hout.
  - inversion Hels as [|? ? Hel Hels']; subst.
    apply IH; [| exact Hels']. now apply clean_step_keeps_real.
Qed.

Lemma fold_clean_real (els out : list string) :
  Forall real_element els ->
  fold_left (filepath.clean_step true) els out = rev els ++ out.
Proof.
  revert out. induction els as [|el els IH]; intros out Hels; simpl.
  - reflexivity.
  - inversion Hels as [|? ? Hel Hels']; subst.
    rewrite clean_step_real by exact Hel. rewrite IH by exact Hels'.
    now rewrite <- app_assoc.
Qed.

Lemma IsAbs_cons (p : string) :
  filepath.IsAbs p = true -> exists p', p = String "/" p'.
Proof.
  destruct p as [|c p']; [discriminate |].
  unfold filepath.IsAbs. cbn [HasPrefix]. intros H.
  apply andb_true_iff in H as [H _].
  apply byte_eq_eq in H. subst c. now exists p'.
Qed.

Lemma Clean_rooted (p : string) :
  filepath.IsAbs p = true ->
  filepath.Clean p = "/" +:+ join_byte "/" (clean_elements p).
Proof.
  intros H. unfold filepath.Clean. rewrite H.
  destruct (IsAbs_cons p H) as [p' ->]. reflexivity.
Qed.

Lemma clean_elements_real (p : string) : Forall real_element (clean_elements p).
Proof.
  unfold clean_elements. apply Forall_rev.
  apply fold_clean_keeps_real; [constructor | apply split_byte_pieces].
Qed.

Lemma Clean_IsAbs (p : string) :
  filepath.IsAbs p = true -> filepath.IsAbs (filepath.Clean p) = true.
Proof. intros H. rewrite Clean_rooted by exact H. reflexivity. Qed.

Lemma Clean_idempotent (p : string) :
  filepath.IsAbs p = true ->
  filepath.Clean (filepath.Clean p) = filepath.Clean p.
Proof.
  intros H. rewrite (Clean_rooted p H).
  pose proof (clean_elements_real p) as Hreal.
  generalize dependent (clean_elements p). intros els Hreal.
  rewrite Clean_rooted by reflexivity. f_equal. f_equal.
  unfold clean_elements.
  change ("/" +:+ join_byte "/" els) with (String "/" (join_byte "/" els)).
  cbn [split_byte]. rewrite byte_eq_refl.
  destruct (decide (els = [])) as [-> | Hne]; [reflexivity |].
  rewrite split_join.
  - change (fold_left (filepath.clean_step true) ("" :: els) [])
      with (fold_left (filepath.clean_step true) els []).
    rewrite fold_clean_real by exact Hreal.
    now rewrite app_nil_r, rev_involutive.
  - exact Hne.
  - eapply Forall_impl; [exact Hreal |]. now intros a (_ & _ & _ & Ha).
Qed.

(** ** Percent encoding of a path *)

Ltac each_byte c := destruct c as [[] [] [] [] [] [] [] []].

Lemma str_forall_impl (p q : ascii -> bool) (s : string) :
  (forall c, p c = true -> q c = true) ->
  str_forall p s = true -> str_forall q s = true.
Proof.
  intros Hpq. induction s as [|c s IH]; simpl; [reflexivity |].
  intros H. apply andb_true_iff in H as [Hc Hs].
  now rewrite (Hpq c Hc), (IH Hs).
Qed.

Lemma hex_digits_ishex (c : ascii) :
  url.ishex (url.upperhex (Z.shiftr (byte_val c) 4)) = true
  /\ url.ishex (url.upperhex (Z.land (byte_val c) 15)) = true.
Proof. each_byte c; vm_compute; split; reflexivity. Qed.

Lemma hex_digits_decode (c : ascii) :
  byte_of_Z (Z.lor (Z.shiftl (url.unhex (url.upperhex (Z.shiftr (byte_val c) 4))) 4)
                   (url.unhex (url.upperhex (Z.land (byte_val c) 15)))) = c.
Proof. each_byte c; vm_compute; reflexivity. Qed.

Lemma plain_byte_not_percent (c : ascii) :
  url.shouldEscape c url.encodePath = false -> byte_eq c "%" = false.
Proof. each_byte c; vm_compute; intros H; first [reflexivity | discriminate H]. Qed.

Lemma shouldEscape_slash : url.shouldEscape "/" url.encodePath = false.
Proof. vm_compute. reflexivity. Qed.

Lemma escape_cons (c : ascii) (s : string) :
  url.escape (String c s) url.encodePath =
  if url.shouldEscape c url.encodePath
  then String "%" (String (url.upperhex (Z.shiftr (byte_val c) 4))
         (String (url.upperhex (Z.land (byte_val c) 15))
                 (url.escape s url.encodePath)))
  else String c (url.escape s url.encodePath).
Proof.
  cbn [url.escape]. destruct (url.shouldEscape c url.encodePath); [| reflexivity].
  now rewrite andb_false_r.
Qed.

Lemma unescape_check_escape (s : string) :
  url.unescape_check (url.escape s url.encodePath) url.encodePath = None.
Proof.
  induction s as [|c s IH]; [reflexivity |].
  rewrite escape_cons.
  destruct (url.shouldEscape c url.encodePath) eqn:E.
  - destruct (hex_digits_ishex c) as [H1 H2].
    cbn [url.unescape_check]. rewrite byte_eq_refl, H1, H2. exact IH.
  - cbn [url.unescape_check]. rewrite (plain_byte_not_percent c E).
    cbn [url.is_host_mode andb]. exact IH.
Qed.

Lemma unescape_decode_escape (s : string) :
  url.unescape_decode (url.escape s url.encodePath) url.encodePath = s.
Proof.
  induction s as [|c s IH]; [reflexivity |].
  rewrite escape_cons.
  destruct (url.shouldEscape c url.encodePath) eqn:E.
  - cbn [url.unescape_decode]. rewrite byte_eq_refl, hex_digits_decode, IH.
    reflexivity.
  - cbn [url.unescape_decode]. rewrite (plain_byte_not_percent c E).
    cbn [url.is_query_mode]. rewrite andb_false_r, IH. reflexivity.
Qed.

(** Decoding an encoded path gives the path back. *)
Lemma unescape_escape_path (s : string) :
  url.unescape (url.escape s url.encodePath) url.encodePath = Val s.
Proof.
  unfold url.unescape. now rewrite unescape_check_escape, unescape_decode_escape.
Qed.

Lemma plain_byte_path_byte (c : ascii) :
  url.shouldEscape c url.encodePath = false -> path_byte c = true.
Proof. each_byte c; vm_compute; intros H; first [reflexivity | discriminate H]. Qed.

Lemma hex_digits_path_byte (c : ascii) :
  path_byte (url.upperhex (Z.shiftr (byte_val c) 4)) = true
  /\ path_byte (url.upperhex (Z.land (byte_val c) 15)) = true.
Proof. each_byte c; vm_compute; split; reflexivity. Qed.

Lemma escape_path_bytes (s : string) :
  str_forall path_byte (url.escape s url.encodePath) = true.
Proof.
  induction s as [|c s IH]; [reflexivity |].
  rewrite escape_cons.
  destruct (url.shouldEscape c url.encodePath) eqn:E.
  - destruct (hex_digits_path_byte c) as [H1 H2].
    cbn [str_forall]. now rewrite H1, H2, IH.
  - cbn [str_forall]. now rewrite (plain_byte_path_byte c E), IH.
Qed.

Lemma path_bytes_no_byte (sep : ascii) (s : string) :
  path_byte sep = false ->
  str_forall path_byte s = true -> no_byte sep s = true.
Proof.
  intros Hsep. apply str_forall_impl. intros c Hc.
  destruct (byte_eq c sep) eqn:E; [| reflexivity].
  apply byte_eq_eq in E. subst c. congruence.
Qed.

Lemma path_bytes_no_ctl (s : string) :
  str_forall path_byte s = true -> url.stringContainsCTLByte s = false.
Proof.
  intros H. unfold url.stringContainsCTLByte. rewrite str_exists_forall.
  apply negb_false_iff. revert H. apply str_forall_impl.
  intros c Hc. unfold path_byte in Hc.
  apply andb_true_iff in Hc as [Hc _]. apply andb_true_iff in Hc as [Hc _].
  exact Hc.
Qed.

Lemma String_file_url (path : string) :
  filepath.IsAbs path = true ->
  url.String_ (file_url path) = "file://" +:+ url.escape path url.encodePath.
Proof.
  intros H. destruct (IsAbs_cons path H) as [p' ->].
  unfold url.String_, url.EscapedPath, file_url. cbn [url.RawPath url.Path].
  rewrite escape_cons, shouldEscape_slash.
  generalize (url.escape p' url.encodePath) as x. intros x.
  vm_compute. do 8 f_equal. exact (app_empty_r x).
Qed.

Lemma Parse_file_url (path : string) :
  filepath.IsAbs path = true ->
  url.Parse ("file://" +:+ url.escape path url.encodePath) = Val (file_url path).
Proof.
  intros H. destruct (IsAbs_cons path H) as [p' ->].
  pose proof (unescape_escape_path (String "/" p')) as Hun.
  pose proof (escape_path_bytes (String "/" p')) as Hbytes.
  pose proof (escape_cons "/" p') as Hesc. rewrite shouldEscape_slash in Hesc.
  rewrite Hesc in Hun, Hbytes |- *.
  remember (url.escape p' url.encodePath) as x eqn:Ex.
  cbn [str_forall] in Hbytes. apply andb_true_iff in Hbytes as [_ Hx].
  assert (Hfrag : cut_byte "#" ("file://" +:+ String "/" x) = None).
  { apply cut_byte_none. unfold no_byte.
    change ("file://" +:+ String "/" x) with ("file:///" +:+ x).
    rewrite str_forall_app. apply andb_true_iff. split; [reflexivity |].
    now apply (path_bytes_no_byte "#"). }
  assert (Hctl : url.stringContainsCTLByte ("file://" +:+ String "/" x) = false).
  { apply path_bytes_no_ctl.
    change ("file://" +:+ String "/" x) with ("file:///" +:+ x).
    rewrite str_forall_app. apply andb_true_iff. split; [reflexivity | exact Hx]. }
  assert (Hquery : cut_byte "?" (String "/" (String "/" (String "/" x))) = None).
  { apply cut_byte_none. unfold no_byte. cbn [str_forall].
    change (negb (byte_eq "/" "?")) with true. cbn [andb].
    now apply (path_bytes_no_byte "?"). }
  unfold url.Parse. rewrite Hfrag.
  unfold url.parse. rewrite Hctl.
  change (str_eqb ("file://" +:+ String "/" x) "*") with false.
  cbv iota.
  change (url.getScheme ("file://" +:+ String "/" x))
    with (@Val (string * string) ("file", String "/" (String "/" (String "/" x)))).
  cbv iota beta. rewrite Hquery.
  change (str_map to_lower "file") with "file".
  change (url.nonempty "file") with true.
  change (HasPrefix (String "/" (String "/" (String "/" x))) "/") with true.
  change (HasPrefix (String "/" (String "/" (String "/" x))) "//") with true.
  cbn [negb andb orb].
  change (str_drop 2 (String "/" (String "/" (String "/" x)))) with (String "/" x).
  change (cut_byte "/" (String "/" x)) with (Some (EmptyString, x)).
  cbv iota beta zeta.
  change (url.parseAuthority "")
    with (@Val (option (string * option string) * string) (None, EmptyString)).
  cbv iota beta.
  change ("/" +:+ x) with (String "/" x).
  unfold url.setPath. rewrite Hun. cbn [url.Scheme url.Opaque url.User url.Host
    url.OmitHost url.ForceQuery url.RawQuery url.Fragment url.RawFragment].
  rewrite Hesc, !str_eqb_refl.
  reflexivity.
Qed.

(** * The identity codec *)

Lemma fileToID_rooted (env : Env) (p : string) :
  filepath.IsAbs p = true ->
  fileToID env p =
  Val ("file://" +:+ url.escape (filepath.Clean p) url.encodePath).
Proof.
  intros H. unfold fileToID, filepath.Abs. rewrite H.
  unfold filepath.ToSlash.
  change {| url.Scheme := "file"; url.Opaque := ""; url.User := None;
            url.Host := ""; url.Path := filepath.Clean p; url.RawPath := "";
            url.OmitHost := false; url.ForceQuery := false; url.RawQuery := "";
            url.Fragment := ""; url.RawFragment := "" |}
    with (file_url (filepath.Clean p)).
  now rewrite String_file_url by now apply Clean_IsAbs.
Qed.

Lemma idToFile_file_url (env : Env) (path : string) :
  filepath.IsAbs path = true ->
  idToFile env ("file://" +:+ url.escape path url.encodePath) =
  Val (filepath.Clean path).
Proof.
  intros H. unfold idToFile. rewrite Parse_file_url by exact H.
  cbn [url.Scheme file_url url.Path]. rewrite str_eqb_refl. cbn [negb].
  unfold filepath.FromSlash, filepath.Abs. now rewrite H.
Qed.

(** C4, as it is stated, fails on a rooted path that is not in its cleaned
    form: the identity of [/a/] decodes to [/a]. *)
Lemma C4_roundtrip_counterexample :
  filepath.IsAbs "/a/" = true
  /\ fileToID (test_env unreachable) "/a/" = Val "file:///a"
  /\ idToFile (test_env unreachable) "file:///a" = Val "/a"
  /\ "/a" <> "/a/".
Proof. repeat split; try reflexivity. discriminate. Qed.

(** C4 (amended): for every rooted path [p] the identity is built, and
    decoding it gives the cleaned form of [p]; it gives [p] itself when [p]
    is clean.  [fileToID] fails only when the path is relative and the
    working directory cannot be found, with that error; [idToFile] fails
    with the scheme error on an identity that parses with a scheme other
    than [file]. *)
Theorem C4_identity_codec (env : Env) :
  (forall p, filepath.IsAbs p = true ->
     exists id, fileToID env p = Val id
       /\ idToFile env id = Val (filepath.Clean p))
  /\ (forall p, filepath.IsAbs p = true -> filepath.Clean p = p ->
        exists id, fileToID env p = Val id /\ idToFile env id = Val p)
  /\ (forall p e, fileToID env p = Err e ->
        filepath.IsAbs p = false /\ Getwd env = Err e)
  /\ (forall id u, url.Parse id = Val u -> url.Scheme u <> "file" ->
        idToFile env id =
        Err (Errorf env "invalid id scheme %q, should be 'file'" [url.Scheme u])).
Proof.
  assert (Hround : forall p, filepath.IsAbs p = true ->
            exists id, fileToID env p = Val id
              /\ idToFile env id = Val (filepath.Clean p)).
  { intros p H.
    exists ("file://" +:+ url.escape (filepath.Clean p) url.encodePath).
    split; [now apply fileToID_rooted |].
    rewrite idToFile_file_url by now apply Clean_IsAbs.
    now rewrite Clean_idempotent. }
  split; [exact Hround |]. split; [| split].
  - intros p H Hc. destruct (Hround p H) as (id & Hid & Hback).
    exists id. split; [exact Hid |]. now rewrite Hback, Hc.
  - intros p e. unfold fileToID, filepath.Abs.
    destruct (filepath.IsAbs p); [discriminate |].
    destruct (Getwd env) as [wd | e']; [discriminate |].
    intros [= ->]. now split.
  - intros id u Hp Hs. unfold idToFile. rewrite Hp.
    apply str_eqb_neq in Hs. now rewrite Hs.
Qed.

Lemma C4_identity_codec_witness :
  (exists id, fileToID (test_env unreachable) "/srv/./data/../a b" = Val id
     /\ idToFile (test_env unreachable) id = Val "/srv/a b")
  /\ (exists id, fileToID (test_env unreachable) "/srv/a b" = Val id
        /\ idToFile (test_env unreachable) id = Val "/srv/a b")
  /\ (filepath.IsAbs "a.txt" = false
      /\ Getwd no_cwd_env = Err (PathError "getwd" "." ENOENT))
  /\ idToFile (test_env unreachable) "http://example.org/a" =
     Err (errorString (fmt.Sprintf quote_plain
                         "invalid id scheme %q, should be 'file'" ["http"])).
Proof.
  destruct (C4_identity_codec (test_env unreachable)) as (H1 & H2 & _ & H4).
  destruct (C4_identity_codec no_cwd_env) as (_ & _ & H3 & _).
  split; [| split; [| split]].
  - apply (H1 "/srv/./data/../a b"). reflexivity.
  - apply (H2 "/srv/a b"); reflexivity.
  - apply (H3 "a.txt"). reflexivity.
  - apply (H4 "http://example.org/a"
              {| url.Scheme := "http"; url.Opaque := ""; url.User := None;
                 url.Host := "example.org"; url.Path := "/a"; url.RawPath := "";
                 url.OmitHost := false; url.ForceQuery := false;
                 url.RawQuery := ""; url.Fragment := ""; url.RawFragment := "" |}).
    + reflexivity.
    + discriminate.
Defined.

(** * Running the model *)

Ltac run_step :=
  unfold mbind, M_bind, mret, M_ret, emit, get_fs, put_fs, get_data,
    data_Set, data_SetId, panic in *; cbn [fs data log] in *.

(** * Delete *)

(** C9: the two Delete operations are the same function of the world.  With
    an identity that decodes to [name]: when nothing is at [name] the
    operation succeeds and changes nothing; when the stat fails otherwise
    it returns an error and changes nothing; when a regular file is there
    it is removed and the operation succeeds; a removal that the system
    refuses is an error. *)
Theorem C9_delete_contract (env : Env) (w : World) (name : string) :
  idToFile env (d_id (data w)) = Val name ->
  resourceURLDelete env w = resourceFileDelete env w
  /\ resourceFileDelete env w =
     match fs w !! name with
     | None => Done [] (logged w [EvStat name])
     | Some Denied =>
         Done (FromErr env (Errorf_w "could not stat file %q: %w" [name]
                                     (PathError "stat" name EACCES)))
              (logged w [EvStat name])
     | Some (File _) =>
         Done [] {| fs := delete name (fs w); data := data w;
                    log := log w ++ [EvStat name; EvRemove name] |}
     | Some (Dir _) =>
         Done (FromErr env (Errorf_w "could not remove file %q: %w" [name]
                                     (PathError "remove" name ENOTEMPTY)))
              (logged w [EvStat name; EvRemove name])
     end.
Proof.
  intros Hid. split; [reflexivity |].
  unfold resourceFileDelete, logged. run_step. rewrite Hid.
  unfold os.Stat, os.Remove, os.call, os.stat_of, os.remove_of.
  cbn [fs data log fst snd].
  destruct (fs w !! name) as [[f | m |] |] eqn:E; cbn; rewrite ?E; cbn;
    rewrite <- ?app_assoc; reflexivity.
Qed.

Lemma C9_delete_contract_witness :
  resourceURLDelete (test_env unreachable) C9_world =
  resourceFileDelete (test_env unreachable) C9_world
  /\ resourceFileDelete (test_env unreachable) C9_world =
     Done [] (logged C9_world [EvStat "/srv/gone.conf"]).
Proof.
  exact (C9_delete_contract (test_env unreachable) C9_world "/srv/gone.conf"
                            eq_refl).
Defined.

(** * The remote fetch engine *)

(** C3 fails on the code: when [Do] returns an error and no response, the
    diagnostics of the error are dropped and [ensureDownloadFile] panics on
    the response that is nil; it returns no error.  The file system is as
    it was, and the only call made is the request. *)
Theorem C3_transport_failure_panics (env : Env) (mode : Z) (w : World)
        (req : http.Request) (err : error) :
  makeRequest http.MethodGet (data w) = Val req ->
  client_Do env req = http.DoError err None ->
  ensureDownloadFile env mode w = Panic (logged w [EvHTTP req]).
Proof.
  intros Hreq Hdo. unfold ensureDownloadFile, logged. run_step.
  rewrite Hreq. cbn. now rewrite Hdo.
Qed.

Ltac run_os :=
  unfold io.Copy in *;
  unfold os.OpenFile, os.Open, os.File_Stat, os.File_read,
    os.File_append, os.File_Close, os.Remove, os.Chmod in *;
  unfold os.Stat, os.call in *;
  run_step; cbn [fst snd fs data log] in *.


(** * The local copy engine *)






Lemma fetched_request_made :
  makeRequest http.MethodGet fetched_data = Val fetched_request.
Proof. vm_compute. reflexivity. Qed.

Lemma C3_transport_failure_panics_witness :
  ensureDownloadFile (test_env unreachable) 436 fetched_world =
  Panic (logged fetched_world [EvHTTP fetched_request]).
Proof.
  apply (C3_transport_failure_panics (test_env unreachable) 436 fetched_world
           fetched_request (errorString "dial tcp: connection refused")).
  - exact fetched_request_made.
  - reflexivity.
Defined.

(** * The file mode of a fetch *)





(** * The answers of the server *)

Lemma ensureDownloadFile_not_modified (env : Env) (mode : Z) (w : World)
      (req : http.Request) (resp : http.Response) :
  makeRequest http.MethodGet (data w) = Val req ->
  response_of (client_Do env req) = Some resp ->
  http.StatusCode resp = http.StatusNotModified ->
  ensureDownloadFile env mode w = Done [] (logged w [EvHTTP req]).
Proof.
  intros Hreq Hdo Hcode. unfold ensureDownloadFile, logged. run_step.
  rewrite Hreq. cbn [fs data log]. unfold response_of in Hdo. rewrite Hdo, Hcode.
  reflexivity.
Qed.

Lemma ensureDownloadFile_refused (env : Env) (mode : Z) (w : World)
      (req : http.Request) (resp : http.Response) :
  makeRequest http.MethodGet (data w) = Val req ->
  response_of (client_Do env req) = Some resp ->
  (http.StatusCode resp = http.StatusUnauthorized ->
   ensureDownloadFile env mode w =
   Done (diagResponseError env resp msg_unauthorized []) (logged w [EvHTTP req]))
  /\ (http.StatusCode resp = http.StatusForbidden ->
      ensureDownloadFile env mode w =
      Done (diagResponseError env resp msg_forbidden []) (logged w [EvHTTP req])).
Proof.
  intros Hreq Hdo. unfold ensureDownloadFile, logged. run_step.
  rewrite Hreq. cbn [fs data log]. unfold response_of in Hdo. rewrite Hdo.
  split; intros ->; reflexivity.
Qed.

Lemma stream_ok_all (env : Env) (dest bytes : string) (rderr : option error) :
  stream_error env dest bytes rderr = None ->
  (io.copy_plan (write_quota env dest) dest bytes rderr).1 = bytes.
Proof.
  unfold stream_error, io.copy_plan.
  destruct (write_quota env dest) as [q |]; [| reflexivity].
  destruct (q <? String.length bytes)%nat; [discriminate | reflexivity].
Qed.

(** A fetch answered with 200 whose body arrives whole: the file holds the
    body, with the mode it had or, when it is new, the permission bits of
    the mode asked for. *)
Lemma ensureDownloadFile_ok (env : Env) (mode : Z) (w : World)
      (req : http.Request) (resp : http.Response) :
  makeRequest http.MethodGet (data w) = Val req ->
  response_of (client_Do env req) = Some resp ->
  http.StatusCode resp = http.StatusOK ->
  let dest := data_Get (data w) "filename" in
  let mode' := if mode =? 0 then 420 else mode in
  writable (fs w) dest ->
  stream_error env dest (http.body_bytes (http.RespBody resp))
               (http.body_err (http.RespBody resp)) = None ->
  close_fails env dest = false ->
  ensureDownloadFile env mode w =
  Done []
       {| fs := <[dest := File {| f_data := http.body_bytes (http.RespBody resp);
                                  f_mode := match fs w !! dest with
                                            | Some (File f) => f_mode f
                                            | _ => os.Perm mode'
                                            end;
                                  f_bad := None |}]> (fs w);
          data := {| d_id := d_id (data w);
                     d_attrs := fetched_attrs env resp (d_attrs (data w));
                     d_headers := d_headers (data w) |};
          log := log w ++ [EvHTTP req; EvCreate dest mode';
                           EvWrite dest (http.body_bytes (http.RespBody resp));
                           EvClose dest] |}.
Proof.
  intros Hreq Hdo Hcode dest mode' Hw Hs Hc. subst dest mode'.
  unfold ensureDownloadFile, writeResponseBody. run_os.
  rewrite Hreq. cbn [fs data log]. unfold response_of in Hdo. rewrite Hdo, Hcode.
  cbn [Z.eqb Pos.eqb http.StatusOK http.StatusNotModified].
  pose proof (stream_ok_all _ _ _ _ Hs) as Hall. unfold stream_error in Hs.
  unfold os.create_of.
  cbn [fst snd fs data log].
  destruct Hw as [Hw | [f Hw]]; rewrite !Hw; cbn [fst snd fs data log];
    rewrite Hs, Hall; unfold os.append_of; rewrite lookup_insert_eq;
    cbn beta; cbn [fs data log f_data f_mode f_bad]; rewrite Hc;
    rewrite insert_insert_eq; rewrite <- !app_assoc; reflexivity.
Qed.






(** * Error classification *)

Lemma isTextual_types (env : Env) (contentType : string) :
  isTextual env contentType = true ->
  HasPrefix (getNormalizedMediaType env contentType) "text/" = true
  \/ In (getNormalizedMediaType env contentType)
        ["application/json"; "application/xml"; "application/yaml";
         "application/x-yaml"].
Proof.
  unfold isTextual.
  destruct (str_eqb (getNormalizedMediaType env contentType) ""); [discriminate |].
  destruct (HasPrefix (getNormalizedMediaType env contentType) "text/");
    [now left |].
  intros H. right.
  repeat (apply orb_true_iff in H as [H | H]);
    apply str_eqb_eq in H; rewrite H; cbn; tauto.
Qed.

(** The last diagnostic of [diagResponseError] is the error; it carries the
    body only when the content type is textual. *)
Lemma diagResponseError_primary (env : Env) (resp : http.Response)
      (format : string) (v : list string) :
  exists warnings detail,
    diagResponseError env resp format v =
    warnings ++ [ {| diag.Sev := diag.Error;
                     diag.Summary := fmt.Sprintf (Quote env) format v;
                     diag.Detail := detail |} ]
    /\ Forall (fun d => diag.Sev d = diag.Warning) warnings
    /\ (detail <> "" ->
        isTextual env (http.Header_Get (http.RespHeader resp) "Content-Type")
        = true
        /\ http.body_err (http.RespBody resp) = None
        /\ detail = http.body_bytes (http.RespBody resp)).
Proof.
  unfold diagResponseError.
  destruct (isTextual env _) eqn:Et.
  - destruct (http.body_err (http.RespBody resp)) as [err |] eqn:Eb.
    + eexists [_], "". split; [reflexivity |].
      split; [repeat constructor | intros H; contradiction].
    + exists [], (http.body_bytes (http.RespBody resp)).
      split; [reflexivity |]. split; [constructor | now intros _].
  - exists [], "". split; [reflexivity |].
    split; [constructor | intros H; contradiction].
Qed.

(** C7, as it is stated, fails: the error of a 401 answer that carries no
    text says [authorization], and the text [authorized] is nowhere in it,
    in either case of the letters. *)
Lemma C7_message_counterexample :
  exists d,
    ensureDownloadFile (test_env (answers C7_response)) 436 fetched_world =
    Done [d] (logged fetched_world [EvHTTP fetched_request])
    /\ diag.Sev d = diag.Error
    /\ Contains (str_map to_lower (diag.Summary d)) "authorized" = false
    /\ Contains (str_map to_lower (diag.Detail d)) "authorized" = false.
Proof.
  eexists. split; [vm_compute; reflexivity |].
  repeat split; vm_compute; reflexivity.
Qed.

(** C7 (amended): a 401 answer and a 403 answer each yield diagnostics that
    end with an error; the summary of the first is the message that the URL
    requires authorization (it holds [authorization], not [authorized]),
    the summary of the second is a different message, which holds
    [credentials]; the detail of the error is empty unless the content type
    of the answer is textual and the body was read, and then it is the
    body; a textual content type is one whose normalized media type starts
    with [text/] or is the JSON, XML or YAML type. *)
Theorem C7_error_classification (env : Env) (mode : Z) (w : World)
        (req : http.Request) (resp : http.Response) :
  makeRequest http.MethodGet (data w) = Val req ->
  response_of (client_Do env req) = Some resp ->
  http.StatusCode resp = http.StatusUnauthorized
  \/ http.StatusCode resp = http.StatusForbidden ->
  exists warnings detail,
    ensureDownloadFile env mode w =
    Done (warnings ++
          [ {| diag.Sev := diag.Error;
               diag.Summary :=
                 if http.StatusCode resp =? http.StatusUnauthorized
                 then msg_unauthorized else msg_forbidden;
               diag.Detail := detail |} ])
         (logged w [EvHTTP req])
    /\ Forall (fun d => diag.Sev d = diag.Warning) warnings
    /\ (detail <> "" ->
        isTextual env (http.Header_Get (http.RespHeader resp) "Content-Type")
        = true
        /\ (let mt := getNormalizedMediaType env
                        (http.Header_Get (http.RespHeader resp) "Content-Type") in
            HasPrefix mt "text/" = true
            \/ In mt ["application/json"; "application/xml";
                      "application/yaml"; "application/x-yaml"])
        /\ detail = http.body_bytes (http.RespBody resp))
    /\ Contains msg_unauthorized "authorization" = true
    /\ Contains msg_unauthorized "authorized" = false
    /\ Contains msg_forbidden "credentials" = true
    /\ msg_unauthorized <> msg_forbidden.
Proof.
  intros Hreq Hdo Hcode.
  destruct (ensureDownloadFile_refused env mode w req resp Hreq Hdo) as [H401 H403].
  assert (Hsum : exists format,
             ensureDownloadFile env mode w =
             Done (diagResponseError env resp format []) (logged w [EvHTTP req])
             /\ fmt.Sprintf (Quote env) format [] =
                if http.StatusCode resp =? http.StatusUnauthorized
                then msg_unauthorized else msg_forbidden).
  { destruct Hcode as [Hc | Hc].
    - exists msg_unauthorized. split; [now apply H401 |]. rewrite Hc. reflexivity.
    - exists msg_forbidden. split; [now apply H403 |]. rewrite Hc. reflexivity. }
  destruct Hsum as (format & Hrun & Hfmt).
  destruct (diagResponseError_primary env resp format [])
    as (warnings & detail & Hd & Hwarn & Hdetail).
  exists warnings, detail. rewrite Hrun, Hd, Hfmt.
  split; [reflexivity |]. split; [exact Hwarn |].
  split.
  { intros Hne. destruct (Hdetail Hne) as (Ht & _ & Hb).
    split; [exact Ht |]. split; [| exact Hb]. now apply isTextual_types. }
  repeat split; try (vm_compute; reflexivity). discriminate.
Qed.

Lemma C7_error_classification_witness :
  exists warnings detail,
    ensureDownloadFile (test_env (answers C7_forbidden)) 436 fetched_world =
    Done (warnings ++
          [ {| diag.Sev := diag.Error; diag.Summary := msg_forbidden;
               diag.Detail := detail |} ])
         (logged fetched_world [EvHTTP fetched_request])
    /\ Forall (fun d => diag.Sev d = diag.Warning) warnings
    /\ (detail <> "" ->
        isTextual (test_env (answers C7_forbidden)) "text/plain; charset=utf-8"
        = true
        /\ (HasPrefix "text/plain" "text/" = true
            \/ In "text/plain" ["application/json"; "application/xml";
                                "application/yaml"; "application/x-yaml"])
        /\ detail = "forbidden")
    /\ Contains msg_unauthorized "authorization" = true
    /\ Contains msg_unauthorized "authorized" = false
    /\ Contains msg_forbidden "credentials" = true
    /\ msg_unauthorized <> msg_forbidden.
Proof.
  exact (C7_error_classification (test_env (answers C7_forbidden)) 436
           fetched_world fetched_request C7_forbidden fetched_request_made
           eq_refl (or_intror eq_refl)).
Defined.

(** * Read of a URL resource *)

(** C2, as it is stated, fails: Read of a resource whose file exists sends a
    request, and an answer of 200 replaces the file, the fingerprint and
    the cached validators. *)
Lemma C2_read_counterexample :
  exists w',
    resourceURLRead (test_env (answers C2_response)) fetched_world = Done [] w'
    /\ log w' = [EvStat "/srv/www/index.html"; EvHTTP fetched_request;
                 EvCreate "/srv/www/index.html" 436;
                 EvWrite "/srv/www/index.html" "new page";
                 EvClose "/srv/www/index.html"]
    /\ fs fetched_world !! "/srv/www/index.html" = Some (new_file "old page" 436)
    /\ fs w' !! "/srv/www/index.html" = Some (new_file "new page" 436)
    /\ data_Get (data fetched_world) "etag" = "v1"
    /\ data_Get (data w') "etag" = "v2"
    /\ data_Get (data fetched_world) "content_sha256" = "sha256:old page"
    /\ data_Get (data w') "content_sha256" = "sha256:new page".
Proof.
  eexists. split; [vm_compute; reflexivity |].
  repeat split; vm_compute; reflexivity.
Qed.

(** C2 (amended): Read of a URL resource whose backing file exists, with a
    valid file mode, sends one conditional GET, the request that
    [makeRequest] builds from the cached validators.  When the answer is
    304 nothing changes: the file system and the fields are as they were.
    When the answer is 200 and the body arrives whole, the destination
    holds the body and the validators and the fingerprint are those of the
    answer. *)
Theorem C2_read_reconciles (env : Env) (w : World) (file : string) (mode : Z)
        (req : http.Request) (resp : http.Response) :
  idToFile env (d_id (data w)) = Val file ->
  is_Val (os.stat_of (fs w) file) = true ->
  getFileMode env (data w) = Val mode ->
  makeRequest http.MethodGet (data w) = Val req ->
  response_of (client_Do env req) = Some resp ->
  (http.StatusCode resp = http.StatusNotModified ->
   resourceURLRead env w = Done [] (logged w [EvStat file; EvHTTP req]))
  /\ (http.StatusCode resp = http.StatusOK ->
      let dest := data_Get (data w) "filename" in
      let mode' := if mode =? 0 then 420 else mode in
      writable (fs w) dest ->
      stream_error env dest (http.body_bytes (http.RespBody resp))
                   (http.body_err (http.RespBody resp)) = None ->
      close_fails env dest = false ->
      resourceURLRead env w =
      Done []
           {| fs := <[dest := File {| f_data := http.body_bytes (http.RespBody resp);
                                      f_mode := match fs w !! dest with
                                                | Some (File f) => f_mode f
                                                | _ => os.Perm mode'
                                                end;
                                      f_bad := None |}]> (fs w);
              data := {| d_id := d_id (data w);
                         d_attrs := fetched_attrs env resp (d_attrs (data w));
                         d_headers := d_headers (data w) |};
              log := log w ++ [EvStat file; EvHTTP req; EvCreate dest mode';
                               EvWrite dest (http.body_bytes (http.RespBody resp));
                               EvClose dest] |}).
Proof.
  intros Hid Hstat Hmode Hreq Hdo.
  assert (Hrun : resourceURLRead env w =
                 ensureDownloadFile env mode (logged w [EvStat file])).
  { unfold resourceURLRead, logged. run_os. rewrite Hid.
    destruct (os.stat_of (fs w) file); [| discriminate Hstat].
    cbn [fs data log]. now rewrite Hmode. }
  rewrite Hrun. split.
  - intros Hcode.
    rewrite (ensureDownloadFile_not_modified env mode (logged w [EvStat file])
               req resp Hreq Hdo Hcode).
    unfold logged. cbn [fs data log]. now rewrite <- app_assoc.
  - intros Hcode dest mode' Hw Hs Hc.
    rewrite (ensureDownloadFile_ok env mode (logged w [EvStat file])
               req resp Hreq Hdo Hcode Hw Hs Hc).
    unfold logged. cbn [fs data log]. now rewrite <- app_assoc.
Qed.

Lemma C2_read_reconciles_witness :
  resourceURLRead (test_env (answers C2_not_modified)) fetched_world =
  Done [] (logged fetched_world [EvStat "/srv/www/index.html";
                                 EvHTTP fetched_request])
  /\ resourceURLRead (test_env (answers C2_response)) fetched_world =
     Done []
          {| fs := <["/srv/www/index.html" := new_file "new page" 436]>
                     (fs fetched_world);
             data := {| d_id := d_id fetched_data;
                        d_attrs := fetched_attrs (test_env (answers C2_response))
                                                 C2_response (d_attrs fetched_data);
                        d_headers := d_headers fetched_data |};
             log := [EvStat "/srv/www/index.html"; EvHTTP fetched_request;
                     EvCreate "/srv/www/index.html" 436;
                     EvWrite "/srv/www/index.html" "new page";
                     EvClose "/srv/www/index.html"] |}.
Proof.
  split.
  - apply (C2_read_reconciles (test_env (answers C2_not_modified)) fetched_world
             "/srv/www/index.html" 436 fetched_request C2_not_modified);
      reflexivity.
  - apply (C2_read_reconciles (test_env (answers C2_response)) fetched_world
             "/srv/www/index.html" 436 fetched_request C2_response);
      try reflexivity.
    right. eexists. reflexivity.
Defined.

(** * Fingerprints *)

Lemma hashFile_run (env : Env) (path : string) (w : World) :
  hashFile env path w =
  Done (fingerprint env (fs w) path) (logged w (hash_events (fs w) path)).
Proof.
  unfold hashFile, fingerprint, hash_events, logged. run_os.
  destruct (os.open_of (fs w) path) as [fd | err] eqn:Eo; cbn [fs data log].
  - assert (fd = path) as ->.
    { unfold os.open_of in Eo. destruct (fs w !! path) as [[| |] |]; congruence. }
    rewrite (surjective_pairing (os.read_of (fs w) path)).
    cbn beta iota. cbn [fs data log fst snd].
    destruct (os.read_of (fs w) path).2; rewrite <- !app_assoc; reflexivity.
  - reflexivity.
Qed.

Lemma hash_events_read_only (m : gmap string node) (path : string) :
  read_only (hash_events m path).
Proof.
  unfold hash_events, read_only.
  destruct (os.open_of m path); repeat constructor.
Qed.

(** A path with a fingerprint names a regular file that reads to its end. *)
Lemma fingerprint_file (env : Env) (m : gmap string node) (path h : string) :
  fingerprint env m path = Val h ->
  exists f, m !! path = Some (File f) /\ f_bad f = None
            /\ h = sha256_hex env (f_data f).
Proof.
  unfold fingerprint, os.open_of, os.read_of.
  destruct (m !! path) as [[f | mode |] |] eqn:E; try discriminate.
  - rewrite E. destruct (f_bad f) eqn:Eb; cbn [fst snd]; [discriminate |].
    intros [= <-]. now exists f.
  - rewrite E. cbn [snd]. discriminate.
Qed.

Lemma fingerprint_of_file (env : Env) (m : gmap string node) (path : string)
      (f : file) :
  m !! path = Some (File f) -> f_bad f = None ->
  fingerprint env m path = Val (sha256_hex env (f_data f)).
Proof.
  intros E Eb. unfold fingerprint, os.open_of. rewrite E.
  unfold os.read_of. rewrite E, Eb. reflexivity.
Qed.

(** * Permission reconciliation *)

Lemma same_bytes_refl (m : gmap string node) : same_bytes m m.
Proof. now intros p. Qed.

Lemma same_bytes_chmod (m : gmap string node) (path : string) (mode : Z) :
  same_bytes m (os.chmod_of m path mode).2.
Proof.
  intros p. unfold os.chmod_of.
  destruct (m !! path) as [[f | md |] |] eqn:E; cbn [snd]; try reflexivity.
  - destruct (decide (path = p)) as [<- | Hne].
    + now rewrite lookup_insert_eq, E.
    + now rewrite lookup_insert_ne.
  - destruct (decide (path = p)) as [<- | Hne].
    + now rewrite lookup_insert_eq, E.
    + now rewrite lookup_insert_ne.
Qed.

Lemma fingerprint_same_bytes (env : Env) (m m' : gmap string node)
      (path : string) :
  same_bytes m m' -> fingerprint env m' path = fingerprint env m path.
Proof.
  intros H. specialize (H path).
  unfold fingerprint, os.open_of.
  destruct (m !! path) as [[f | md |] |] eqn:E,
           (m' !! path) as [[f' | md' |] |] eqn:E';
    cbn in H; try discriminate; try reflexivity;
    unfold os.read_of; rewrite E, E'; try reflexivity.
  injection H as Hd Hb. rewrite Hd, Hb. reflexivity.
Qed.

Lemma hash_events_no_copy (m : gmap string node) (path : string) :
  no_copy (hash_events m path).
Proof.
  unfold hash_events, no_copy. destruct (os.open_of m path); repeat constructor.
Qed.

(** [ensureFileMode] changes no byte and no field, and makes no call that
    creates, writes or removes a file; it succeeds when the destination is
    a regular file and the mode it wants is known, and only when that mode
    is known. *)
Lemma ensureFileMode_frame (env : Env) (w : World) :
  exists ds evs m',
    ensureFileMode env w =
    Done ds {| fs := m'; data := data w; log := log w ++ evs |}
    /\ same_bytes (fs w) m'
    /\ no_copy evs
    /\ ((exists f, fs w !! data_Get (data w) "destination" = Some (File f)) ->
        mode_known w -> ds = [])
    /\ (diag.HasError ds = false -> mode_known w).
Proof.
  unfold ensureFileMode, mode_known, FromErr, data_GetOk. run_os.
  set (dest := data_Get (data w) "destination").
  set (source := data_Get (data w) "source").
  set (v := data_Get (data w) "file_mode").
  destruct (os.stat_of (fs w) dest) as [destMode | err] eqn:Est; cbn [fs data log].
  2:{ do 3 eexists. split; [reflexivity |]. split; [apply same_bytes_refl |].
      split; [repeat constructor |]. split; [| discriminate].
      intros [f Hf] _.
      unfold os.stat_of in Est. rewrite Hf in Est. discriminate. }
  destruct (str_eqb v "") eqn:Ev; cbn [negb].
  - (* the mode of the source *)
    run_os. apply str_eqb_eq in Ev.
    destruct (os.stat_of (fs w) source) as [srcMode | err] eqn:Ess; cbn [fs data log].
    2:{ do 3 eexists. split; [rewrite <- app_assoc; reflexivity |].
        split; [apply same_bytes_refl |]. split; [repeat constructor |].
        split; [| discriminate].
        intros _ [[Hv _] | [_ Hs]]; [contradiction | discriminate Hs]. }
    assert (Hknown : v <> "" /\ is_Val (strconv.ParseUint v 8 32) = true
                     \/ v = "" /\ is_Val (@Val Z srcMode) = true)
      by (right; now split).
    destruct (srcMode =? destMode); cbn [fs data log].
    + do 3 eexists. split; [rewrite <- app_assoc; reflexivity |].
      split; [apply same_bytes_refl |]. split; [repeat constructor |].
      split; [reflexivity | intros _; exact Hknown].
    + destruct (os.chmod_of (fs w) dest srcMode) as [cerr m'] eqn:Ec.
      pose proof (same_bytes_chmod (fs w) dest srcMode) as Hsb. rewrite Ec in Hsb.
      cbn [fst snd] in *.
      destruct cerr as [err |]; do 3 eexists;
        (split; [rewrite <- !app_assoc; reflexivity |]);
        (split; [exact Hsb |]); (split; [repeat constructor |]);
        (split; [| intros _; exact Hknown]); [| reflexivity].
      intros [f Hf] _. unfold os.chmod_of in Ec. rewrite Hf in Ec. discriminate.
  - (* the file mode *)
    apply str_eqb_neq in Ev.
    destruct (strconv.ParseUint v 8 32) as [m | perr] eqn:Ep; run_os.
    2:{ do 3 eexists. split; [reflexivity |]. split; [apply same_bytes_refl |].
        split; [repeat constructor |]. split; [| discriminate].
        intros _ [[_ Hp] | [Hv _]]; [discriminate Hp | contradiction]. }
    assert (Hknown : v <> "" /\ is_Val (@Val Z m) = true
                     \/ v = "" /\ is_Val (os.stat_of (fs w) source) = true)
      by (left; now split).
    destruct (m =? destMode); cbn [fs data log].
    + do 3 eexists. split; [reflexivity |].
      split; [apply same_bytes_refl |]. split; [repeat constructor |].
      split; [reflexivity | intros _; exact Hknown].
    + destruct (os.chmod_of (fs w) dest m) as [cerr m'] eqn:Ec.
      pose proof (same_bytes_chmod (fs w) dest m) as Hsb. rewrite Ec in Hsb.
      cbn [fst snd] in *.
      destruct cerr as [err |]; do 3 eexists;
        (split; [rewrite <- !app_assoc; reflexivity |]);
        (split; [exact Hsb |]); (split; [repeat constructor |]);
        (split; [| intros _; exact Hknown]); [| reflexivity].
      intros [f Hf] _. unfold os.chmod_of in Ec. rewrite Hf in Ec. discriminate.
Qed.

(** * The local copy engine: the short cut *)

Lemma ensureCopyFile_matched (env : Env) (w : World) (h : string) :
  let source := data_Get (data w) "source" in
  let dest := data_Get (data w) "destination" in
  fingerprint env (fs w) source = Val h ->
  fingerprint env (fs w) dest = Val h ->
  ensureCopyFile env w =
  ensureFileMode env
    (logged w (hash_events (fs w) source ++ hash_events (fs w) dest)).
Proof.
  intros source dest Hs Hd. subst source dest.
  unfold ensureCopyFile. run_step.
  rewrite hashFile_run, Hs. rewrite hashFile_run. cbn [logged fs data log].
  rewrite Hd, str_eqb_refl. unfold logged. cbn [fs data log].
  now rewrite <- app_assoc.
Qed.

(** * An invalid file mode *)

Lemma data_GetOk_set (d : ResourceData) (key : string) :
  data_Get d key <> "" -> data_GetOk d key = (data_Get d key, true).
Proof.
  intros H. unfold data_GetOk. apply str_eqb_neq in H. now rewrite H.
Qed.

Lemma ensureCopyFile_invalid_mode (env : Env) (w : World) (h : string)
      (e : error) :
  fingerprint env (fs w) (data_Get (data w) "source") = Val h ->
  data_Get (data w) "file_mode" <> "" ->
  strconv.ParseUint (data_Get (data w) "file_mode") 8 32 = Err e ->
  exists evs,
    ensureCopyFile env w = Done [invalid_mode_diag env e] (logged w evs)
    /\ read_only evs
    /\ hash_events (fs w) (data_Get (data w) "source") `prefix_of` evs.
Proof.
  intros Hs Hv Hp. unfold ensureCopyFile. run_step.
  rewrite hashFile_run, Hs. rewrite hashFile_run. cbn [logged fs data log].
  set (source := data_Get (data w) "source") in *.
  set (dest := data_Get (data w) "destination") in *.
  assert (Hmatch :
            (exists f, fs w !! dest = Some (File f))
            \/ match fingerprint env (fs w) dest with
               | Val destHash => str_eqb destHash h
               | Err _ => false
               end = false).
  { destruct (fingerprint env (fs w) dest) as [dh |] eqn:Ed; [| now right].
    left. destruct (fingerprint_file env _ _ _ Ed) as (f & Hf & _). now exists f. }
  destruct (match fingerprint env (fs w) dest with
            | Val destHash => str_eqb destHash h
            | Err _ => false
            end) eqn:Em.
  - destruct Hmatch as [[f Hf] | Hm]; [| discriminate Hm].
    unfold ensureFileMode, logged. run_os. fold dest.
    unfold os.stat_of. rewrite Hf. cbn [fs data log].
    rewrite (data_GetOk_set _ _ Hv), Hp. run_step.
    exists (hash_events (fs w) source ++ hash_events (fs w) dest ++ [EvStat dest]).
    unfold logged. cbn [fs data log]. rewrite <- ?app_assoc.
    split; [reflexivity |].
    split; [| now apply prefix_app_r].
    unfold read_only. rewrite !Forall_app.
    repeat split; try apply hash_events_read_only. repeat constructor.
  - rewrite (data_GetOk_set _ _ Hv), Hp. run_step.
    exists (hash_events (fs w) source ++ hash_events (fs w) dest).
    unfold logged. cbn [fs data log]. rewrite <- ?app_assoc.
    split; [reflexivity |].
    split; [| now apply prefix_app_r].
    unfold read_only. rewrite !Forall_app.
    split; apply hash_events_read_only.
Qed.

(** C8, as it is stated, fails for the local engine: with an invalid file
    mode Create opens and reads the source and opens the destination before
    it reports the mode. *)
Lemma C8_local_io_counterexample :
  exists d w',
    resourceFileCreate (test_env unreachable) C8_world = Done [d] w'
    /\ diag.Summary d = "file_mode is not a valid octal number"
    /\ log C8_world = []
    /\ log w' = [EvOpen "/src/motd"; EvRead "/src/motd"; EvClose "/src/motd";
                 EvOpen "/etc/motd"].
Proof.
  do 2 eexists. split; [vm_compute; reflexivity |].
  repeat split; vm_compute; reflexivity.
Qed.

(** C8 (amended): with a file mode that is set and is not an octal number,
    Create of a URL resource returns the error before anything is done:
    the world, log included, is as it was.  In the local engine Create
    and Update hash the source first, and the destination; when the source
    has a fingerprint they then return the error of the file mode, having
    made no call that changes the file system. *)
Theorem C8_invalid_mode (env : Env) (w : World) (e : error) :
  data_Get (data w) "file_mode" <> "" ->
  strconv.ParseUint (data_Get (data w) "file_mode") 8 32 = Err e ->
  resourceURLCreate env w =
  Done (FromErr env (Errorf env "file_mode is not a valid octal number" [])) w
  /\ (forall h,
         fingerprint env (fs w) (data_Get (data w) "source") = Val h ->
         exists evs,
           resourceFileCreate env w = Done [invalid_mode_diag env e] (logged w evs)
           /\ resourceFileUpdate env w = Done [invalid_mode_diag env e] (logged w evs)
           /\ read_only evs
           /\ hash_events (fs w) (data_Get (data w) "source") `prefix_of` evs).
Proof.
  intros Hv Hp. split.
  - unfold resourceURLCreate, getFileMode. run_step.
    rewrite (data_GetOk_set _ _ Hv), Hp. reflexivity.
  - intros h Hs.
    destruct (ensureCopyFile_invalid_mode env w h e Hs Hv Hp)
      as (evs & Hrun & Hro & Hpre).
    exists evs. unfold resourceFileCreate, resourceFileUpdate. run_step.
    rewrite Hrun. cbn. repeat split; assumption.
Qed.

Lemma C8_invalid_mode_witness :
  resourceURLCreate (test_env unreachable) C8_world =
  Done (FromErr (test_env unreachable)
                (Errorf (test_env unreachable)
                        "file_mode is not a valid octal number" []))
       C8_world
  /\ exists evs,
      resourceFileCreate (test_env unreachable) C8_world =
      Done [invalid_mode_diag (test_env unreachable)
                              (NumError "ParseUint" "rw-r--r--" ErrSyntax)]
           (logged C8_world evs)
      /\ resourceFileUpdate (test_env unreachable) C8_world =
         Done [invalid_mode_diag (test_env unreachable)
                                 (NumError "ParseUint" "rw-r--r--" ErrSyntax)]
              (logged C8_world evs)
      /\ read_only evs
      /\ hash_events (fs C8_world) "/src/motd" `prefix_of` evs.
Proof.
  destruct (C8_invalid_mode (test_env unreachable) C8_world
              (NumError "ParseUint" "rw-r--r--" ErrSyntax)) as [H1 H2].
  - discriminate.
  - reflexivity.
  - split; [exact H1 |]. apply (H2 "sha256:welcome"). reflexivity.
Defined.

(** * The request *)

Lemma fold_set_header (pairs : list (string * string)) (req : http.Request) :
  fold_left (fun r kv => http.set_header r kv.1 kv.2) pairs req =
  {| http.Method := http.Method req; http.URL := http.URL req;
     http.ReqHeader :=
       fold_left (fun h kv => http.Header_Set h kv.1 kv.2) pairs
                 (http.ReqHeader req) |}.
Proof.
  revert req. induction pairs as [|kv pairs IH]; intros req; cbn [fold_left].
  - now destruct req.
  - rewrite IH. reflexivity.
Qed.

Lemma custom_headers_snoc (pairs : list (string * string)) (kv : string * string) :
  custom_headers (pairs ++ [kv]) =
  <[canonical kv := [kv.2]]> (custom_headers pairs).
Proof. unfold custom_headers. now rewrite fold_left_app. Qed.

(** Every header of the request has one value, the value of a configured
    pair with that canonical name. *)
Lemma custom_headers_origin (pairs : list (string * string)) (c : string)
      (vs : list string) :
  custom_headers pairs !! c = Some vs ->
  exists kv, kv ∈ pairs /\ canonical kv = c /\ vs = [kv.2].
Proof.
  induction pairs as [|kv pairs IH] using rev_ind.
  - unfold custom_headers. cbn [fold_left]. now rewrite lookup_empty.
  - rewrite custom_headers_snoc.
    destruct (decide (canonical kv = c)) as [<- | Hne].
    + rewrite lookup_insert_eq. intros [= <-]. exists kv.
      split; [apply elem_of_app; right; now apply list_elem_of_singleton |].
      now split.
    + rewrite lookup_insert_ne by exact Hne. intros H.
      destruct (IH H) as (kv' & Hin & Hc & Hv). exists kv'.
      split; [apply elem_of_app; now left |]. now split.
Qed.

(** A configured pair whose canonical name no other pair shares is in the
    request with its value. *)
Lemma custom_headers_applied (pairs : list (string * string))
      (kv : string * string) :
  NoDup (canonical <$> pairs) -> kv ∈ pairs ->
  custom_headers pairs !! canonical kv = Some [kv.2].
Proof.
  induction pairs as [|kv' pairs IH] using rev_ind; intros Hnd Hin.
  - now apply elem_of_nil in Hin.
  - rewrite custom_headers_snoc. rewrite fmap_app in Hnd.
    apply NoDup_app in Hnd as (Hnd & Hdisj & _).
    apply elem_of_app in Hin as [Hin | Hin].
    + rewrite lookup_insert_ne; [now apply IH |].
      intros Heq. apply (Hdisj (canonical kv)).
      * apply list_elem_of_fmap. now exists kv.
      * cbn. rewrite Heq. now apply list_elem_of_singleton.
    + apply list_elem_of_singleton in Hin. subst kv'. apply lookup_insert_eq.
Qed.

Lemma makeRequest_header (method : string) (d : ResourceData)
      (req : http.Request) :
  makeRequest method d = Val req ->
  http.ReqHeader req =
  if negb (str_eqb (data_Get d "etag") "")
  then <["If-None-Match" := [data_Get d "etag"]]> (custom_headers (d_headers d))
  else if negb (str_eqb (data_Get d "last_modified") "")
       then <["If-Modified-Since" := [data_Get d "last_modified"]]>
              (custom_headers (d_headers d))
       else custom_headers (d_headers d).
Proof.
  unfold makeRequest, http.NewRequest.
  destruct (url.Parse (data_Get d "url")) as [u | err]; [| discriminate].
  rewrite fold_set_header. cbn [http.ReqHeader http.Method http.URL].
  intros [= <-]. fold (custom_headers (d_headers d)).
  destruct (negb (str_eqb (data_Get d "etag") "")); [reflexivity |].
  destruct (negb (str_eqb (data_Get d "last_modified") "")); reflexivity.
Qed.

(** C6, as it is stated, fails twice: with nothing cached the request has no
    conditional header at all, and a configured header of the name
    [If-None-Match] is replaced by the cached entity tag. *)
Lemma C6_conditional_counterexample :
  (exists req,
      makeRequest http.MethodGet first_fetch_data = Val req
      /\ http.ReqHeader req !! "If-None-Match" = None
      /\ http.ReqHeader req !! "If-Modified-Since" = None)
  /\ (exists req,
         makeRequest http.MethodGet C6_data = Val req
         /\ ("If-None-Match", "configured") ∈ d_headers C6_data
         /\ http.ReqHeader req !! "If-None-Match" = Some ["v1"]
         /\ ["v1"] <> ["configured"]).
Proof.
  split.
  - eexists. split; [vm_compute; reflexivity |]. split; vm_compute; reflexivity.
  - eexists. split; [vm_compute; reflexivity |].
    split; [apply list_elem_of_singleton; reflexivity |].
    split; [vm_compute; reflexivity | discriminate].
Qed.

(** C6 (amended): the header of a request is the configured headers, each
    set under its canonical name with its value, and over them at most one
    conditional header: [If-None-Match] with the cached entity tag when
    there is one, otherwise [If-Modified-Since] with the cached time when
    there is one, otherwise none.  The entity tag wins when both are
    cached.  Every header among the configured ones has one value, the
    value of a configured pair of that canonical name, and a pair whose
    canonical name no other pair shares is there with its value. *)
Theorem C6_conditional_request (d : ResourceData) (req : http.Request) :
  makeRequest http.MethodGet d = Val req ->
  let etag := data_Get d "etag" in
  let modified := data_Get d "last_modified" in
  let custom := custom_headers (d_headers d) in
  (etag <> "" ->
   http.ReqHeader req = <["If-None-Match" := [etag]]> custom
   /\ http.ReqHeader req !! "If-Modified-Since" = custom !! "If-Modified-Since")
  /\ (etag = "" -> modified <> "" ->
      http.ReqHeader req = <["If-Modified-Since" := [modified]]> custom
      /\ http.ReqHeader req !! "If-None-Match" = custom !! "If-None-Match")
  /\ (etag = "" -> modified = "" -> http.ReqHeader req = custom)
  /\ (forall c vs, custom !! c = Some vs ->
        exists kv, kv ∈ d_headers d /\ canonical kv = c /\ vs = [kv.2])
  /\ (forall kv, NoDup (canonical <$> d_headers d) -> kv ∈ d_headers d ->
        custom !! canonical kv = Some [kv.2]).
Proof.
  intros Hreq etag modified custom.
  pose proof (makeRequest_header http.MethodGet d req Hreq) as Hh.
  fold etag modified custom in Hh.
  split; [| split; [| split; [| split]]].
  - intros He. apply str_eqb_neq in He. rewrite He in Hh. cbn [negb] in Hh.
    rewrite Hh. split; [reflexivity |]. now rewrite lookup_insert_ne.
  - intros -> Hm. apply str_eqb_neq in Hm. rewrite Hm in Hh.
    cbn [negb str_eqb String.eqb] in Hh.
    rewrite Hh. split; [reflexivity |]. now rewrite lookup_insert_ne.
  - intros -> ->. exact Hh.
  - intros c vs. apply custom_headers_origin.
  - intros kv. apply custom_headers_applied.
Qed.

Lemma first_fetch_request_made :
  makeRequest http.MethodGet first_fetch_data = Val first_fetch_request.
Proof. vm_compute. reflexivity. Qed.

Lemma C6_conditional_request_witness :
  (http.ReqHeader fetched_request =
   <["If-None-Match" := ["v1"]]> (custom_headers (d_headers fetched_data))
   /\ http.ReqHeader fetched_request !! "If-Modified-Since" =
      custom_headers (d_headers fetched_data) !! "If-Modified-Since")
  /\ http.ReqHeader first_fetch_request =
     custom_headers (d_headers first_fetch_data)
  /\ custom_headers (d_headers fetched_data) !! "Authorization" =
     Some ["Bearer secret"].
Proof.
  destruct (C6_conditional_request fetched_data fetched_request
              fetched_request_made) as (H1 & _ & _ & _ & H5).
  destruct (C6_conditional_request first_fetch_data first_fetch_request
              first_fetch_request_made) as (_ & _ & H3 & _).
  split; [apply H1; discriminate |].
  split; [apply H3; reflexivity |].
  apply (H5 ("Authorization", "Bearer secret")).
  - repeat constructor. apply not_elem_of_nil.
  - apply list_elem_of_singleton. reflexivity.
Defined.

(** * The local copy engine: a copy that succeeds *)

Lemma copyFile_ok (env : Env) (source destination : string) (mode : Z)
      (w w' : World) (fsrc : file) :
  copyFile env source destination mode w = Done None w' ->
  source <> destination ->
  fs w !! source = Some (File fsrc) ->
  f_bad fsrc = None ->
  data w' = data w
  /\ fs w' !! source = Some (File fsrc)
  /\ exists fd, fs w' !! destination = Some (File fd)
               /\ f_data fd = f_data fsrc /\ f_bad fd = None.
Proof.
  unfold copyFile, Errorf_w. intros Hrun Hne Hs Hbad. revert Hrun. run_os.
  unfold os.open_of. rewrite Hs. cbn [fst snd fs data log].
  assert (Hread : forall x, os.read_of (<[destination := x]> (fs w)) source
                            = (f_data fsrc, None)).
  { intros x. unfold os.read_of. rewrite lookup_insert_ne by congruence.
    now rewrite Hs, Hbad. }
  destruct (mode =? 0); run_os; unfold os.stat_of; rewrite ?Hs;
    cbn [fst snd fs data log]; unfold os.create_of;
    (destruct (fs w !! destination) as [[fd | md |] |] eqn:Ed;
     cbn [fst snd fs data log]; try (intros [=]; fail));
    rewrite Hread; cbn beta iota; cbn [fs data log];
    match goal with
    | |- context [io.copy_plan ?q destination ?b ?r] =>
        pose proof (stream_ok_all env destination b r) as Hall;
        unfold stream_error in Hall;
        destruct (io.copy_plan q destination b r) as [written cerr]
    end;
    cbn [fst snd] in *; unfold os.append_of; rewrite lookup_insert_eq;
    (destruct cerr as [err |]; [intros [=] |]);
    cbn beta; cbn [fs data log];
    (destruct (close_fails env destination); [intros [=] |]);
    intros [= <-]; cbn [fs data log]; rewrite (Hall eq_refl);
    (split; [reflexivity |]);
    (split; [rewrite !lookup_insert_ne by congruence; exact Hs |]);
    eexists; (split; [apply lookup_insert_eq |]); now split.
Qed.

Lemma same_bytes_file (m m' : gmap string node) (path : string) (f : file) :
  same_bytes m m' -> m !! path = Some (File f) ->
  exists f', m' !! path = Some (File f').
Proof.
  intros H Hf. specialize (H path). rewrite Hf in H.
  destruct (m' !! path) as [[f' | md |] |]; cbn in H; try discriminate.
  now exists f'.
Qed.

Lemma same_bytes_stat (m m' : gmap string node) (path : string) :
  same_bytes m m' ->
  is_Val (os.stat_of m' path) = is_Val (os.stat_of m path).
Proof.
  intros H. specialize (H path). unfold os.stat_of.
  destruct (m !! path) as [[f | md |] |], (m' !! path) as [[f' | md' |] |];
    cbn in H; try discriminate; reflexivity.
Qed.

Lemma data_Get_set_ne (d : ResourceData) (key key' value : string) :
  key <> key' ->
  data_Get {| d_id := d_id d; d_attrs := <[key := value]> (d_attrs d);
              d_headers := d_headers d |} key' = data_Get d key'.
Proof.
  intros H. unfold data_Get. cbn [d_attrs]. now rewrite lookup_insert_ne.
Qed.

(** After [ensureCopyFile] succeeded the destination has the fingerprint of
    the source, the fields that name them are as they were, and the mode
    that [ensureFileMode] wants is known. *)
Lemma ensureCopyFile_post (env : Env) (w w' : World) (ds : diag.Diagnostics) :
  ensureCopyFile env w = Done ds w' ->
  diag.HasError ds = false ->
  data_Get (data w') "source" = data_Get (data w) "source"
  /\ data_Get (data w') "destination" = data_Get (data w) "destination"
  /\ d_id (data w') = d_id (data w)
  /\ (exists h,
        fingerprint env (fs w') (data_Get (data w) "source") = Val h
        /\ fingerprint env (fs w') (data_Get (data w) "destination") = Val h)
  /\ (exists f, fs w' !! data_Get (data w) "destination" = Some (File f))
  /\ mode_known w'.
Proof.
  unfold ensureCopyFile. run_step.
  rewrite hashFile_run.
  set (source := data_Get (data w) "source").
  set (dest := data_Get (data w) "destination").
  destruct (fingerprint env (fs w) source) as [h | err] eqn:Hs;
    [| intros [= <- <-]; discriminate].
  rewrite hashFile_run. unfold logged. cbn [fs data log].
  destruct (match fingerprint env (fs w) dest with
            | Val destHash => str_eqb destHash h
            | Err _ => false
            end) eqn:Em.
  - (* the fingerprints match *)
    destruct (fingerprint env (fs w) dest) as [dh |] eqn:Hd; [| discriminate Em].
    apply str_eqb_eq in Em. subst dh.
    destruct (fingerprint_file env _ _ _ Hd) as (fd & Hfd & _).
    match goal with
    | |- ensureFileMode env ?w0 = _ -> _ =>
        destruct (ensureFileMode_frame env w0)
          as (ds0 & evs & m' & Hrun & Hsb & _ & _ & Hknown)
    end.
    cbn [fs data log] in *. rewrite Hrun. intros [= <- <-] Herr.
    cbn [fs data log].
    repeat split; try reflexivity.
    + exists h. now rewrite !(fingerprint_same_bytes env _ _ _ Hsb).
    + fold dest. eapply same_bytes_file; eassumption.
    + specialize (Hknown Herr). unfold mode_known in *. cbn [fs data log] in *.
      destruct Hknown as [Hk | [Hv Hst]]; [now left | right].
      split; [exact Hv |]. now rewrite (same_bytes_stat _ _ _ Hsb).
  - (* the bytes are copied *)
    assert (Hne : source <> dest).
    { intros Heq. rewrite <- Heq, Hs, str_eqb_refl in Em. discriminate. }
    destruct (fingerprint_file env _ _ _ Hs) as (fsrc & Hfsrc & Hbad & Hh).
    unfold data_GetOk.
    set (v := data_Get (data w) "file_mode").
    assert (Hmode : exists mode,
               (if negb (str_eqb v "") then strconv.ParseUint v 8 32 else Val 0)
               = Val mode
               \/ exists e,
                   (if negb (str_eqb v "") then strconv.ParseUint v 8 32 else Val 0)
                   = Err e).
    { destruct (if negb (str_eqb v "") then strconv.ParseUint v 8 32 else Val 0)
        as [mode | e]; [exists mode; now left | exists 0; right; now exists e]. }
    destruct Hmode as (mode & [Hmode | [e Hmode]]); rewrite Hmode;
      [| intros [= <- <-]; discriminate].
    run_step.
    match goal with
    | |- context [copyFile env source dest mode ?w0] =>
        destruct (copyFile env source dest mode w0) as [[cerr |] w1 | w1] eqn:Hc;
        [intros [= <- <-]; discriminate | | intros [=]]
    end.
    apply copyFile_ok with (fsrc := fsrc) in Hc;
      [| exact Hne | exact Hfsrc | exact Hbad].
    cbn [fs data log] in Hc. destruct Hc as (Hdata & Hsrc' & fd & Hfd & Hbytes & Hfbad).
    intros [= <- <-] _. cbn [fs data log]. rewrite Hdata.
    rewrite !data_Get_set_ne by discriminate.
    repeat split; try reflexivity.
    + exists (sha256_hex env (f_data fsrc)). fold source dest. split.
      * now apply fingerprint_of_file.
      * rewrite <- Hbytes. now apply fingerprint_of_file.
    + fold dest. now exists fd.
    + unfold mode_known. cbn [fs data log].
      rewrite !data_Get_set_ne by discriminate. fold v source.
      destruct (str_eqb v "") eqn:Ev; cbn [negb] in Hmode.
      * right. apply str_eqb_eq in Ev. split; [exact Ev |].
        unfold os.stat_of. now rewrite Hsrc'.
      * left. apply str_eqb_neq in Ev. split; [exact Ev |]. now rewrite Hmode.
Qed.

(** * Idempotence of the local copy engine *)

Lemma resourceFileCreate_inv (env : Env) (w w1 : World) (ds1 : diag.Diagnostics) :
  resourceFileCreate env w = Done ds1 w1 ->
  diag.HasError ds1 = false ->
  exists w0 id,
    ensureCopyFile env w = Done ds1 w0
    /\ fileToID env (data_Get (data w0) "destination") = Val id
    /\ w1 = {| fs := fs w0;
               data := {| d_id := id; d_attrs := d_attrs (data w0);
                          d_headers := d_headers (data w0) |};
               log := log w0 |}.
Proof.
  unfold resourceFileCreate. run_step.
  destruct (ensureCopyFile env w) as [ds w0 | w0]; [| discriminate].
  destruct (diag.HasError ds) eqn:He.
  - intros [= <- <-] H. congruence.
  - destruct (fileToID env (data_Get (data w0) "destination")) as [id | err] eqn:Hid.
    + intros [= <- <-] _. exists w0, id. repeat split. exact Hid.
    + intros [= <- <-] H. discriminate H.
Qed.


Lemma C1_first_create :
  resourceFileCreate (test_env unreachable) C1_world = Done [] C1_synced
  /\ fs C1_synced !! "/etc/motd" = Some (new_file "welcome" 420)
  /\ data_Get (data C1_synced) "content_sha256" = "sha256:welcome".
Proof. repeat split; vm_compute; reflexivity. Qed.


(** * Further properties of the identity codec *)

Lemma idToFile_fileToID_rooted (env : Env) (p : string) :
  filepath.IsAbs p = true ->
  idToFile env ("file://" +:+ url.escape (filepath.Clean p) url.encodePath)
  = Val (filepath.Clean p).
Proof.
  intros H. rewrite idToFile_file_url by now apply Clean_IsAbs.
  now rewrite Clean_idempotent.
Qed.

(** X1: two rooted paths have the same identity just when they have the
    same cleaned form. *)
Theorem X1_same_identity (env : Env) (p q : string) :
  filepath.IsAbs p = true -> filepath.IsAbs q = true ->
  (fileToID env p = fileToID env q <-> filepath.Clean p = filepath.Clean q).
Proof.
  intros Hp Hq. rewrite !fileToID_rooted by assumption. split.
  - intros [= H].
    change (url.escape (filepath.Clean p) url.encodePath
            = url.escape (filepath.Clean q) url.encodePath) in H.
    pose proof (idToFile_fileToID_rooted env p Hp) as Hbp.
    pose proof (idToFile_fileToID_rooted env q Hq) as Hbq.
    rewrite H in Hbp. rewrite Hbp in Hbq. now injection Hbq.
  - now intros ->.
Qed.

Lemma X1_same_identity_witness :
  fileToID (test_env unreachable) "/srv//www/./index.html"
  = fileToID (test_env unreachable) "/srv/www/old/../index.html"
  <-> filepath.Clean "/srv//www/./index.html"
      = filepath.Clean "/srv/www/old/../index.html".
Proof.
  apply (X1_same_identity (test_env unreachable)); reflexivity.
Defined.

Lemma IsAbs_app (a b : string) :
  filepath.IsAbs a = true -> filepath.IsAbs (a +:+ b) = true.
Proof.
  intros H. destruct (IsAbs_cons a H) as [a' ->]. reflexivity.
Qed.

(** X2: a relative path has the identity of the path it names under the
    working directory, and that identity decodes to the cleaned form of
    that path. *)
Theorem X2_relative_identity (env : Env) (wd p : string) :
  Getwd env = Val wd -> filepath.IsAbs wd = true -> filepath.IsAbs p = false ->
  exists id,
    fileToID env p = Val id
    /\ fileToID env (wd +:+ "/" +:+ p) = Val id
    /\ idToFile env id = Val (filepath.Clean (wd +:+ "/" +:+ p)).
Proof.
  intros Hwd Habs Hrel.
  assert (Hfull : filepath.IsAbs (wd +:+ "/" +:+ p) = true) by now apply IsAbs_app.
  exists ("file://" +:+ url.escape (filepath.Clean (wd +:+ "/" +:+ p)) url.encodePath).
  split; [| split].
  - unfold fileToID, filepath.Abs, filepath.Join. rewrite Hrel, Hwd.
    destruct (IsAbs_cons wd Habs) as [wd' ->].
    change (negb (str_eqb (String "/" wd') "")) with true. cbv iota.
    unfold filepath.ToSlash.
    change {| url.Scheme := "file"; url.Opaque := ""; url.User := None;
              url.Host := "";
              url.Path := filepath.Clean (String "/" wd' +:+ "/" +:+ p);
              url.RawPath := ""; url.OmitHost := false; url.ForceQuery := false;
              url.RawQuery := ""; url.Fragment := ""; url.RawFragment := "" |}
      with (file_url (filepath.Clean (String "/" wd' +:+ "/" +:+ p))).
    now rewrite String_file_url by now apply Clean_IsAbs.
  - now apply fileToID_rooted.
  - now apply idToFile_fileToID_rooted.
Qed.

Lemma X2_relative_identity_witness :
  exists id,
    fileToID (test_env unreachable) "./testdata/dest-file" = Val id
    /\ fileToID (test_env unreachable) ("/work" +:+ "/" +:+ "./testdata/dest-file")
       = Val id
    /\ idToFile (test_env unreachable) id
       = Val (filepath.Clean ("/work" +:+ "/" +:+ "./testdata/dest-file")).
Proof.
  apply (X2_relative_identity (test_env unreachable) "/work" "./testdata/dest-file");
    reflexivity.
Defined.

(** * The file mode as a number *)

Lemma digit_octal (c : ascii) :
  octal_digit c = true ->
  strconv.digit c = Some (byte_val c - 48) /\ 0 <= byte_val c - 48 < 8.
Proof.
  each_byte c; vm_compute; intros H; first [discriminate H | idtac];
    (split; [reflexivity | split; intros; congruence]).
Qed.

Lemma digit_below_8 (c : ascii) (d : Z) :
  strconv.digit c = Some d -> d < 8 -> octal_digit c = true.
Proof.
  each_byte c; vm_compute; intros H; inversion H; intros Hd;
    first [reflexivity | discriminate Hd].
Qed.

Lemma octal_from_ge (s : string) (n : Z) :
  0 <= n -> str_forall octal_digit s = true -> n <= octal_from n s.
Proof.
  revert n. induction s as [|c s IH]; intros n Hn Hs; cbn [octal_from]; [lia |].
  cbn [str_forall] in Hs. apply andb_true_iff in Hs as [Hc Hs].
  destruct (digit_octal c Hc) as [_ Hd].
  specialize (IH (n * 8 + (byte_val c - 48)) ltac:(lia) Hs). lia.
Qed.

(** The loop of [ParseUint] in base 8 and 32 bits returns a number just
    when the text holds octal digits only and the number they write fits. *)
Lemma ParseUint_loop_octal (s : string) (n m : Z) :
  0 <= n <= 4294967295 ->
  strconv.ParseUint_loop 8 ((2 ^ 64 - 1) / 8 + 1) (2 ^ 32 - 1) s n = inl m
  <-> str_forall octal_digit s = true /\ octal_from n s = m /\ m <= 4294967295.
Proof.
  change ((2 ^ 64 - 1) / 8 + 1) with 2305843009213693952.
  change (2 ^ 32 - 1) with 4294967295.
  revert n. induction s as [|c s IH]; intros n Hn;
    cbn [strconv.ParseUint_loop str_forall octal_from].
  - split; [intros [= <-]; repeat split; lia | intros (_ & <- & _); reflexivity].
  - destruct (octal_digit c) eqn:Eo.
    + destruct (digit_octal c Eo) as [Ed Hd]. rewrite Ed.
      destruct (8 <=? byte_val c - 48) eqn:E8; [apply Z.leb_le in E8; lia |].
      destruct (2305843009213693952 <=? n) eqn:Ec; [apply Z.leb_le in Ec; lia |].
      unfold strconv.uint64. change (2 ^ 64) with 18446744073709551616.
      rewrite (Z.mod_small (n * 8)) by lia.
      rewrite (Z.mod_small (n * 8 + (byte_val c - 48))) by lia.
      destruct (n * 8 + (byte_val c - 48) <? n * 8) eqn:E1;
        [apply Z.ltb_lt in E1; lia |].
      destruct (4294967295 <? n * 8 + (byte_val c - 48)) eqn:E2; cbn [orb andb].
      * apply Z.ltb_lt in E2. split; [discriminate |].
        intros (Hs & Hv & Hm).
        pose proof (octal_from_ge s (n * 8 + (byte_val c - 48)) ltac:(lia) Hs).
        lia.
      * apply Z.ltb_ge in E2. apply IH. lia.
    + cbn [andb]. split; [| intros (H & _); discriminate H].
      destruct (strconv.digit c) as [d |] eqn:Ed; [| discriminate].
      destruct (8 <=? d) eqn:E8; [discriminate |].
      apply Z.leb_gt in E8. rewrite (digit_below_8 c d Ed E8) in Eo. discriminate Eo.
Qed.

Lemma ParseUint_octal (v : string) (m : Z) :
  v <> "" ->
  (strconv.ParseUint v 8 32 = Val m
   <-> str_forall octal_digit v = true /\ octal_value v = m /\ m <= 4294967295).
Proof.
  intros Hv. unfold strconv.ParseUint, octal_value.
  destruct v as [|c v]; [contradiction |].
  pose proof (ParseUint_loop_octal (String c v) 0) as H.
  destruct (strconv.ParseUint_loop 8 ((2 ^ 64 - 1) / 8 + 1) (2 ^ 32 - 1)
                                   (String c v) 0) as [n | k].
  - rewrite <- H by lia. split; [intros [= ->]; reflexivity | intros [= ->]; reflexivity].
  - rewrite <- H by lia. split; discriminate.
Qed.

(** X3: the mode of a fetch is 0664 without a file mode; with one, it is
    the number that the text writes in base 8 when the text holds octal
    digits only and the number fits 32 bits, and the error of the file
    mode otherwise. *)
Theorem X3_file_mode_octal (env : Env) (d : ResourceData) :
  getFileMode env d =
  if str_eqb (data_Get d "file_mode") "" then Val 436
  else if str_forall octal_digit (data_Get d "file_mode")
          && (octal_value (data_Get d "file_mode") <=? 4294967295)
       then Val (octal_value (data_Get d "file_mode"))
       else Err (errorString "file_mode is not a valid octal number").
Proof.
  unfold getFileMode, data_GetOk.
  destruct (str_eqb (data_Get d "file_mode") "") eqn:E; cbn [negb]; [reflexivity |].
  apply str_eqb_neq in E.
  destruct (strconv.ParseUint (data_Get d "file_mode") 8 32) as [m | e] eqn:Ep.
  - apply (ParseUint_octal _ m E) in Ep as (Hs & Hv & Hm).
    rewrite Hs, Hv. apply Z.leb_le in Hm. now rewrite Hm.
  - destruct (str_forall octal_digit (data_Get d "file_mode")
              && (octal_value (data_Get d "file_mode") <=? 4294967295)) eqn:Ec;
      [| reflexivity].
    apply andb_true_iff in Ec as [Hs Hm]. apply Z.leb_le in Hm.
    assert (Hok : strconv.ParseUint (data_Get d "file_mode") 8 32
                  = Val (octal_value (data_Get d "file_mode")))
      by (apply (ParseUint_octal _ _ E); now repeat split).
    congruence.
Qed.

(** * What a run leaves alone *)

Lemma same_files_but_refl (path : string) (m : gmap string node) :
  same_files_but path m m.
Proof. now intros p _. Qed.

Lemma same_files_but_insert (path : string) (m : gmap string node) (n : node) :
  same_files_but path m (<[path := n]> m).
Proof. intros p Hp. now rewrite lookup_insert_ne. Qed.

Lemma same_files_but_delete (path : string) (m : gmap string node) :
  same_files_but path m (delete path m).
Proof. intros p Hp. now rewrite lookup_delete_ne. Qed.

Lemma chmod_of_frame (m : gmap string node) (path : string) (mode : Z) :
  same_files_but path m (os.chmod_of m path mode).2.
Proof.
  unfold os.chmod_of.
  destruct (m !! path) as [[f | md |] |]; cbn [snd];
    first [apply same_files_but_insert | apply same_files_but_refl].
Qed.

Ltac solve_frame :=
  let p := fresh "p" in
  let Hp := fresh "Hp" in
  intros p Hp;
  repeat first [ rewrite lookup_delete_ne by congruence
               | rewrite lookup_insert_ne by congruence ];
  reflexivity.

Ltac solve_no_request := unfold no_request; repeat constructor.

Lemma writeResponseBody_frame (env : Env) (body : http.Body)
      (filename : string) (mode : Z) (w : World) :
  exists r evs m',
    writeResponseBody env body filename mode w =
    Done r {| fs := m'; data := data w; log := log w ++ evs |}
    /\ same_files_but filename (fs w) m'
    /\ no_request evs.
Proof.
  unfold writeResponseBody. run_os.
  set (mode' := if mode =? 0 then 420 else mode).
  unfold os.create_of.
  destruct (fs w !! filename) as [[f | md |] |] eqn:E; cbn [fst snd fs data log];
    try (do 3 eexists; split; [reflexivity |];
         split; [apply same_files_but_refl | solve_no_request]; fail);
    destruct (io.copy_plan (write_quota env filename) filename
                (http.body_bytes body) (http.body_err body)) as [written cerr];
    cbn [fst snd]; unfold os.append_of; rewrite lookup_insert_eq;
    (destruct cerr as [err |]; cbn beta; cbn [fs data log];
     [unfold os.remove_of; rewrite lookup_insert_eq; cbn [fst snd] |]);
    do 3 eexists; (split; [rewrite <- !app_assoc; reflexivity |]);
    (split; [solve_frame | solve_no_request]).
Qed.

Lemma ensureDownloadFile_frame_run (env : Env) (mode : Z) (w : World) :
  let w' := final (ensureDownloadFile env mode w) in
  same_files_but (data_Get (data w) "filename") (fs w) (fs w')
  /\ same_fields_but ["etag"; "last_modified"; "content_sha256"] (data w) (data w')
  /\ (log w' = log w
      \/ exists req evs, log w' = log w ++ EvHTTP req :: evs /\ no_request evs).
Proof.
  cbn zeta. unfold ensureDownloadFile. run_step.
  destruct (makeRequest http.MethodGet (data w)) as [req | err]; cbn [final].
  2:{ split; [apply same_files_but_refl |]. split; [| now left].
      repeat split. }
  cbn [fs data log].
  set (dest := data_Get (data w) "filename").
  destruct (match client_Do env req with
            | http.DoResponse resp => Some resp
            | http.DoError _ resp => resp
            end) as [resp |]; cbn [final fs data log].
  2:{ split; [apply same_files_but_refl |]. split; [repeat split |].
      right. exists req, []. split; [reflexivity | constructor]. }
  destruct (http.StatusCode resp =? http.StatusNotModified); cbn [final fs data log].
  { split; [apply same_files_but_refl |]. split; [repeat split |].
    right. exists req, []. split; [reflexivity | constructor]. }
  destruct (http.StatusCode resp =? http.StatusOK).
  2:{ destruct (http.StatusCode resp =? http.StatusUnauthorized);
        [| destruct (http.StatusCode resp =? http.StatusForbidden)];
        cbn [final fs data log];
        (split; [apply same_files_but_refl |]); (split; [repeat split |]);
        right; exists req, []; (split; [reflexivity | constructor]). }
  match goal with
  | |- context [writeResponseBody env ?b dest mode ?w0] =>
      destruct (writeResponseBody_frame env b dest mode w0)
        as (r & evs & m' & Hrun & Hfr & Hnr)
  end.
  cbn [fs data log] in *. rewrite Hrun.
  destruct r as [err |]; cbn [final fs data log d_id d_attrs d_headers];
    (split; [exact Hfr |]);
    (split;
     [repeat split; cbn [d_id d_attrs d_headers]; intros k Hk;
      rewrite !not_elem_of_cons in Hk; destruct Hk as (H1 & H2 & H3 & _);
      now rewrite !lookup_insert_ne by congruence |]);
    right; exists req, evs; (split; [now rewrite <- app_assoc | exact Hnr]).
Qed.

(** X4: a fetch leaves every file but the destination as it was, and every
    field but the validators and the fingerprint; it asks the server at
    most once, and first of all. *)
Theorem X4_fetch_frame (env : Env) (mode : Z) (w : World) :
  let w' := final (ensureDownloadFile env mode w) in
  same_files_but (data_Get (data w) "filename") (fs w) (fs w')
  /\ same_fields_but ["etag"; "last_modified"; "content_sha256"] (data w) (data w')
  /\ (log w' = log w
      \/ exists req evs, log w' = log w ++ EvHTTP req :: evs /\ no_request evs).
Proof. apply ensureDownloadFile_frame_run. Qed.

(** * Further answers of the server *)

Lemma Sprintf_unexpected (Quote : string -> string) (status : string) :
  fmt.Sprintf Quote msg_unexpected [status] =
  "the server returned an unexpected response code: " +:+ status.
Proof.
  unfold msg_unexpected. cbn. now rewrite app_empty_r.
Qed.

(** X5: an answer whose status is none of 200, 304, 401 and 403 is an
    error that names the status; the detail is the body when the content
    type is textual; no file and no field changes. *)
Theorem X5_unexpected_status (env : Env) (mode : Z) (w : World)
        (req : http.Request) (resp : http.Response) :
  makeRequest http.MethodGet (data w) = Val req ->
  response_of (client_Do env req) = Some resp ->
  http.StatusCode resp <> http.StatusOK ->
  http.StatusCode resp <> http.StatusNotModified ->
  http.StatusCode resp <> http.StatusUnauthorized ->
  http.StatusCode resp <> http.StatusForbidden ->
  exists warnings detail,
    ensureDownloadFile env mode w =
    Done (warnings ++
          [ {| diag.Sev := diag.Error;
               diag.Summary :=
                 "the server returned an unexpected response code: "
                 +:+ http.Status resp;
               diag.Detail := detail |} ])
         (logged w [EvHTTP req])
    /\ Forall (fun d => diag.Sev d = diag.Warning) warnings
    /\ (detail <> "" ->
        isTextual env (http.Header_Get (http.RespHeader resp) "Content-Type")
        = true
        /\ detail = http.body_bytes (http.RespBody resp)).
Proof.
  intros Hreq Hdo H200 H304 H401 H403.
  destruct (diagResponseError_primary env resp msg_unexpected [http.Status resp])
    as (warnings & detail & Hd & Hwarn & Hdetail).
  exists warnings, detail. rewrite Sprintf_unexpected in Hd. rewrite <- Hd.
  split; [| split; [exact Hwarn |]].
  - unfold ensureDownloadFile, logged. run_step.
    rewrite Hreq. cbn [fs data log]. unfold response_of in Hdo. rewrite Hdo.
    apply Z.eqb_neq in H200, H304, H401, H403.
    now rewrite H200, H304, H401, H403.
  - intros Hne. destruct (Hdetail Hne) as (Ht & _ & Hb). now split.
Qed.

Lemma X5_unexpected_status_witness :
  exists warnings detail,
    ensureDownloadFile (test_env (answers not_found_response)) 436 fetched_world =
    Done (warnings ++
          [ {| diag.Sev := diag.Error;
               diag.Summary :=
                 "the server returned an unexpected response code: "
                 +:+ "404 Not Found";
               diag.Detail := detail |} ])
         (logged fetched_world [EvHTTP fetched_request])
    /\ Forall (fun d => diag.Sev d = diag.Warning) warnings
    /\ (detail <> "" ->
        isTextual (test_env (answers not_found_response)) "text/html" = true
        /\ detail = "<h1>no such page</h1>").
Proof.
  apply (X5_unexpected_status
           (test_env (answers not_found_response)) 436 fetched_world
           fetched_request not_found_response fetched_request_made eq_refl);
    discriminate.
Defined.



(** * What the local copy engine leaves alone *)

Lemma copyFile_frame (env : Env) (source destination : string) (mode : Z)
      (w : World) :
  exists r evs m',
    copyFile env source destination mode w =
    Done r {| fs := m'; data := data w; log := log w ++ evs |}
    /\ same_files_but destination (fs w) m'
    /\ no_request evs.
Proof.
  unfold copyFile. run_os.
  unfold os.open_of.
  destruct (fs w !! source) as [nsrc |] eqn:Es; cbn [fst snd fs data log].
  2:{ do 3 eexists. split; [reflexivity |].
      split; [apply same_files_but_refl | solve_no_request]. }
  destruct nsrc as [fsrc | msrc |]; cbn [fst snd fs data log];
    try (do 3 eexists; split; [reflexivity |];
         split; [apply same_files_but_refl | solve_no_request]; fail);
    (destruct (mode =? 0); run_os; unfold os.stat_of; rewrite ?Es;
     cbn [fst snd fs data log]);
    unfold os.create_of;
    (destruct (fs w !! destination) as [[fd | md |] |] eqn:Ed;
     cbn [fst snd fs data log];
     try (do 3 eexists; split; [rewrite <- !app_assoc; reflexivity |];
          split; [apply same_files_but_refl | solve_no_request]; fail));
    rewrite (surjective_pairing (os.read_of _ source));
    cbn beta iota; cbn [fs data log];
    match goal with
    | |- context [io.copy_plan ?q destination ?b ?r] =>
        destruct (io.copy_plan q destination b r) as [written cerr]
    end;
    cbn [fst snd]; unfold os.append_of; rewrite lookup_insert_eq;
    (destruct cerr as [err |]; cbn beta; cbn [fs data log];
     [unfold os.remove_of; rewrite lookup_insert_eq; cbn [fst snd] |]);
    do 3 eexists; (split; [rewrite <- !app_assoc; reflexivity |]);
    (split; [solve_frame | solve_no_request]).
Qed.

Lemma ensureFileMode_files (env : Env) (w : World) :
  exists ds evs m',
    ensureFileMode env w =
    Done ds {| fs := m'; data := data w; log := log w ++ evs |}
    /\ same_files_but (data_Get (data w) "destination") (fs w) m'
    /\ no_request evs.
Proof.
  unfold ensureFileMode, data_GetOk. run_os.
  set (dest := data_Get (data w) "destination").
  set (source := data_Get (data w) "source").
  set (v := data_Get (data w) "file_mode").
  destruct (os.stat_of (fs w) dest) as [destMode | err]; cbn [fs data log].
  2:{ do 3 eexists. split; [reflexivity |].
      split; [apply same_files_but_refl | solve_no_request]. }
  destruct (negb (str_eqb v "")).
  - destruct (strconv.ParseUint v 8 32) as [m | perr]; run_os.
    2:{ do 3 eexists. split; [reflexivity |].
        split; [apply same_files_but_refl | solve_no_request]. }
    destruct (m =? destMode); cbn [fs data log].
    + do 3 eexists. split; [reflexivity |].
      split; [apply same_files_but_refl | solve_no_request].
    + pose proof (chmod_of_frame (fs w) dest m) as Hf.
      destruct (os.chmod_of (fs w) dest m) as [[err |] m']; cbn [fst snd] in *;
        do 3 eexists; (split; [rewrite <- ?app_assoc; reflexivity |]);
        (split; [exact Hf | solve_no_request]).
  - run_os.
    destruct (os.stat_of (fs w) source) as [srcMode | err]; cbn [fs data log].
    2:{ do 3 eexists. split; [rewrite <- ?app_assoc; reflexivity |].
        split; [apply same_files_but_refl | solve_no_request]. }
    destruct (srcMode =? destMode); cbn [fs data log].
    + do 3 eexists. split; [rewrite <- ?app_assoc; reflexivity |].
      split; [apply same_files_but_refl | solve_no_request].
    + pose proof (chmod_of_frame (fs w) dest srcMode) as Hf.
      destruct (os.chmod_of (fs w) dest srcMode) as [[err |] m']; cbn [fst snd] in *;
        do 3 eexists; (split; [rewrite <- ?app_assoc; reflexivity |]);
        (split; [exact Hf | solve_no_request]).
Qed.

Lemma hash_events_no_request (m : gmap string node) (path : string) :
  no_request (hash_events m path).
Proof.
  unfold hash_events, no_request. destruct (os.open_of m path); repeat constructor.
Qed.

Lemma ensureCopyFile_frame_run (env : Env) (w : World) :
  exists ds w' evs,
    ensureCopyFile env w = Done ds w'
    /\ same_files_but (data_Get (data w) "destination") (fs w) (fs w')
    /\ same_fields_but ["content_sha256"] (data w) (data w')
    /\ log w' = log w ++ evs
    /\ no_request evs.
Proof.
  unfold ensureCopyFile. run_step.
  rewrite hashFile_run.
  set (source := data_Get (data w) "source").
  set (dest := data_Get (data w) "destination").
  destruct (fingerprint env (fs w) source) as [h | err].
  2:{ do 3 eexists. split; [reflexivity |]. cbn [logged fs data log].
      split; [apply same_files_but_refl |]. split; [repeat split |].
      split; [reflexivity | apply hash_events_no_request]. }
  rewrite hashFile_run. unfold logged. cbn [fs data log].
  destruct (match fingerprint env (fs w) dest with
            | Val destHash => str_eqb destHash h
            | Err _ => false
            end).
  - match goal with
    | |- context [ensureFileMode env ?w0] =>
        destruct (ensureFileMode_files env w0) as (ds & evs & m' & Hrun & Hf & Hn)
    end.
    cbn [fs data log] in *. fold dest in Hf. rewrite Hrun.
    do 3 eexists. split; [reflexivity |]. cbn [fs data log].
    split; [exact Hf |]. split; [repeat split |].
    split; [rewrite <- !app_assoc; reflexivity |].
    unfold no_request. rewrite !Forall_app.
    repeat split; try apply hash_events_no_request. exact Hn.
  - unfold data_GetOk.
    destruct (if negb (str_eqb (data_Get (data w) "file_mode") "")
              then strconv.ParseUint (data_Get (data w) "file_mode") 8 32
              else Val 0) as [mode | perr].
    2:{ do 3 eexists. split; [reflexivity |]. cbn [fs data log].
        split; [apply same_files_but_refl |]. split; [repeat split |].
        split; [rewrite <- !app_assoc; reflexivity |].
        unfold no_request. rewrite !Forall_app.
        repeat split; apply hash_events_no_request. }
    run_step.
    match goal with
    | |- context [copyFile env source dest mode ?w0] =>
        destruct (copyFile_frame env source dest mode w0)
          as (r & evs & m' & Hrun & Hf & Hn)
    end.
    cbn [fs data log] in *. rewrite Hrun.
    destruct r as [err |]; do 3 eexists; (split; [reflexivity |]);
      cbn [fs data log d_id d_attrs d_headers];
      (split; [exact Hf |]);
      (split;
       [repeat split; cbn [d_id d_attrs d_headers]; intros k Hk;
        rewrite !not_elem_of_cons in Hk; destruct Hk as (H1 & _);
        now rewrite ?lookup_insert_ne by congruence |]);
      (split; [rewrite <- !app_assoc; reflexivity |]);
      unfold no_request; rewrite !Forall_app;
      repeat split; try apply hash_events_no_request; exact Hn.
Qed.

(** X7: the local copy engine never panics; it leaves every file but the
    destination as it was, and every field but the fingerprint; it asks no
    server. *)
Theorem X7_copy_frame (env : Env) (w : World) :
  exists ds w' evs,
    ensureCopyFile env w = Done ds w'
    /\ same_files_but (data_Get (data w) "destination") (fs w) (fs w')
    /\ same_fields_but ["content_sha256"] (data w) (data w')
    /\ log w' = log w ++ evs
    /\ no_request evs.
Proof. apply ensureCopyFile_frame_run. Qed.

(** * The identity a Create sets *)

Lemma same_fields_but_Get (keys : list string) (d d' : ResourceData)
      (k : string) :
  same_fields_but keys d d' -> k ∉ keys -> data_Get d' k = data_Get d k.
Proof.
  intros (_ & _ & H) Hk. unfold data_Get. now rewrite (H k Hk).
Qed.

Lemma resourceURLCreate_identity (env : Env) (w : World)
      (ds : diag.Diagnostics) (w' : World) :
  resourceURLCreate env w = Done ds w' ->
  (diag.HasError ds = true -> d_id (data w') = d_id (data w))
  /\ (diag.HasError ds = false ->
      fileToID env (data_Get (data w) "filename") = Val (d_id (data w'))).
Proof.
  unfold resourceURLCreate. run_step.
  destruct (getFileMode env (data w)) as [mode | err].
  2:{ intros [= <- <-]. split; [reflexivity | discriminate]. }
  pose proof (ensureDownloadFile_frame_run env mode w) as Hfr. cbn zeta in Hfr.
  destruct (ensureDownloadFile env mode w) as [ds0 w0 | w0]; [| discriminate].
  cbn [final] in Hfr. destruct Hfr as (_ & Hfields & _).
  assert (Hname : data_Get (data w0) "filename" = data_Get (data w) "filename").
  { apply (same_fields_but_Get _ _ _ _ Hfields).
    rewrite !not_elem_of_cons. repeat split; try discriminate.
    apply not_elem_of_nil. }
  destruct Hfields as (Hid & _).
  destruct (diag.HasError ds0) eqn:He.
  + intros [= <- <-]. split; [intros _; exact Hid | congruence].
  + rewrite Hname.
    destruct (fileToID env (data_Get (data w) "filename")) as [id | err].
    * intros [= <- <-]. cbn [fs data log d_id]. split; [congruence | reflexivity].
    * intros [= <- <-]. split; [intros _; exact Hid | discriminate].
Qed.

Lemma resourceFileCreate_identity (env : Env) (w : World) :
  exists ds w',
    resourceFileCreate env w = Done ds w'
    /\ (diag.HasError ds = true -> d_id (data w') = d_id (data w))
    /\ (diag.HasError ds = false ->
        fileToID env (data_Get (data w) "destination") = Val (d_id (data w'))).
Proof.
  destruct (ensureCopyFile_frame_run env w)
    as (ds0 & w0 & evs & Hrun & _ & Hfields & _).
  assert (Hname : data_Get (data w0) "destination"
                  = data_Get (data w) "destination").
  { apply (same_fields_but_Get _ _ _ _ Hfields).
    rewrite !not_elem_of_cons. repeat split; try discriminate.
    apply not_elem_of_nil. }
  destruct Hfields as (Hid & _).
  unfold resourceFileCreate. run_step. rewrite Hrun.
  destruct (diag.HasError ds0) eqn:He.
  + do 2 eexists. split; [reflexivity |].
    split; [intros _; exact Hid | congruence].
  + rewrite Hname.
    destruct (fileToID env (data_Get (data w) "destination")) as [id | err].
    * do 2 eexists. split; [reflexivity |]. cbn [fs data log d_id].
      split; [congruence | reflexivity].
    * do 2 eexists. split; [reflexivity |].
      split; [intros _; exact Hid | discriminate].
Qed.

(** X8: a Create sets the identity just when it succeeds, and then to the
    identity of the destination; a Create that returns an error leaves the
    identity as it was.  This holds for the URL resource whenever its
    Create returns, and for the file resource, whose Create always
    returns. *)
Theorem X8_create_sets_identity (env : Env) (w : World) :
  (forall ds w',
      resourceURLCreate env w = Done ds w' ->
      (diag.HasError ds = true -> d_id (data w') = d_id (data w))
      /\ (diag.HasError ds = false ->
          fileToID env (data_Get (data w) "filename") = Val (d_id (data w'))))
  /\ (exists ds w',
         resourceFileCreate env w = Done ds w'
         /\ (diag.HasError ds = true -> d_id (data w') = d_id (data w))
         /\ (diag.HasError ds = false ->
             fileToID env (data_Get (data w) "destination")
             = Val (d_id (data w')))).
Proof.
  split.
  - intros ds w'. apply resourceURLCreate_identity.
  - apply resourceFileCreate_identity.
Qed.

Lemma X8_create_sets_identity_witness :
  fileToID (test_env (answers C10_response)) "/srv/a.txt"
  = Val (d_id (data (final (resourceURLCreate (test_env (answers C10_response))
                                              first_fetch_world))))
  /\ d_id (data (final (resourceURLCreate (test_env (answers not_found_response))
                                          fetched_world)))
     = d_id (data fetched_world)
  /\ (exists ds w',
         resourceFileCreate (test_env unreachable) C1_world = Done ds w'
         /\ (diag.HasError ds = true -> d_id (data w') = d_id (data C1_world))
         /\ (diag.HasError ds = false ->
             fileToID (test_env unreachable) "/etc/motd" = Val (d_id (data w')))).
Proof.
  split; [| split].
  - refine (proj2 (proj1 (X8_create_sets_identity (test_env (answers C10_response))
                                               first_fetch_world) [] _ _) eq_refl).
    vm_compute. reflexivity.
  - refine (proj1 (proj1 (X8_create_sets_identity
                            (test_env (answers not_found_response))
                            fetched_world)
                         (diagResponseError (test_env (answers not_found_response))
                            not_found_response msg_unexpected ["404 Not Found"])
                         _ _) eq_refl).
    vm_compute. reflexivity.
  - exact (proj2 (X8_create_sets_identity (test_env unreachable) C1_world)).
Defined.

(** * Read of a URL resource whose file is gone *)

(** X9: Read of a URL resource sends no request unless the backing file
    exists and the file mode is valid.  When nothing is at the path of the
    identity the identity is cleared and nothing else changes; when the
    path may not be touched the error of the stat is returned; when the
    file mode is not valid its error is returned.  In each case the only
    call is the stat. *)
Theorem X9_read_without_request (env : Env) (w : World) (file : string) :
  idToFile env (d_id (data w)) = Val file ->
  (fs w !! file = None ->
   resourceURLRead env w =
   Done [] {| fs := fs w;
              data := {| d_id := ""; d_attrs := d_attrs (data w);
                         d_headers := d_headers (data w) |};
              log := log w ++ [EvStat file] |})
  /\ (fs w !! file = Some Denied ->
      resourceURLRead env w =
      Done (FromErr env (PathError "stat" file EACCES)) (logged w [EvStat file]))
  /\ (forall e,
         is_Val (os.stat_of (fs w) file) = true ->
         getFileMode env (data w) = Err e ->
         resourceURLRead env w = Done (FromErr env e) (logged w [EvStat file])).
Proof.
  intros Hid. unfold resourceURLRead, logged. run_os. rewrite Hid.
  unfold os.stat_of. repeat split.
  - intros ->. reflexivity.
  - intros ->. reflexivity.
  - intros e Hst Hm.
    destruct (fs w !! file) as [[f | md |] |]; try discriminate Hst;
      cbn [fs data log]; now rewrite Hm.
Qed.

Lemma X9_read_without_request_witness :
  resourceURLRead (test_env unreachable) C9_world =
  Done [] {| fs := fs C9_world;
             data := {| d_id := ""; d_attrs := d_attrs (data C9_world);
                        d_headers := d_headers (data C9_world) |};
             log := log C9_world ++ [EvStat "/srv/gone.conf"] |}
  /\ resourceURLRead (test_env unreachable) read_denied_world =
     Done (FromErr (test_env unreachable) (PathError "stat" "/srv/gone.conf" EACCES))
          (logged read_denied_world [EvStat "/srv/gone.conf"])
  /\ resourceURLRead (test_env unreachable) read_bad_mode_world =
     Done (FromErr (test_env unreachable)
                   (errorString "file_mode is not a valid octal number"))
          (logged read_bad_mode_world [EvStat "/srv/www/index.html"]).
Proof.
  split; [| split].
  - apply (proj1 (X9_read_without_request (test_env unreachable)
                    C9_world "/srv/gone.conf" eq_refl)).
    reflexivity.
  - apply (proj1 (proj2 (X9_read_without_request (test_env unreachable)
                           read_denied_world "/srv/gone.conf" eq_refl))).
    reflexivity.
  - apply (proj2 (proj2 (X9_read_without_request (test_env unreachable)
                           read_bad_mode_world "/srv/www/index.html" eq_refl)));
      reflexivity.
Defined.

(** * The contract of the fingerprint *)

Lemma fingerprint_value (env : Env) (m : gmap string node) (path h : string) :
  fingerprint env m path = Val h
  <-> exists f, m !! path = Some (File f) /\ f_bad f = None
                /\ h = sha256_hex env (f_data f).
Proof.
  split; [apply fingerprint_file |].
  intros (f & Hf & Hb & ->). now apply fingerprint_of_file.
Qed.

Lemma fingerprint_not_exist (env : Env) (m : gmap string node) (path : string)
      (e : error) :
  fingerprint env m path = Err e ->
  (IsNotExist e = true <-> m !! path = None).
Proof.
  unfold fingerprint, os.open_of, os.read_of.
  destruct (m !! path) as [[f | md |] |] eqn:E; rewrite ?E.
  - destruct (f_bad f); cbn [fst snd]; [| discriminate].
    intros [= <-]. split; discriminate.
  - cbn [fst snd]. intros [= <-]. split; discriminate.
  - intros [= <-]. split; discriminate.
  - intros [= <-]. split; reflexivity.
Qed.

(** X10: [hashFile] always returns, changes neither a file nor a field, and
    only opens, reads and closes the file.  It returns a fingerprint just
    when the path names a regular file that reads to its end, and then the
    digest of its bytes; and its error is one that [os.IsNotExist] accepts
    just when nothing is at the path. *)
Theorem X10_hashFile_contract (env : Env) (path : string) (w : World) :
  exists r evs,
    hashFile env path w = Done r (logged w evs)
    /\ read_only evs
    /\ (forall h,
           r = Val h
           <-> exists f, fs w !! path = Some (File f) /\ f_bad f = None
                         /\ h = sha256_hex env (f_data f))
    /\ (forall e, r = Err e -> (IsNotExist e = true <-> fs w !! path = None)).
Proof.
  exists (fingerprint env (fs w) path), (hash_events (fs w) path).
  split; [apply hashFile_run |]. split; [apply hash_events_read_only |].
  split; [intros h; apply fingerprint_value | intros e; apply fingerprint_not_exist].
Qed.

(** * Read of a file resource *)

Lemma resourceFileRead_run (env : Env) (w : World) (file : string) :
  idToFile env (d_id (data w)) = Val file ->
  resourceFileRead env w =
  match fingerprint env (fs w) file with
  | Val h =>
      Done [] {| fs := fs w;
                 data := {| d_id := d_id (data w);
                            d_attrs := <["content_sha256" := h]> (d_attrs (data w));
                            d_headers := d_headers (data w) |};
                 log := log w ++ hash_events (fs w) file |}
  | Err err =>
      if IsNotExist err
      then Done [] {| fs := fs w;
                      data := {| d_id := ""; d_attrs := d_attrs (data w);
                                 d_headers := d_headers (data w) |};
                      log := log w ++ hash_events (fs w) file |}
      else Done (FromErr env err) (logged w (hash_events (fs w) file))
  end.
Proof.
  intros Hid. unfold resourceFileRead. run_step. rewrite Hid, hashFile_run.
  destruct (fingerprint env (fs w) file) as [h | err]; [reflexivity |].
  destruct (IsNotExist err); reflexivity.
Qed.

(** X11: Read of a file resource whose identity decodes to [file] changes
    no file and only opens, reads and closes [file].  When nothing is at
    [file] it clears the identity and succeeds; when [file] is a regular
    file that reads to its end it stores the digest of its bytes as the
    fingerprint and succeeds; in every other case it returns the error of
    the hashing and leaves the fields as they were. *)
Theorem X11_file_read_contract (env : Env) (w : World) (file : string) :
  idToFile env (d_id (data w)) = Val file ->
  exists ds w',
    resourceFileRead env w = Done ds w'
    /\ fs w' = fs w
    /\ log w' = log w ++ hash_events (fs w) file
    /\ read_only (hash_events (fs w) file)
    /\ (fs w !! file = None ->
        ds = [] /\ d_id (data w') = "" /\ d_attrs (data w') = d_attrs (data w))
    /\ (forall f,
           fs w !! file = Some (File f) -> f_bad f = None ->
           ds = [] /\ d_id (data w') = d_id (data w)
           /\ d_attrs (data w')
              = <["content_sha256" := sha256_hex env (f_data f)]> (d_attrs (data w)))
    /\ (forall e,
           fingerprint env (fs w) file = Err e -> fs w !! file <> None ->
           ds = FromErr env e /\ data w' = data w).
Proof.
  intros Hid. rewrite (resourceFileRead_run env w file Hid).
  destruct (fingerprint env (fs w) file) as [h | err] eqn:Ef.
  - do 2 eexists. split; [reflexivity |]. cbn [fs data log d_id d_attrs].
    split; [reflexivity |]. split; [reflexivity |].
    split; [apply hash_events_read_only |].
    apply fingerprint_file in Ef as (f0 & Hf0 & Hb0 & ->).
    split; [intros H; congruence |]. split; [| discriminate].
    intros f Hf _. rewrite Hf0 in Hf. injection Hf as <-. now repeat split.
  - pose proof (fingerprint_not_exist env (fs w) file err Ef) as Hne.
    destruct (IsNotExist err) eqn:Ei.
    + do 2 eexists. split; [reflexivity |]. cbn [fs data log d_id d_attrs].
      split; [reflexivity |]. split; [reflexivity |].
      split; [apply hash_events_read_only |].
      assert (Hnone : fs w !! file = None) by now apply Hne.
      split; [now intros _ |]. split.
      * intros f Hf. congruence.
      * intros e _ H. contradiction.
    + do 2 eexists. split; [reflexivity |]. cbn [logged fs data log].
      split; [reflexivity |]. split; [reflexivity |].
      split; [apply hash_events_read_only |].
      split; [intros H; apply Hne in H; discriminate H |]. split.
      * intros f Hf Hb.
        rewrite (fingerprint_of_file env _ _ f Hf Hb) in Ef. discriminate Ef.
      * intros e [= <-] _. now split.
Qed.

Lemma X11_file_read_contract_witness :
  exists ds w',
    resourceFileRead (test_env unreachable) read_file_world = Done ds w'
    /\ fs w' = fs read_file_world
    /\ ds = []
    /\ d_id (data w') = "file:///etc/motd"
    /\ d_attrs (data w')
       = <["content_sha256" := "sha256:changed by hand"]>
           (d_attrs (data read_file_world)).
Proof.
  destruct (X11_file_read_contract (test_env unreachable) read_file_world
              "/etc/motd" eq_refl)
    as (ds & w' & Hrun & Hfs & _ & _ & _ & Hfile & _).
  exists ds, w'. split; [exact Hrun |]. split; [exact Hfs |].
  exact (Hfile {| f_data := "changed by hand"; f_mode := 420; f_bad := None |}
               eq_refl eq_refl).
Defined.

(** * How the operations of the file resource compose *)

Lemma idToFile_of_fileToID (env : Env) (p id : string) :
  filepath.IsAbs p = true -> filepath.Clean p = p ->
  fileToID env p = Val id -> idToFile env id = Val p.
Proof.
  intros Habs Hclean. rewrite fileToID_rooted by exact Habs. intros [= <-].
  rewrite <- Hclean at 2. now apply idToFile_fileToID_rooted.
Qed.

(** X12: an Update that succeeds, on a resource whose identity names its
    destination, leaves the source and the destination with one
    fingerprint and stores that fingerprint; the identity stays. *)
Theorem X12_update_fingerprint (env : Env) (w w' : World)
        (ds : diag.Diagnostics) :
  idToFile env (d_id (data w)) = Val (data_Get (data w) "destination") ->
  resourceFileUpdate env w = Done ds w' ->
  diag.HasError ds = false ->
  exists h,
    fingerprint env (fs w') (data_Get (data w) "source") = Val h
    /\ fingerprint env (fs w') (data_Get (data w) "destination") = Val h
    /\ data_Get (data w') "content_sha256" = h
    /\ d_id (data w') = d_id (data w)
    /\ ds = [].
Proof.
  intros Hid. unfold resourceFileUpdate. run_step.
  destruct (ensureCopyFile env w) as [ds0 w0 | w0] eqn:Hcopy; [| discriminate].
  destruct (diag.HasError ds0) eqn:He; [intros [= <- <-]; congruence |].
  destruct (ensureCopyFile_post env w w0 ds0 Hcopy He)
    as (_ & _ & Hid0 & (h & Hhs & Hhd) & _ & _).
  rewrite <- Hid0 in Hid.
  rewrite (resourceFileRead_run env w0 _ Hid), Hhd.
  intros [= <- <-] _. exists h. cbn [fs data log d_id d_attrs].
  repeat split; try assumption.
  unfold data_Get. cbn [d_attrs]. now rewrite lookup_insert_eq.
Qed.

(** X13: after a Create that succeeded, with a destination that is a
    rooted path in its cleaned form, a Read succeeds, keeps the identity
    and the files, and stores the one fingerprint that the source and the
    destination have. *)
Theorem X13_create_then_read (env : Env) (w w1 : World)
        (ds : diag.Diagnostics) :
  filepath.IsAbs (data_Get (data w) "destination") = true ->
  filepath.Clean (data_Get (data w) "destination")
  = data_Get (data w) "destination" ->
  resourceFileCreate env w = Done ds w1 ->
  diag.HasError ds = false ->
  exists h w2,
    resourceFileRead env w1 = Done [] w2
    /\ fs w2 = fs w1
    /\ d_id (data w2) = d_id (data w1)
    /\ fingerprint env (fs w1) (data_Get (data w) "source") = Val h
    /\ fingerprint env (fs w1) (data_Get (data w) "destination") = Val h
    /\ data_Get (data w2) "content_sha256" = h.
Proof.
  intros Habs Hclean Hrun He.
  destruct (resourceFileCreate_inv env w w1 ds Hrun He)
    as (w0 & id & Hcopy & Hid & ->).
  destruct (ensureCopyFile_post env w w0 ds Hcopy He)
    as (_ & Hdst & _ & (h & Hhs & Hhd) & _ & _).
  rewrite Hdst in Hid.
  pose proof (idToFile_of_fileToID env _ id Habs Hclean Hid) as Hback.
  exists h. eexists.
  rewrite (resourceFileRead_run env _ (data_Get (data w) "destination"))
    by exact Hback.
  cbn [fs data log d_id d_attrs]. rewrite Hhd.
  split; [reflexivity |]. cbn [fs data log d_id d_attrs].
  repeat split; try assumption.
  unfold data_Get. cbn [d_attrs]. now rewrite lookup_insert_eq.
Qed.

Lemma resourceFileDelete_file (env : Env) (w : World) (name : string) (f : file) :
  idToFile env (d_id (data w)) = Val name ->
  fs w !! name = Some (File f) ->
  resourceFileDelete env w =
  Done [] {| fs := delete name (fs w); data := data w;
             log := log w ++ [EvStat name; EvRemove name] |}.
Proof.
  intros Hid Hf. unfold resourceFileDelete. run_os. rewrite Hid.
  unfold os.stat_of, os.remove_of. rewrite Hf. cbn [fs data log fst snd].
  rewrite Hf. cbn [fst snd]. now rewrite <- app_assoc.
Qed.

(** X14: a Delete after a Create that succeeded, with a destination that is
    a rooted path in its cleaned form, removes the destination and nothing
    else, for the file resource and, when the fetch left a regular file at
    the destination, for the URL resource. *)
Theorem X14_create_then_delete (env : Env) (w w1 : World) (ds : diag.Diagnostics) :
  (let dest := data_Get (data w) "destination" in
   filepath.IsAbs dest = true -> filepath.Clean dest = dest ->
   resourceFileCreate env w = Done ds w1 ->
   diag.HasError ds = false ->
   resourceFileDelete env w1 =
   Done [] {| fs := delete dest (fs w1); data := data w1;
              log := log w1 ++ [EvStat dest; EvRemove dest] |})
  /\ (let dest := data_Get (data w) "filename" in
      filepath.IsAbs dest = true -> filepath.Clean dest = dest ->
      resourceURLCreate env w = Done ds w1 ->
      diag.HasError ds = false ->
      (exists f, fs w1 !! dest = Some (File f)) ->
      resourceURLDelete env w1 =
      Done [] {| fs := delete dest (fs w1); data := data w1;
                 log := log w1 ++ [EvStat dest; EvRemove dest] |}).
Proof.
  split; intros dest Habs Hclean Hrun He.
  - destruct (resourceFileCreate_inv env w w1 ds Hrun He)
      as (w0 & id & Hcopy & Hid & ->).
    destruct (ensureCopyFile_post env w w0 ds Hcopy He)
      as (_ & Hdst & _ & _ & (f & Hf) & _).
    rewrite Hdst in Hid. fold dest in Hid, Hf.
    apply (resourceFileDelete_file env _ dest f).
    + now apply (idToFile_of_fileToID env dest id).
    + exact Hf.
  - intros [f Hf].
    destruct (resourceURLCreate_identity env w ds w1 Hrun) as [_ Hid].
    specialize (Hid He). fold dest in Hid.
    apply (resourceFileDelete_file env _ dest f).
    + now apply (idToFile_of_fileToID env dest _).
    + exact Hf.
Qed.

Lemma X12_update_fingerprint_witness :
  exists h,
    fingerprint (test_env unreachable)
                (fs (final (resourceFileUpdate (test_env unreachable) read_file_world)))
                "/src/motd" = Val h
    /\ fingerprint (test_env unreachable)
                   (fs (final (resourceFileUpdate (test_env unreachable)
                                                  read_file_world)))
                   "/etc/motd" = Val h
    /\ data_Get (data (final (resourceFileUpdate (test_env unreachable)
                                                 read_file_world)))
                "content_sha256" = h
    /\ d_id (data (final (resourceFileUpdate (test_env unreachable) read_file_world)))
       = d_id (data read_file_world)
    /\ @nil diag.Diagnostic = [].
Proof.
  apply (X12_update_fingerprint (test_env unreachable) read_file_world
           (final (resourceFileUpdate (test_env unreachable) read_file_world)) []);
    vm_compute; reflexivity.
Defined.

Lemma X13_create_then_read_witness :
  exists h w2,
    resourceFileRead (test_env unreachable) C1_synced = Done [] w2
    /\ fs w2 = fs C1_synced
    /\ d_id (data w2) = d_id (data C1_synced)
    /\ fingerprint (test_env unreachable) (fs C1_synced) "/src/motd" = Val h
    /\ fingerprint (test_env unreachable) (fs C1_synced) "/etc/motd" = Val h
    /\ data_Get (data w2) "content_sha256" = h.
Proof.
  apply (X13_create_then_read (test_env unreachable) C1_world C1_synced []);
    vm_compute; reflexivity.
Defined.

Lemma X14_create_then_delete_witness :
  resourceFileDelete (test_env unreachable) C1_synced =
  Done [] {| fs := delete "/etc/motd" (fs C1_synced); data := data C1_synced;
             log := log C1_synced ++ [EvStat "/etc/motd"; EvRemove "/etc/motd"] |}
  /\ resourceURLDelete (test_env (answers C10_response)) first_fetched_world =
     Done [] {| fs := delete "/srv/a.txt" (fs first_fetched_world);
                data := data first_fetched_world;
                log := log first_fetched_world
                       ++ [EvStat "/srv/a.txt"; EvRemove "/srv/a.txt"] |}.
Proof.
  split.
  - apply (proj1 (X14_create_then_delete (test_env unreachable) C1_world C1_synced []));
      vm_compute; reflexivity.
  - apply (proj2 (X14_create_then_delete (test_env (answers C10_response))
                    first_fetch_world first_fetched_world []));
      try (vm_compute; reflexivity).
    eexists. vm_compute. reflexivity.
Defined.

(** * A copy that succeeds, and its mode *)

Lemma copyFile_done (env : Env) (source destination : string) (mode : Z)
      (w : World) (fsrc : file) :
  source <> destination ->
  fs w !! source = Some (File fsrc) ->
  f_bad fsrc = None ->
  writable (fs w) destination ->
  stream_error env destination (f_data fsrc) None = None ->
  exists evs,
    copyFile env source destination mode w =
    Done (if close_fails env destination
          then Some (PathError "close" destination EIO) else None)
         {| fs := <[destination :=
                      File {| f_data := f_data fsrc;
                              f_mode := match fs w !! destination with
                                        | Some (File f) => f_mode f
                                        | _ => os.Perm (if mode =? 0
                                                        then f_mode fsrc else mode)
                                        end;
                              f_bad := None |}]> (fs w);
            data := data w;
            log := log w ++ evs |}
    /\ no_request evs.
Proof.
  intros Hne Hs Hbad Hw Hok.
  pose proof (stream_ok_all env destination (f_data fsrc) None Hok) as Hall.
  unfold stream_error in Hok.
  unfold copyFile. run_os.
  unfold os.open_of. rewrite Hs. cbn [fst snd fs data log].
  assert (Hread : forall x, os.read_of (<[destination := x]> (fs w)) source
                            = (f_data fsrc, None)).
  { intros x. unfold os.read_of. rewrite lookup_insert_ne by congruence.
    now rewrite Hs, Hbad. }
  destruct (mode =? 0); run_os; unfold os.stat_of; rewrite ?Hs;
    cbn [fst snd fs data log]; unfold os.create_of;
    (destruct Hw as [Hw | [f Hw]]; rewrite !Hw; cbn [fst snd fs data log];
     rewrite Hread; cbn beta iota; cbn [fs data log];
     rewrite Hok, Hall; unfold os.append_of; rewrite lookup_insert_eq;
     cbn beta; cbn [fs data log f_data f_mode f_bad];
     rewrite insert_insert_eq;
     destruct (close_fails env destination); cbn [fs data log];
     eexists; (split; [rewrite <- !app_assoc; reflexivity | solve_no_request])).
Qed.



(** * Permission reconciliation: the outcome *)

Lemma ensureFileMode_settled (env : Env) (w : World) (m : Z) :
  os.stat_of (fs w) (data_Get (data w) "destination") = Val m ->
  wanted_mode w = Val m ->
  exists evs, ensureFileMode env w = Done [] (logged w evs) /\ read_only evs.
Proof.
  unfold wanted_mode, ensureFileMode, data_GetOk, logged. intros Hd Hwant. run_os.
  rewrite Hd. cbn [fs data log].
  destruct (str_eqb (data_Get (data w) "file_mode") ""); cbn [negb].
  - run_os. rewrite Hwant. cbn [fs data log]. rewrite Z.eqb_refl.
    eexists. split; [rewrite <- app_assoc; reflexivity | repeat constructor].
  - rewrite Hwant. run_os. rewrite Z.eqb_refl.
    eexists. split; [reflexivity | repeat constructor].
Qed.

Lemma ensureFileMode_chmod (env : Env) (w : World) (f : file) (m : Z) :
  fs w !! data_Get (data w) "destination" = Some (File f) ->
  wanted_mode w = Val m ->
  m <> f_mode f ->
  exists evs,
    ensureFileMode env w =
    Done [] {| fs := <[data_Get (data w) "destination" :=
                         File {| f_data := f_data f; f_mode := os.Perm m;
                                 f_bad := f_bad f |}]> (fs w);
               data := data w; log := log w ++ evs |}.
Proof.
  unfold wanted_mode, ensureFileMode, data_GetOk. intros Hf Hwant Hne. run_os.
  assert (Hst : os.stat_of (fs w) (data_Get (data w) "destination")
                = Val (f_mode f)) by (unfold os.stat_of; now rewrite Hf).
  rewrite Hst. cbn [fs data log].
  apply Z.eqb_neq in Hne.
  destruct (str_eqb (data_Get (data w) "file_mode") ""); cbn [negb].
  - run_os. rewrite Hwant. cbn [fs data log]. rewrite Hne.
    unfold os.chmod_of. cbn [fs data log]. rewrite !Hf. cbn [fst snd fs data log].
    eexists. rewrite <- !app_assoc. reflexivity.
  - rewrite Hwant. run_os. rewrite Hne.
    unfold os.chmod_of. cbn [fs data log]. rewrite !Hf. cbn [fst snd fs data log].
    eexists. rewrite <- !app_assoc. reflexivity.
Qed.

(** X16: when the destination is a regular file and the wanted mode (the
    file mode, or the mode of the source without one) holds permission bits
    only, the permission reconciliation succeeds and leaves the destination
    with the wanted mode and the bytes it had, and every other file as it
    was; and a second reconciliation succeeds with calls that change
    nothing. *)
Theorem X16_mode_reconciled (env : Env) (w : World) (f : file) (m : Z) :
  let dest := data_Get (data w) "destination" in
  fs w !! dest = Some (File f) ->
  wanted_mode w = Val m ->
  os.Perm m = m ->
  exists w',
    ensureFileMode env w = Done [] w'
    /\ mode_at (fs w') dest = Some m
    /\ bytes_at (fs w') dest = Some (f_data f)
    /\ same_files_but dest (fs w) (fs w')
    /\ data w' = data w
    /\ exists evs,
        ensureFileMode env w' = Done [] (logged w' evs) /\ read_only evs.
Proof.
  intros dest Hf Hwant Hperm.
  destruct (decide (m = f_mode f)) as [Heq | Hne].
  - assert (Hst : os.stat_of (fs w) dest = Val m)
      by (unfold os.stat_of; rewrite Hf; now subst m).
    destruct (ensureFileMode_settled env w m Hst Hwant) as (evs & Hrun & Hro).
    exists (logged w evs). split; [exact Hrun |]. cbn [logged fs data log].
    split; [unfold mode_at; rewrite Hf; now subst m |].
    split; [unfold bytes_at; now rewrite Hf |].
    split; [apply same_files_but_refl |]. split; [reflexivity |].
    apply (ensureFileMode_settled env (logged w evs) m); assumption.
  - destruct (ensureFileMode_chmod env w f m Hf Hwant Hne) as (evs & Hrun).
    fold dest in Hrun. rewrite Hperm in Hrun.
    eexists. split; [exact Hrun |]. cbn [fs data log].
    split; [unfold mode_at; now rewrite lookup_insert_eq |].
    split; [unfold bytes_at; now rewrite lookup_insert_eq |].
    split; [apply same_files_but_insert |]. split; [reflexivity |].
    apply (ensureFileMode_settled env _ m); cbn [fs data log].
    + fold dest. unfold os.stat_of. now rewrite lookup_insert_eq.
    + unfold wanted_mode in *. cbn [fs data log].
      destruct (str_eqb (data_Get (data w) "file_mode") ""); [| exact Hwant].
      unfold os.stat_of in *.
      destruct (decide (data_Get (data w) "source" = dest)) as [Hsd | Hsd].
      * rewrite Hsd in Hwant. rewrite Hf in Hwant. congruence.
      * fold dest. now rewrite lookup_insert_ne by congruence.
Qed.

Lemma X16_mode_reconciled_witness :
  exists w',
    ensureFileMode (test_env unreachable) chmod_world = Done [] w'
    /\ mode_at (fs w') "/etc/motd" = Some 384
    /\ bytes_at (fs w') "/etc/motd" = Some "welcome"
    /\ same_files_but "/etc/motd" (fs chmod_world) (fs w')
    /\ data w' = data chmod_world
    /\ exists evs,
        ensureFileMode (test_env unreachable) w' = Done [] (logged w' evs)
        /\ read_only evs.
Proof.
  apply (X16_mode_reconciled (test_env unreachable) chmod_world
           {| f_data := "welcome"; f_mode := 420; f_bad := None |} 384);
    reflexivity.
Defined.

(** * A close that fails *)

Lemma writeResponseBody_close_fails (env : Env) (body : http.Body)
      (filename : string) (mode : Z) (w : World) :
  writable (fs w) filename ->
  stream_error env filename (http.body_bytes body) (http.body_err body) = None ->
  close_fails env filename = true ->
  exists w',
    writeResponseBody env body filename mode w =
    Done (Some (PathError "close" filename EIO)) w'
    /\ bytes_at (fs w') filename = Some (http.body_bytes body)
    /\ data w' = data w.
Proof.
  intros Hw Hs Hc.
  pose proof (stream_ok_all _ _ _ _ Hs) as Hall. unfold stream_error in Hs.
  unfold writeResponseBody. run_os. unfold os.create_of.
  destruct Hw as [Hw | [f Hw]]; rewrite !Hw; cbn [fst snd fs data log];
    rewrite Hs, Hall; unfold os.append_of; rewrite lookup_insert_eq;
    cbn beta; cbn [fs data log f_data f_mode f_bad]; rewrite Hc;
    eexists; (split; [reflexivity |]); cbn [fs data log];
    (split; [unfold bytes_at; now rewrite lookup_insert_eq | reflexivity]).
Qed.

(** X17: a close of the destination that fails after all bytes were
    written is returned as it is, not wrapped, and the destination stays
    with all its bytes: for the fetch, whose answer of 200 then ends in
    that error with the validators of the answer stored and the
    fingerprint as it was, and for the copy. *)
Theorem X17_close_failure (env : Env) :
  (forall mode w req resp,
      makeRequest http.MethodGet (data w) = Val req ->
      response_of (client_Do env req) = Some resp ->
      http.StatusCode resp = http.StatusOK ->
      let dest := data_Get (data w) "filename" in
      writable (fs w) dest ->
      stream_error env dest (http.body_bytes (http.RespBody resp))
                   (http.body_err (http.RespBody resp)) = None ->
      close_fails env dest = true ->
      exists w',
        ensureDownloadFile env mode w =
        Done (FromErr env (PathError "close" dest EIO)) w'
        /\ bytes_at (fs w') dest = Some (http.body_bytes (http.RespBody resp))
        /\ data_Get (data w') "etag"
           = http.Header_Get (http.RespHeader resp) "ETag"
        /\ data_Get (data w') "content_sha256"
           = data_Get (data w) "content_sha256")
  /\ (forall source destination mode w fsrc,
         source <> destination ->
         fs w !! source = Some (File fsrc) ->
         f_bad fsrc = None ->
         writable (fs w) destination ->
         stream_error env destination (f_data fsrc) None = None ->
         close_fails env destination = true ->
         exists w',
           copyFile env source destination mode w =
           Done (Some (PathError "close" destination EIO)) w'
           /\ bytes_at (fs w') destination = Some (f_data fsrc)).
Proof.
  split.
  - intros mode w req resp Hreq Hdo Hcode dest Hw Hs Hc.
    unfold ensureDownloadFile. run_step.
    rewrite Hreq. cbn [fs data log]. unfold response_of in Hdo. rewrite Hdo, Hcode.
    cbn [Z.eqb Pos.eqb http.StatusOK http.StatusNotModified]. fold dest.
    match goal with
    | |- context [writeResponseBody env ?b dest mode ?w0] =>
        destruct (writeResponseBody_close_fails env b dest mode w0 Hw Hs Hc)
          as (w' & Hrun & Hbytes & Hdata)
    end.
    rewrite Hrun. exists w'. split; [reflexivity |]. split; [exact Hbytes |].
    rewrite Hdata. cbn [fs data log]. unfold data_Get. cbn [d_attrs].
    split.
    + rewrite lookup_insert_ne by discriminate. now rewrite lookup_insert_eq.
    + now rewrite !lookup_insert_ne by discriminate.
  - intros source destination mode w fsrc Hne Hs Hbad Hw Hok Hc.
    destruct (copyFile_done env source destination mode w fsrc Hne Hs Hbad Hw Hok)
      as (evs & Hrun & _).
    rewrite Hc in Hrun. eexists. split; [exact Hrun |]. cbn [fs].
    unfold bytes_at. now rewrite lookup_insert_eq.
Qed.

Lemma X17_close_failure_witness :
  (exists w',
      ensureDownloadFile (close_fails_env (answers C2_response)) 436 fetched_world =
      Done (FromErr (close_fails_env (answers C2_response))
                    (PathError "close" "/srv/www/index.html" EIO)) w'
      /\ bytes_at (fs w') "/srv/www/index.html" = Some "new page"
      /\ data_Get (data w') "etag" = "v2"
      /\ data_Get (data w') "content_sha256" = "sha256:old page")
  /\ (exists w',
         copyFile (close_fails_env unreachable) "/src/motd" "/srv/www/index.html"
                  0 C1_world =
         Done (Some (PathError "close" "/srv/www/index.html" EIO)) w'
         /\ bytes_at (fs w') "/srv/www/index.html" = Some "welcome").
Proof.
  split.
  - apply (proj1 (X17_close_failure (close_fails_env (answers C2_response)))
                 436 fetched_world fetched_request C2_response);
      try reflexivity.
    right. eexists. reflexivity.
  - apply (proj2 (X17_close_failure (close_fails_env unreachable))
                 "/src/motd" "/srv/www/index.html" 0 C1_world
                 {| f_data := "welcome"; f_mode := 420; f_bad := None |});
      try reflexivity.
    + discriminate.
    + left. reflexivity.
Defined.

(** * Which content types are textual *)

Lemma cut_byte_app (sep : ascii) (a b : string) :
  no_byte sep a = true -> cut_byte sep (a +:+ String sep b) = Some (a, b).
Proof.
  induction a as [|c a IH]; intros H.
  - change ("" +:+ String sep b) with (String sep b). cbn [cut_byte].
    now rewrite byte_eq_refl.
  - rewrite app_String. cbn [cut_byte]. unfold no_byte in H. cbn [str_forall] in H.
    apply andb_true_iff in H as [Hc Ha]. apply negb_true_iff in Hc.
    now rewrite Hc, (IH Ha).
Qed.

Lemma cut_byte_inv (sep : ascii) (s a b : string) :
  cut_byte sep s = Some (a, b) ->
  s = a +:+ String sep b /\ no_byte sep a = true.
Proof.
  revert a. induction s as [|c s IH]; intros a; cbn [cut_byte]; [discriminate |].
  destruct (byte_eq c sep) eqn:E.
  - intros [= <- <-]. apply byte_eq_eq in E. subst c. now split.
  - destruct (cut_byte sep s) as [[a' b'] |]; [| discriminate].
    intros [= <- <-]. destruct (IH a' eq_refl) as [-> Ha].
    split; [reflexivity |]. unfold no_byte in *. cbn [str_forall].
    now rewrite E, Ha.
Qed.

Lemma cut_last_byte_app (sep : ascii) (a b : string) :
  no_byte sep b = true -> cut_last_byte sep (a +:+ String sep b) = Some (a, b).
Proof.
  intros Hb. induction a as [|c a IH].
  - change ("" +:+ String sep b) with (String sep b). cbn [cut_last_byte].
    now rewrite (cut_last_byte_none sep b Hb), byte_eq_refl.
  - rewrite app_String. cbn [cut_last_byte]. now rewrite IH.
Qed.

Lemma cut_last_byte_empty (sep : ascii) (s a : string) :
  cut_last_byte sep s = Some (a, EmptyString) -> last_byte s = Some sep.
Proof.
  revert a. induction s as [|c s IH]; intros a; cbn [cut_last_byte]; [discriminate |].
  destruct (cut_last_byte sep s) as [[a' b'] |] eqn:E.
  - intros [= <- ->]. specialize (IH a' eq_refl).
    destruct s; [discriminate IH | exact IH].
  - destruct (byte_eq c sep) eqn:Ec; [| discriminate].
    intros [= <- ->]. apply byte_eq_eq in Ec. now subst c.
Qed.

Lemma last_byte_app (a b : string) :
  b <> "" -> last_byte (a +:+ b) = last_byte b.
Proof.
  intros Hb. induction a as [|c a IH]; [reflexivity |].
  rewrite app_String. cbn [last_byte]. rewrite IH.
  destruct (a +:+ b) eqn:E; [| reflexivity].
  destruct a; [| discriminate E]. now destruct b.
Qed.

Lemma HasPrefix_app (s p : string) :
  HasPrefix s p = true -> exists r, s = p +:+ r.
Proof.
  revert s. induction p as [|a p IH]; intros s; cbn [HasPrefix].
  - intros _. now exists s.
  - destruct s as [|b s]; [discriminate |].
    intros H. apply andb_true_iff in H as [Hab Hp].
    apply byte_eq_eq in Hab. subst b.
    destruct (IH s Hp) as [r ->]. now exists r.
Qed.

(** The normalized media type, when it is not empty, has the type of the
    parsed media type before its slash. *)
Lemma getNormalizedMediaType_type (env : Env) (contentType : string) :
  getNormalizedMediaType env contentType <> "" ->
  exists mt type rest x,
    ParseMediaType env contentType = Val mt
    /\ cut_byte "/" mt = Some (type, rest)
    /\ getNormalizedMediaType env contentType = type +:+ String "/" x.
Proof.
  unfold getNormalizedMediaType.
  destruct (ParseMediaType env contentType) as [mt | err]; [| contradiction].
  destruct (cut_byte "/" mt) as [[type rest] |] eqn:Ec; [| contradiction].
  destruct rest as [|r rest]; [contradiction |].
  destruct (cut_last_byte "+" mt) as [[a suffix] |] eqn:El.
  - destruct suffix as [|s suffix]; [contradiction |].
    intros _. exists mt, type, (String r rest), (String s suffix).
    split; [reflexivity |]. split; [exact Ec | reflexivity].
  - intros _. exists mt, type, (String r rest), (String r rest).
    split; [reflexivity |]. split; [exact Ec |].
    now destruct (cut_byte_inv _ _ _ _ Ec) as [-> _].
Qed.

Lemma typed_prefix (type x p : string) :
  no_byte "/" type = true -> no_byte "/" p = true ->
  HasPrefix (type +:+ String "/" x) (p +:+ "/") = true -> type = p.
Proof.
  intros Ht Hp H. apply HasPrefix_app in H as [r Hr].
  assert (H1 : cut_byte "/" (type +:+ String "/" x) = Some (type, x))
    by now apply cut_byte_app.
  rewrite Hr in H1.
  rewrite app_assoc_str in H1.
  change ("/" +:+ r) with (String "/" r) in H1.
  rewrite cut_byte_app in H1 by exact Hp. now injection H1.
Qed.

(** X18: which content types make the body of an answer part of the
    error.  A type [text/...] that does not end with a plus sign is
    textual; so is every [application/...] type with the suffix [+json],
    [+xml], [+yaml] or [+x-yaml]; and a media type whose part before the
    slash is neither [text] nor [application] is not, whatever its
    suffix. *)
Theorem X18_textual_types (env : Env) (contentType : string) :
  (forall sub,
      ParseMediaType env contentType = Val ("text/" +:+ sub) ->
      sub <> "" -> last_byte sub <> Some "+"%char ->
      isTextual env contentType = true)
  /\ (forall sub suffix,
         ParseMediaType env contentType
         = Val ("application/" +:+ sub +:+ "+" +:+ suffix) ->
         In suffix ["json"; "xml"; "yaml"; "x-yaml"] ->
         isTextual env contentType = true)
  /\ (forall mt type rest,
         ParseMediaType env contentType = Val mt ->
         cut_byte "/" mt = Some (type, rest) ->
         type <> "text" -> type <> "application" ->
         isTextual env contentType = false).
Proof.
  split; [| split].
  - intros sub Hp Hsub Hlast.
    assert (Hn : exists x, getNormalizedMediaType env contentType
                           = "text/" +:+ x /\ x <> "").
    { unfold getNormalizedMediaType. rewrite Hp.
      change (cut_byte "/" ("text/" +:+ sub)) with (Some ("text", sub)).
      destruct sub as [|c sub]; [contradiction |].
      destruct (cut_last_byte "+" ("text/" +:+ String c sub))
        as [[a suffix] |] eqn:El.
      - destruct suffix as [|s suffix].
        + apply cut_last_byte_empty in El.
          rewrite last_byte_app in El by discriminate. contradiction.
        + exists (String s suffix). split; [reflexivity | discriminate].
      - exists (String c sub). split; [reflexivity | discriminate]. }
    destruct Hn as (x & Hn & Hx). unfold isTextual. rewrite Hn.
    destruct x; [contradiction | reflexivity].
  - intros sub suffix Hp Hin.
    assert (Hplus : no_byte "+" suffix = true).
    { cbn [In] in Hin. destruct Hin as [<- | [<- | [<- | [<- | []]]]]; reflexivity. }
    assert (Hne : suffix <> "").
    { cbn [In] in Hin. destruct Hin as [<- | [<- | [<- | [<- | []]]]]; discriminate. }
    assert (Hn : getNormalizedMediaType env contentType = "application/" +:+ suffix).
    { unfold getNormalizedMediaType. rewrite Hp.
      change (cut_byte "/" ("application/" +:+ sub +:+ "+" +:+ suffix))
        with (Some ("application", sub +:+ "+" +:+ suffix)).
      assert (Hrest : sub +:+ "+" +:+ suffix <> "") by (destruct sub; discriminate).
      destruct (sub +:+ "+" +:+ suffix) eqn:Er; [contradiction |].
      rewrite <- Er. rewrite <- app_assoc_str.
      change ("+" +:+ suffix) with (String "+" suffix).
      rewrite cut_last_byte_app by exact Hplus.
      destruct suffix; [contradiction | reflexivity]. }
    unfold isTextual. rewrite Hn.
    cbn [In] in Hin.
    destruct Hin as [<- | [<- | [<- | [<- | []]]]]; reflexivity.
  - intros mt type rest Hp Hc Ht Ha. unfold isTextual.
    destruct (str_eqb (getNormalizedMediaType env contentType) "") eqn:En;
      [reflexivity |].
    apply str_eqb_neq in En.
    destruct (getNormalizedMediaType_type env contentType En)
      as (mt' & type' & rest' & x & Hp' & Hc' & Hn).
    rewrite Hp in Hp'. injection Hp' as <-. rewrite Hc in Hc'.
    injection Hc' as <- <-. rewrite Hn.
    destruct (cut_byte_inv _ _ _ _ Hc) as [_ Hty].
    destruct (HasPrefix (type +:+ String "/" x) "text/") eqn:Et.
    { exfalso. apply Ht. now apply (typed_prefix type x "text"). }
    assert (Happ : forall s, str_eqb (type +:+ String "/" x) ("application/" +:+ s)
                             = false).
    { intros s. apply str_eqb_neq. intros Heq. apply Ha.
      apply (typed_prefix type x "application"); [exact Hty | reflexivity |].
      rewrite Heq. reflexivity. }
    pose proof (Happ "json") as H1. pose proof (Happ "xml") as H2.
    pose proof (Happ "yaml") as H3. pose proof (Happ "x-yaml") as H4.
    change ("application/" +:+ "json") with "application/json" in H1.
    change ("application/" +:+ "xml") with "application/xml" in H2.
    change ("application/" +:+ "yaml") with "application/yaml" in H3.
    change ("application/" +:+ "x-yaml") with "application/x-yaml" in H4.
    now rewrite H1, H2, H3, H4.
Qed.

Lemma X18_textual_types_witness :
  isTextual (test_env unreachable) "text/html; charset=utf-8" = true
  /\ isTextual (test_env unreachable) "application/vnd.api+json" = true
  /\ isTextual (test_env unreachable) "image/svg+xml" = false.
Proof.
  split; [| split].
  - apply (proj1 (X18_textual_types (test_env unreachable)
                                    "text/html; charset=utf-8") "html");
      [reflexivity | discriminate | discriminate].
  - apply (proj1 (proj2 (X18_textual_types (test_env unreachable)
                                           "application/vnd.api+json"))
                 "vnd.api" "json"); [reflexivity |].
    left. reflexivity.
  - apply (proj2 (proj2 (X18_textual_types (test_env unreachable) "image/svg+xml"))
                 "image/svg+xml" "image" "svg+xml");
      [reflexivity | reflexivity | discriminate | discriminate].
Defined.

(** * The plan of the file resource *)

Lemma SetNewComputed_fingerprint (diff : schema.ResourceDiff) :
  schema.diff_schema diff = resourceFileSchema ->
  schema.SetNewComputed diff "content_sha256" =
  ({| schema.diff_schema := schema.diff_schema diff;
      schema.diff_attrs := schema.diff_attrs diff;
      schema.diff_computed := {[ "content_sha256" ]} ∪ schema.diff_computed diff |},
   None).
Proof.
  intros Hs. unfold schema.SetNewComputed. rewrite Hs. reflexivity.
Qed.

Lemma resourceFile_CustomizeDiff_run (env : Env) (diff : schema.ResourceDiff)
      (w : World) :
  schema.diff_schema diff = resourceFileSchema ->
  let dest := schema.ResourceDiff_Get diff "destination" in
  let source := schema.ResourceDiff_Get diff "source" in
  let marked :=
    {| schema.diff_schema := schema.diff_schema diff;
       schema.diff_attrs := schema.diff_attrs diff;
       schema.diff_computed :=
         {[ "content_sha256" ]} ∪ schema.diff_computed diff |} in
  resourceFile_CustomizeDiff env diff w =
  match fs w !! dest with
  | None => Done (marked, None) (logged w [EvOpen dest])
  | Some _ =>
      match fingerprint env (fs w) source with
      | Err e =>
          Done (diff, Some e)
               (logged w (hash_events (fs w) dest ++ hash_events (fs w) source))
      | Val h =>
          Done (if str_eqb (planned_hash env (fs w) dest) h then diff else marked,
                None)
               (logged w (hash_events (fs w) dest ++ hash_events (fs w) source))
      end
  end.
Proof.
  intros Hs dest source marked. unfold resourceFile_CustomizeDiff. run_step.
  fold dest source. rewrite hashFile_run.
  rewrite (SetNewComputed_fingerprint diff Hs). fold marked.
  unfold planned_hash.
  destruct (fingerprint env (fs w) dest) as [dh | err] eqn:Ed.
  - destruct (fingerprint_file env _ _ _ Ed) as (f & Hf & _). rewrite Hf.
    rewrite hashFile_run. unfold logged. cbn [fs data log].
    rewrite <- app_assoc.
    destruct (fingerprint env (fs w) source) as [h | e]; [| reflexivity].
    destruct (str_eqb dh h); reflexivity.
  - pose proof (fingerprint_not_exist env (fs w) dest err Ed) as Hne.
    destruct (IsNotExist err) eqn:Ei.
    + rewrite (proj1 Hne eq_refl). unfold hash_events, os.open_of.
      now rewrite (proj1 Hne eq_refl).
    + destruct (fs w !! dest) as [n |] eqn:Hn;
        [| now destruct Hne as [_ Hne]; specialize (Hne eq_refl)].
      rewrite hashFile_run. unfold logged. cbn [fs data log].
      rewrite <- app_assoc.
      destruct (fingerprint env (fs w) source) as [h | e]; [| reflexivity].
      destruct (str_eqb "" h); reflexivity.
Qed.

(** X19: the plan of the file resource always returns, changes no file and
    no planned value, and only opens, reads and closes files.  When nothing
    is at the destination it marks the fingerprint as computed anew and
    does not open the source; otherwise an error of hashing the source is
    the error of the plan; otherwise it marks the fingerprint just when the
    fingerprint of the destination, empty when the destination could not be
    hashed, is not that of the source. *)
Theorem X19_plan_contract (env : Env)
        (diff : schema.ResourceDiff) (w : World) :
  schema.diff_schema diff = resourceFileSchema ->
  let dest := schema.ResourceDiff_Get diff "destination" in
  let source := schema.ResourceDiff_Get diff "source" in
  exists diff' r evs,
    resourceFile_CustomizeDiff env diff w = Done (diff', r) (logged w evs)
    /\ read_only evs
    /\ schema.diff_attrs diff' = schema.diff_attrs diff
    /\ (fs w !! dest = None ->
        r = None /\ evs = [EvOpen dest]
        /\ "content_sha256" ∈ schema.diff_computed diff')
    /\ (fs w !! dest <> None ->
        forall e, fingerprint env (fs w) source = Err e ->
                  r = Some e /\ diff' = diff)
    /\ (fs w !! dest <> None ->
        forall h, fingerprint env (fs w) source = Val h ->
                  r = None
                  /\ if str_eqb (planned_hash env (fs w) dest) h
                     then diff' = diff
                     else "content_sha256" ∈ schema.diff_computed diff').
Proof.
  intros Hs dest source.
  pose proof (resourceFile_CustomizeDiff_run env diff w Hs) as Hrun.
  cbn zeta in Hrun. fold dest source in Hrun. rewrite Hrun.
  destruct (fs w !! dest) as [n |] eqn:Hd.
  - destruct (fingerprint env (fs w) source) as [h | e] eqn:Hsrc.
    + do 3 eexists. split; [reflexivity |].
      split; [unfold read_only; rewrite Forall_app;
              split; apply hash_events_read_only |].
      split; [destruct (str_eqb (planned_hash env (fs w) dest) h); reflexivity |].
      split; [discriminate |]. split; [intros _ e; discriminate |].
      intros _ h' [= <-]. split; [reflexivity |].
      destruct (str_eqb (planned_hash env (fs w) dest) h); [reflexivity |].
      cbn [schema.diff_computed]. set_solver.
    + do 3 eexists. split; [reflexivity |].
      split; [unfold read_only; rewrite Forall_app;
              split; apply hash_events_read_only |].
      split; [reflexivity |]. split; [discriminate |].
      split; [intros _ e' [= <-]; now split | intros _ h; discriminate].
  - do 3 eexists. split; [reflexivity |].
    split; [repeat constructor |]. split; [reflexivity |].
    split; [| split; intros H; contradiction].
    intros _. split; [reflexivity |]. split; [reflexivity |].
    cbn [schema.diff_computed]. set_solver.
Qed.

Lemma X19_plan_contract_witness :
  exists diff' r evs,
    resourceFile_CustomizeDiff (test_env unreachable) C1_diff C1_world
    = Done (diff', r) (logged C1_world evs)
    /\ read_only evs
    /\ schema.diff_attrs diff' = schema.diff_attrs C1_diff
    /\ r = None /\ evs = [EvOpen "/etc/motd"]
    /\ "content_sha256" ∈ schema.diff_computed diff'.
Proof.
  destruct (X19_plan_contract (test_env unreachable) C1_diff
              C1_world eq_refl)
    as (diff' & r & evs & Hrun & Hro & Hattrs & Hnone & _).
  exists diff', r, evs. split; [exact Hrun |]. split; [exact Hro |].
  split; [exact Hattrs |]. apply Hnone. reflexivity.
Defined.

(** * The plan and the apply *)

Lemma fingerprint_lookup (env : Env) (m m' : gmap string node) (path : string) :
  m' !! path = m !! path -> fingerprint env m' path = fingerprint env m path.
Proof.
  intros H. unfold fingerprint, os.open_of. rewrite H.
  destruct (m !! path) as [[f | md |] |] eqn:E; try reflexivity;
    unfold os.read_of; now rewrite H, E.
Qed.

(** X20: the plan and the apply of the file resource agree, when the
    digest of no file is the empty text.  If the plan returns no error and
    does not mark the fingerprint, the apply copies nothing: it makes no
    call that creates, writes or removes a file, and changes no byte and no
    field.  If the plan marks the fingerprint, an apply that succeeds has
    copied: it stores the fingerprint of the source, which is then the
    fingerprint of the destination. *)
Theorem X20_plan_agrees_with_apply (env : Env) (diff diff' : schema.ResourceDiff)
        (w w0 : World) :
  schema.diff_schema diff = resourceFileSchema ->
  (forall bytes, sha256_hex env bytes <> "") ->
  schema.ResourceDiff_Get diff "source" = data_Get (data w) "source" ->
  schema.ResourceDiff_Get diff "destination" = data_Get (data w) "destination" ->
  "content_sha256" ∉ schema.diff_computed diff ->
  resourceFile_CustomizeDiff env diff w = Done (diff', None) w0 ->
  ("content_sha256" ∉ schema.diff_computed diff' ->
   exists ds evs m',
     ensureCopyFile env w =
     Done ds {| fs := m'; data := data w; log := log w ++ evs |}
     /\ same_bytes (fs w) m'
     /\ no_copy evs)
  /\ ("content_sha256" ∈ schema.diff_computed diff' ->
      forall ds w',
        ensureCopyFile env w = Done ds w' ->
        diag.HasError ds = false ->
        exists h,
          fingerprint env (fs w) (data_Get (data w) "source") = Val h
          /\ d_attrs (data w')
             = <["content_sha256" := h]> (d_attrs (data w))
          /\ fingerprint env (fs w') (data_Get (data w) "destination") = Val h).
Proof.
  intros Hs Hdigest Hsrc Hdst Hfresh.
  rewrite (resourceFile_CustomizeDiff_run env diff w Hs). cbn zeta.
  rewrite Hsrc, Hdst.
  set (source := data_Get (data w) "source").
  set (dest := data_Get (data w) "destination").
  set (marked := {| schema.diff_schema := schema.diff_schema diff;
                    schema.diff_attrs := schema.diff_attrs diff;
                    schema.diff_computed :=
                      {[ "content_sha256" ]} ∪ schema.diff_computed diff |}).
  assert (Hmarked : "content_sha256" ∈ schema.diff_computed marked)
    by (cbn [marked schema.diff_computed]; set_solver).
  intros Hplan.
  assert (Hcase :
            ("content_sha256" ∉ schema.diff_computed diff' ->
             exists h, fingerprint env (fs w) source = Val h
                       /\ fingerprint env (fs w) dest = Val h)
            /\ ("content_sha256" ∈ schema.diff_computed diff' ->
                match fingerprint env (fs w) dest with
                | Val dh => forall h, fingerprint env (fs w) source = Val h ->
                                      str_eqb dh h = false
                | Err _ => True
                end)).
  { destruct (fs w !! dest) as [n |] eqn:Hd.
    - destruct (fingerprint env (fs w) source) as [h | e] eqn:Hh;
        [| discriminate Hplan].
      unfold planned_hash in Hplan.
      destruct (fingerprint env (fs w) dest) as [dh | de] eqn:Hdh.
      + destruct (str_eqb dh h) eqn:Eq; injection Hplan as <- _.
        * apply str_eqb_eq in Eq. subst dh. split; [| contradiction].
          intros _. now exists h.
        * split; [contradiction |]. intros _ h' [= <-]. exact Eq.
      + destruct (str_eqb "" h) eqn:Eq; injection Hplan as <- _.
        * apply str_eqb_eq in Eq. subst h.
          apply fingerprint_file in Hh as (f & _ & _ & Hh).
          symmetry in Hh. now apply Hdigest in Hh.
        * split; [contradiction | trivial].
    - injection Hplan as <- _. split; [contradiction |]. intros _.
      unfold fingerprint, os.open_of. now rewrite Hd. }
  destruct Hcase as [Hunmarked Hismarked]. split.
  - intros Hno. destruct (Hunmarked Hno) as (h & Hhs & Hhd).
    rewrite (ensureCopyFile_matched env w h Hhs Hhd).
    match goal with
    | |- context [ensureFileMode env ?w1] =>
        destruct (ensureFileMode_frame env w1)
          as (ds & evs & m' & Hrun & Hsb & Hnc & _)
    end.
    cbn [logged fs data log] in *. rewrite Hrun.
    exists ds, ((hash_events (fs w) source ++ hash_events (fs w) dest) ++ evs), m'.
    split; [now rewrite <- !app_assoc |]. split; [exact Hsb |].
    unfold no_copy. rewrite !Forall_app.
    repeat split; try apply hash_events_no_copy. exact Hnc.
  - intros Hyes ds w' Hrun He. specialize (Hismarked Hyes).
    destruct (ensureCopyFile_post env w w' ds Hrun He)
      as (_ & _ & _ & (h' & Hhs' & Hhd') & _ & _).
    fold source dest in Hhs', Hhd'.
    revert Hrun. unfold ensureCopyFile. run_step. fold source dest.
    rewrite hashFile_run.
    destruct (fingerprint env (fs w) source) as [h | e] eqn:Hh;
      [| intros [= <- <-]; discriminate He].
    rewrite hashFile_run. unfold logged. cbn [fs data log].
    assert (Hmis : match fingerprint env (fs w) dest with
                   | Val destHash => str_eqb destHash h
                   | Err _ => false
                   end = false).
    { destruct (fingerprint env (fs w) dest) as [dh | de]; [| reflexivity].
      now apply Hismarked. }
    rewrite Hmis.
    assert (Hne : source <> dest).
    { intros Heq. rewrite <- Heq, Hh, str_eqb_refl in Hmis. discriminate. }
    unfold data_GetOk.
    destruct (if negb (str_eqb (data_Get (data w) "file_mode") "")
              then strconv.ParseUint (data_Get (data w) "file_mode") 8 32
              else Val 0) as [mode | perr];
      [| intros [= <- <-]; discriminate He].
    run_step.
    match goal with
    | |- context [copyFile env source dest mode ?w1] =>
        destruct (copyFile_frame env source dest mode w1)
          as (r & evs & m' & Hcopy & Hf & _)
    end.
    cbn [fs data log] in *. rewrite Hcopy.
    destruct r as [err |]; [intros [= <- <-]; discriminate He |].
    intros [= <- <-]. cbn [fs data log d_attrs] in *.
    exists h. split; [reflexivity |]. split; [reflexivity |].
    assert (Hsame : fingerprint env m' source = fingerprint env (fs w) source)
      by (apply fingerprint_lookup; now apply Hf).
    rewrite Hsame, Hh in Hhs'. injection Hhs' as <-. exact Hhd'.
Qed.

Lemma test_digest_not_empty (srv : http.Request -> http.DoResult) (bytes : string) :
  sha256_hex (test_env srv) bytes <> "".
Proof. discriminate. Qed.

Lemma X20_plan_agrees_with_apply_witness :
  (exists ds evs m',
      ensureCopyFile (test_env unreachable) C1_synced =
      Done ds {| fs := m'; data := data C1_synced; log := log C1_synced ++ evs |}
      /\ same_bytes (fs C1_synced) m'
      /\ no_copy evs)
  /\ (exists h,
         fingerprint (test_env unreachable) (fs C1_world) "/src/motd" = Val h
         /\ d_attrs (data (final (ensureCopyFile (test_env unreachable) C1_world)))
            = <["content_sha256" := h]> (d_attrs (data C1_world))
         /\ fingerprint (test_env unreachable)
                        (fs (final (ensureCopyFile (test_env unreachable) C1_world)))
                        "/etc/motd" = Val h).
Proof.
  split.
  - refine (proj1 (X20_plan_agrees_with_apply (test_env unreachable) C1_synced_diff
                     C1_synced_diff C1_synced
                     (final (resourceFile_CustomizeDiff (test_env unreachable)
                                                        C1_synced_diff C1_synced))
                     eq_refl (test_digest_not_empty unreachable) eq_refl eq_refl
                     _ _) _).
    + apply not_elem_of_empty.
    + vm_compute. reflexivity.
    + apply not_elem_of_empty.
  - refine (proj2 (X20_plan_agrees_with_apply (test_env unreachable) C1_diff
                     {| schema.diff_schema := resourceFileSchema;
                        schema.diff_attrs := d_attrs (data C1_world);
                        schema.diff_computed := {[ "content_sha256" ]} ∪ ∅ |}
                     C1_world
                     (final (resourceFile_CustomizeDiff (test_env unreachable)
                                                        C1_diff C1_world))
                     eq_refl (test_digest_not_empty unreachable) eq_refl eq_refl
                     _ _) _ [] _ _ eq_refl).
    + apply not_elem_of_empty.
    + vm_compute. reflexivity.
    + apply elem_of_union_l, elem_of_singleton. reflexivity.
    + vm_compute. reflexivity.
Defined.

(** * The acceptance tests: the check of the destruction *)

Lemma Provider_types (env : Env) (type : string) :
  is_Some (schema.ResourcesMap (Provider env) !! type) ->
  type = "synclocal_file" \/ type = "synclocal_url".
Proof.
  unfold Provider. cbn [schema.ResourcesMap].
  destruct (decide (type = "synclocal_file")) as [-> | H1]; [now left |].
  destruct (decide (type = "synclocal_url")) as [-> | H2]; [now right |].
  rewrite !lookup_insert_ne by congruence. rewrite lookup_empty.
  intros [x Hx]. discriminate Hx.
Qed.

(** X21: the checks that the acceptance tests run after the destruction
    look for resources of the type [file], and the provider has none of
    that type: on a state whose resources all have a type of the provider,
    each check returns no error and makes no call, so it removes nothing
    and fails on nothing that was left behind. *)
Theorem X21_destroy_check_checks_nothing (env : Env)
        (resources : list terraform.ResourceState) (w : World) :
  Forall (fun rs => is_Some (schema.ResourcesMap (Provider env)
                             !! terraform.Type_ rs)) resources ->
  testAccDestroyFile resources w = Done None w
  /\ testAccDestroyURL resources w = Done None w.
Proof.
  induction 1 as [|rs resources Hrs _ IH]; [now split |].
  cbn [testAccDestroyFile testAccDestroyURL].
  assert (Hty : str_eqb (terraform.Type_ rs) "file" = false).
  { apply Provider_types in Hrs as [-> | ->]; reflexivity. }
  rewrite Hty. exact IH.
Qed.

Lemma X21_destroy_check_checks_nothing_witness :
  testAccDestroyFile
    [ {| terraform.Type_ := "synclocal_file";
         terraform.Primary := Some "file:///etc/motd" |};
      {| terraform.Type_ := "synclocal_url";
         terraform.Primary := Some "file:///srv/www/index.html" |} ]
    C1_synced = Done None C1_synced
  /\ testAccDestroyURL
       [ {| terraform.Type_ := "synclocal_file";
            terraform.Primary := Some "file:///etc/motd" |};
         {| terraform.Type_ := "synclocal_url";
            terraform.Primary := Some "file:///srv/www/index.html" |} ]
       C1_synced = Done None C1_synced.
Proof.
  apply (X21_destroy_check_checks_nothing (test_env unreachable)).
  repeat constructor; eexists; reflexivity.
Defined.

(** * The acceptance tests: the handlers of the server *)

Lemma at_index_in_range {A} (l : list A) (i : Z) :
  0 <= i < Z.of_nat (length l) -> exists x, at_index l i = Some x.
Proof.
  intros Hi. unfold at_index.
  destruct (i <? 0) eqn:E; [apply Z.ltb_lt in E; lia |].
  destruct (lookup_lt_is_Some_2 l (Z.to_nat i) ltac:(lia)) as [x Hx].
  now exists x.
Qed.

(** X22: the handlers of the test server take turns.  From an index in
    range no request panics; the request number [j] is served by the
    handler at the index plus [j], modulo the number of handlers; and the
    index ends at the start index plus the number of requests, modulo the
    number of handlers. *)
Theorem X22_round_robin (h : testResourceURLHandlers)
        (reqs : list http.Request) :
  0 <= Index h < Z.of_nat (length (Handlers h)) ->
  exists h' ws,
    serve_all h reqs = Some (h', ws)
    /\ Handlers h' = Handlers h
    /\ Index h' = (Index h + Z.of_nat (length reqs))
                  mod Z.of_nat (length (Handlers h))
    /\ length ws = length reqs
    /\ forall (j : nat) r,
        reqs !! j = Some r ->
        exists handler,
          at_index (Handlers h)
                ((Index h + Z.of_nat j) mod Z.of_nat (length (Handlers h)))
          = Some handler
          /\ ws !! j = Some (handler httptest.NewWriter r).
Proof.
  revert h. induction reqs as [|r reqs IH]; intros h Hi.
  - exists h, []. split; [reflexivity |]. split; [reflexivity |].
    split; [| split; [reflexivity |]].
    + cbn [length]. rewrite Z.add_0_r. now rewrite Z.mod_small.
    + intros j r' Hj. discriminate Hj.
  - cbn [serve_all]. unfold ServeHTTP.
    destruct (at_index_in_range (Handlers h) (Index h) Hi) as [handler Hh].
    rewrite Hh.
    set (n := Z.of_nat (length (Handlers h))) in *.
    set (h1 := {| Handlers := Handlers h; Index := Z.rem (Index h + 1) n |}).
    assert (Hrem : Z.rem (Index h + 1) n = (Index h + 1) mod n)
      by (apply Z.rem_mod_nonneg; lia).
    assert (Hi1 : 0 <= Index h1 < Z.of_nat (length (Handlers h1))).
    { cbn [h1 Index Handlers]. fold n. rewrite Hrem. apply Z.mod_pos_bound. lia. }
    destruct (IH h1 Hi1) as (h' & ws & Hrun & Hhs & Hidx & Hlen & Hall).
    rewrite Hrun. exists h', (handler httptest.NewWriter r :: ws).
    cbn [h1 Index Handlers] in Hhs, Hidx, Hall. fold n in Hidx, Hall.
    split; [reflexivity |]. split; [exact Hhs |]. split; [| split].
    + rewrite Hidx, Hrem. cbn [length].
      rewrite Zplus_mod_idemp_l. f_equal. lia.
    + cbn [length]. now rewrite Hlen.
    + intros [|j] r' Hj.
      * injection Hj as <-. exists handler. split; [| reflexivity].
        cbn [Z.of_nat]. rewrite Z.add_0_r. now rewrite Z.mod_small.
      * destruct (Hall j r' Hj) as (handler' & Hh' & Hw).
        exists handler'. split; [| exact Hw].
        rewrite <- Hh'. f_equal. rewrite Hrem, Zplus_mod_idemp_l. f_equal. lia.
Qed.

Lemma X22_round_robin_witness :
  exists h' ws,
    serve_all test_handlers
              [token_request; anonymous_request; token_request; token_request;
               token_request; token_request; token_request]
    = Some (h', ws)
    /\ Handlers h' = Handlers test_handlers
    /\ Index h' = (0 + 7) mod 6
    /\ length ws = 7%nat
    /\ forall (j : nat) r,
        [token_request; anonymous_request; token_request; token_request;
         token_request; token_request; token_request] !! j = Some r ->
        exists handler,
          at_index (Handlers test_handlers) ((0 + Z.of_nat j) mod 6) = Some handler
          /\ ws !! j = Some (handler httptest.NewWriter r).
Proof.
  apply (X22_round_robin test_handlers
           [token_request; anonymous_request; token_request; token_request;
            token_request; token_request; token_request]).
  cbn. lia.
Defined.

Section Handler.

Variable time_Parse : string -> string -> result Z.
Variable time_Format : Z -> string -> string.
Variables content hash : string.
Variable modified : Z.

Local Abbreviation handler :=
  (testURLHandler_serve time_Parse time_Format content hash modified).

Lemma testURLHandler_serve_cases (w : httptest.ResponseWriter) (r : http.Request) :
  httptest.sent w = None ->
  let auth := http.Header_Get (http.ReqHeader r) "Authorization" in
  let etag := http.Header_Get (http.ReqHeader r) "If-None-Match" in
  let ims := http.Header_Get (http.ReqHeader r) "If-Modified-Since" in
  let since := if negb (str_eqb ims "")
               then match time_Parse RFC1123 ims with
                    | Val t => t
                    | Err _ => 0
                    end
               else 0 in
  let said text :=
    httptest.body w +:+ (if str_eqb (http.Method r) "HEAD" then "" else text) in
  let ok :=
    httptest.sent (handler w r) =
    Some (200,
          http.Header_Set (http.Header_Set (httptest.header w) "ETag" hash)
                          "Last-Modified" (time_Format modified RFC1123))
    /\ httptest.body (handler w r) = said content in
  let not_modified :=
    httptest.sent (handler w r) = Some (304, httptest.header w)
    /\ httptest.body (handler w r) = httptest.body w in
  (auth = "" ->
   httptest.sent (handler w r) = Some (401, httptest.header w)
   /\ httptest.body (handler w r) = said "not authorized")
  /\ (auth <> "" -> auth <> "Bearer secret" ->
      httptest.sent (handler w r) = Some (403, httptest.header w)
      /\ httptest.body (handler w r) = said "forbidden")
  /\ (auth = "Bearer secret" -> etag <> "" -> etag = hash -> not_modified)
  /\ (auth = "Bearer secret" -> etag <> "" -> etag <> hash -> ok)
  /\ (auth = "Bearer secret" -> etag = "" -> since <> 0 -> since < modified ->
      not_modified)
  /\ (auth = "Bearer secret" -> etag = "" -> since = 0 \/ modified <= since -> ok).
Proof.
  intros Hsent auth etag ims since said ok not_modified.
  subst ok not_modified said. cbn beta.
  unfold testURLHandler_serve. fold auth etag ims. fold since.
  assert (Hwrite : forall status text,
             httptest.bodyAllowedForStatus status = true ->
             httptest.sent (httptest.Write (httptest.WriteHeader w status)
                                           (http.Method r) text)
             = Some (status, httptest.header w)
             /\ httptest.body (httptest.Write (httptest.WriteHeader w status)
                                              (http.Method r) text)
                = httptest.body w
                  +:+ (if str_eqb (http.Method r) "HEAD" then "" else text)).
  { intros status text Hb. unfold httptest.Write, httptest.WriteHeader.
    rewrite Hsent. cbn [httptest.sent httptest.header httptest.body]. rewrite Hb.
    destruct (str_eqb (http.Method r) "HEAD");
      cbn [negb andb httptest.sent httptest.body];
      (split; [reflexivity |]); [now rewrite app_empty_r | reflexivity]. }
  assert (H304 : httptest.sent (httptest.WriteHeader w http.StatusNotModified)
                 = Some (304, httptest.header w)
                 /\ httptest.body (httptest.WriteHeader w http.StatusNotModified)
                    = httptest.body w).
  { unfold httptest.WriteHeader. now rewrite Hsent. }
  assert (H200 :
            let w1 := httptest.Header_Set w "ETag" hash in
            let w2 := httptest.Header_Set w1 "Last-Modified"
                                          (time_Format modified RFC1123) in
            let w3 := httptest.WriteHeader w2 http.StatusOK in
            let w' := if str_eqb (http.Method r) "HEAD" then w3
                      else httptest.Write w3 (http.Method r) content in
            httptest.sent w' =
            Some (200,
                  http.Header_Set (http.Header_Set (httptest.header w) "ETag" hash)
                                  "Last-Modified" (time_Format modified RFC1123))
            /\ httptest.body w'
               = httptest.body w
                 +:+ (if str_eqb (http.Method r) "HEAD" then "" else content)).
  { cbn zeta.
    unfold httptest.Write, httptest.WriteHeader, httptest.Header_Set.
    cbn [httptest.sent httptest.header httptest.body]. rewrite Hsent.
    cbn [httptest.sent httptest.header httptest.body].
    destruct (str_eqb (http.Method r) "HEAD");
      cbn [httptest.sent httptest.header httptest.body];
      (split; [reflexivity |]); [now rewrite app_empty_r | reflexivity]. }
  cbn zeta in H200.
  split; [| split; [| split; [| split; [| split]]]].
  - intros Ha. rewrite Ha. cbn [str_eqb String.eqb]. now apply Hwrite.
  - intros Ha Hb. apply str_eqb_neq in Ha, Hb. rewrite Ha, Hb. cbn [negb].
    now apply Hwrite.
  - intros Ha He Hh. rewrite Ha. cbn [str_eqb String.eqb negb].
    apply str_eqb_neq in He. rewrite He. cbn [negb]. rewrite Hh, str_eqb_refl.
    exact H304.
  - intros Ha He Hh. rewrite Ha. cbn [str_eqb String.eqb negb].
    apply str_eqb_neq in He, Hh. rewrite He, Hh. cbn [negb]. exact H200.
  - intros Ha He Hs Hlt. rewrite Ha. cbn [str_eqb String.eqb negb].
    rewrite He. cbn [str_eqb String.eqb negb].
    apply Z.eqb_neq in Hs. apply Z.ltb_lt in Hlt. rewrite Hs, Hlt. cbn [negb].
    exact H304.
  - intros Ha He Hs. rewrite Ha. cbn [str_eqb String.eqb negb].
    rewrite He. cbn [str_eqb String.eqb negb].
    assert (Hno : (if negb (since =? 0) then since <? modified else false) = false).
    { destruct Hs as [-> | Hs]; [reflexivity |].
      destruct (negb (since =? 0)); [| reflexivity]. apply Z.ltb_ge. exact Hs. }
    rewrite Hno. exact H200.
Qed.

(** X23: what the handler of the test server answers on a fresh writer.
    Without the token of the test the status is 401 (no token) or 403
    (another token), with a fixed text and no validator.  With the token:
    an entity tag in the request decides alone, 304 when it is the quoted
    digest and 200 otherwise; without one, a time of the request that can
    be parsed, is not the zero time and is before the time the handler was
    made gives 304, and anything else 200.  An answer of 200 carries the
    quoted digest as the entity tag, the time, and the bytes; an answer of
    304 carries nothing; a HEAD request gets no body. *)
Theorem X23_handler_answers (w : httptest.ResponseWriter) (r : http.Request) :
  httptest.sent w = None ->
  let auth := http.Header_Get (http.ReqHeader r) "Authorization" in
  let etag := http.Header_Get (http.ReqHeader r) "If-None-Match" in
  let ims := http.Header_Get (http.ReqHeader r) "If-Modified-Since" in
  let since := if negb (str_eqb ims "")
               then match time_Parse RFC1123 ims with
                    | Val t => t
                    | Err _ => 0
                    end
               else 0 in
  let said text :=
    httptest.body w +:+ (if str_eqb (http.Method r) "HEAD" then "" else text) in
  let ok :=
    httptest.sent (handler w r) =
    Some (200,
          http.Header_Set (http.Header_Set (httptest.header w) "ETag" hash)
                          "Last-Modified" (time_Format modified RFC1123))
    /\ httptest.body (handler w r) = said content in
  let not_modified :=
    httptest.sent (handler w r) = Some (304, httptest.header w)
    /\ httptest.body (handler w r) = httptest.body w in
  (auth = "" ->
   httptest.sent (handler w r) = Some (401, httptest.header w)
   /\ httptest.body (handler w r) = said "not authorized")
  /\ (auth <> "" -> auth <> "Bearer secret" ->
      httptest.sent (handler w r) = Some (403, httptest.header w)
      /\ httptest.body (handler w r) = said "forbidden")
  /\ (auth = "Bearer secret" -> etag <> "" -> etag = hash -> not_modified)
  /\ (auth = "Bearer secret" -> etag <> "" -> etag <> hash -> ok)
  /\ (auth = "Bearer secret" -> etag = "" -> since <> 0 -> since < modified ->
      not_modified)
  /\ (auth = "Bearer secret" -> etag = "" -> since = 0 \/ modified <= since -> ok).
Proof. apply testURLHandler_serve_cases. Qed.

End Handler.

Lemma X23_handler_answers_witness :
  (httptest.sent (file1 httptest.NewWriter anonymous_request) = Some (401, ∅)
   /\ httptest.body (file1 httptest.NewWriter anonymous_request)
      = "" +:+ "not authorized")
  /\ (httptest.sent (file1 httptest.NewWriter token_request) =
      Some (200,
            http.Header_Set (http.Header_Set ∅ "ETag" (quote_plain "sha256:hello"))
                            "Last-Modified" "Mon, 02 Jan 2006 15:04:05 UTC")
      /\ httptest.body (file1 httptest.NewWriter token_request) = "" +:+ "hello").
Proof.
  split.
  - apply (proj1 (X23_handler_answers test_time_Parse test_time_Format
                    "hello" (quote_plain "sha256:hello") 63271811045000000500
                    httptest.NewWriter anonymous_request eq_refl)).
    reflexivity.
  - apply (proj2 (proj2 (proj2 (proj2 (proj2
             (X23_handler_answers test_time_Parse test_time_Format
                "hello" (quote_plain "sha256:hello") 63271811045000000500
                httptest.NewWriter token_request eq_refl))))));
      [reflexivity | reflexivity | left; reflexivity].
Defined.

(** * The provider and the test server, end to end *)

Lemma makeRequest_method (method : string) (d : ResourceData)
      (req : http.Request) :
  makeRequest method d = Val req -> http.Method req = method.
Proof.
  unfold makeRequest, http.NewRequest.
  destruct (url.Parse (data_Get d "url")) as [u | err]; [| discriminate].
  rewrite fold_set_header. cbn [http.ReqHeader http.Method http.URL].
  intros [= <-].
  destruct (negb (str_eqb (data_Get d "etag") "")); [reflexivity |].
  destruct (negb (str_eqb (data_Get d "last_modified") "")); reflexivity.
Qed.

(** A request is built whenever one was built for the same URL. *)
Lemma makeRequest_again (method : string) (d d' : ResourceData)
      (req : http.Request) :
  makeRequest method d = Val req ->
  data_Get d' "url" = data_Get d "url" ->
  exists req', makeRequest method d' = Val req'.
Proof.
  unfold makeRequest. intros H Hurl. rewrite Hurl.
  destruct (http.NewRequest method (data_Get d "url")); [| discriminate].
  eexists. reflexivity.
Qed.

Lemma Header_Get_lookup (h : http.Header) (key value : string) :
  h !! textproto.CanonicalMIMEHeaderKey key = Some [value] ->
  http.Header_Get h key = value.
Proof. intros H. unfold http.Header_Get. now rewrite H. Qed.

Lemma Header_Get_none (h : http.Header) (key : string) :
  h !! textproto.CanonicalMIMEHeaderKey key = None ->
  http.Header_Get h key = "".
Proof. intros H. unfold http.Header_Get. now rewrite H. Qed.

Section EndToEnd.

Variable env : Env.
Variable time_Parse : string -> string -> result Z.
Variable time_Format : Z -> string -> string.
Variables content hash : string.
Variable modified : Z.

Local Abbreviation handler :=
  (testURLHandler_serve time_Parse time_Format content hash modified).

Lemma first_answer (req : http.Request) :
  delivers (client_Do env) handler ->
  http.Method req = "GET" ->
  http.ReqHeader req !! "Authorization" = Some ["Bearer secret"] ->
  http.ReqHeader req !! "If-None-Match" = None ->
  http.ReqHeader req !! "If-Modified-Since" = None ->
  exists resp,
    client_Do env req = http.DoResponse resp
    /\ http.StatusCode resp = http.StatusOK
    /\ http.Header_Get (http.RespHeader resp) "ETag" = hash
    /\ http.RespBody resp = {| http.body_bytes := content; http.body_err := None |}.
Proof.
  intros Hsrv Hm Ha He Hi.
  destruct (Hsrv req) as (resp & status & hdr & Hdo & Hsent & Hst & Htag & _ & Hb).
  destruct (testURLHandler_serve_cases time_Parse time_Format content hash modified
              httptest.NewWriter req eq_refl) as (_ & _ & _ & _ & _ & Hok).
  cbn zeta in Hok.
  rewrite (Header_Get_lookup _ "Authorization" "Bearer secret" Ha) in Hok.
  rewrite (Header_Get_none _ "If-None-Match" He) in Hok.
  rewrite (Header_Get_none _ "If-Modified-Since" Hi) in Hok.
  destruct (Hok eq_refl eq_refl (or_introl eq_refl)) as [Hs200 Hbody].
  rewrite Hs200 in Hsent. injection Hsent as <- <-.
  exists resp. split; [exact Hdo |]. split; [now rewrite Hst |].
  split.
  - rewrite Htag. apply Header_Get_lookup. unfold http.Header_Set.
    change (textproto.CanonicalMIMEHeaderKey "ETag") with "Etag".
    change (textproto.CanonicalMIMEHeaderKey "Last-Modified") with "Last-Modified".
    rewrite lookup_insert_ne by discriminate. apply lookup_insert_eq.
  - rewrite Hb, Hbody, Hm. reflexivity.
Qed.

Lemma second_answer (req : http.Request) :
  delivers (client_Do env) handler ->
  hash <> "" ->
  http.ReqHeader req !! "Authorization" = Some ["Bearer secret"] ->
  http.ReqHeader req !! "If-None-Match" = Some [hash] ->
  exists resp,
    client_Do env req = http.DoResponse resp
    /\ http.StatusCode resp = http.StatusNotModified.
Proof.
  intros Hsrv Hh Ha He.
  destruct (Hsrv req) as (resp & status & hdr & Hdo & Hsent & Hst & _).
  destruct (testURLHandler_serve_cases time_Parse time_Format content hash modified
              httptest.NewWriter req eq_refl) as (_ & _ & H304 & _).
  cbn zeta in H304.
  rewrite (Header_Get_lookup _ "Authorization" "Bearer secret" Ha) in H304.
  rewrite (Header_Get_lookup _ "If-None-Match" hash He) in H304.
  destruct (H304 eq_refl Hh eq_refl) as [Hs304 _].
  rewrite Hs304 in Hsent. injection Hsent as <- <-.
  exists resp. split; [exact Hdo | now rewrite Hst].
Qed.

(** X24: the provider against the handler of the test server, when the
    client gets the status, the validators and the body that the handler
    writes.  A first fetch, with the token of the test among the configured
    headers and nothing cached, is answered with 200: the destination holds
    the bytes of the file, the quoted digest is cached as the entity tag
    and the digest of the bytes is the fingerprint.  The fetch that follows
    sends the cached entity tag, is answered with 304 and changes
    nothing. *)
Theorem X24_fetch_twice (mode : Z) (w : World) (req : http.Request) :
  delivers (client_Do env) handler ->
  hash <> "" ->
  makeRequest http.MethodGet (data w) = Val req ->
  data_Get (data w) "etag" = "" ->
  data_Get (data w) "last_modified" = "" ->
  let custom := custom_headers (d_headers (data w)) in
  custom !! "Authorization" = Some ["Bearer secret"] ->
  custom !! "If-None-Match" = None ->
  custom !! "If-Modified-Since" = None ->
  let dest := data_Get (data w) "filename" in
  writable (fs w) dest ->
  stream_error env dest content None = None ->
  close_fails env dest = false ->
  exists w1 req2,
    ensureDownloadFile env mode w = Done [] w1
    /\ bytes_at (fs w1) dest = Some content
    /\ data_Get (data w1) "etag" = hash
    /\ data_Get (data w1) "content_sha256" = sha256_hex env content
    /\ http.ReqHeader req2 !! "If-None-Match" = Some [hash]
    /\ ensureDownloadFile env mode w1 = Done [] (logged w1 [EvHTTP req2]).
Proof.
  intros Hsrv Hhash Hreq Hetag Hmod custom Ha He Hi dest Hw Hs Hc.
  pose proof (makeRequest_header _ _ _ Hreq) as Hh.
  rewrite Hetag, Hmod in Hh. cbn [str_eqb String.eqb negb] in Hh.
  fold custom in Hh.
  pose proof (makeRequest_method _ _ _ Hreq) as Hm.
  pose proof Ha as Ha0.
  rewrite <- Hh in Ha, He, Hi.
  destruct (first_answer req Hsrv Hm Ha He Hi) as (resp & Hdo & Hst & Htag & Hb).
  assert (Hresp : response_of (client_Do env req) = Some resp) by now rewrite Hdo.
  assert (Hs' : stream_error env dest (http.body_bytes (http.RespBody resp))
                             (http.body_err (http.RespBody resp)) = None)
    by now rewrite Hb.
  pose proof (ensureDownloadFile_ok env mode w req resp Hreq Hresp Hst Hw Hs' Hc)
    as Hrun.
  fold dest in Hrun. unfold fetched_attrs in Hrun.
  rewrite Hb, Htag in Hrun. cbn [http.body_bytes] in Hrun.
  match type of Hrun with _ = Done [] ?x => set (w1 := x) in * end.
  assert (Hget : forall k, k <> "etag" -> k <> "last_modified" ->
                           k <> "content_sha256" ->
                           data_Get (data w1) k = data_Get (data w) k).
  { intros k H1 H2 H3. unfold data_Get, w1. cbn [data d_attrs].
    now rewrite !lookup_insert_ne by congruence. }
  assert (Htag1 : data_Get (data w1) "etag" = hash).
  { unfold data_Get, w1. cbn [data d_attrs].
    rewrite !lookup_insert_ne by discriminate. now rewrite lookup_insert_eq. }
  destruct (makeRequest_again http.MethodGet (data w) (data w1) req Hreq)
    as [req2 Hreq2]; [apply Hget; discriminate |].
  pose proof (makeRequest_header _ _ _ Hreq2) as Hh2.
  rewrite Htag1 in Hh2. apply str_eqb_neq in Hhash. rewrite Hhash in Hh2.
  cbn [negb] in Hh2. change (d_headers (data w1)) with (d_headers (data w)) in Hh2.
  fold custom in Hh2.
  assert (Ha2 : http.ReqHeader req2 !! "Authorization" = Some ["Bearer secret"])
    by (rewrite Hh2; now rewrite lookup_insert_ne by discriminate).
  assert (He2 : http.ReqHeader req2 !! "If-None-Match" = Some [hash])
    by (rewrite Hh2; apply lookup_insert_eq).
  apply str_eqb_neq in Hhash.
  destruct (second_answer req2 Hsrv Hhash Ha2 He2) as (resp2 & Hdo2 & Hst2).
  assert (Hresp2 : response_of (client_Do env req2) = Some resp2) by now rewrite Hdo2.
  exists w1, req2. split; [exact Hrun |].
  split; [unfold bytes_at, w1; cbn [fs]; now rewrite lookup_insert_eq |].
  split; [exact Htag1 |].
  split.
  { unfold data_Get, w1. cbn [data d_attrs]. now rewrite lookup_insert_eq. }
  split; [exact He2 |].
  now apply (ensureDownloadFile_not_modified env mode w1 req2 resp2).
Qed.

End EndToEnd.

Lemma handler_sends (time_Parse : string -> string -> result Z)
      (time_Format : Z -> string -> string) (content hash : string)
      (modified : Z) (req : http.Request) :
  exists status hdr,
    httptest.sent (testURLHandler_serve time_Parse time_Format content hash
                                        modified httptest.NewWriter req)
    = Some (status, hdr).
Proof.
  destruct (testURLHandler_serve_cases time_Parse time_Format content hash modified
              httptest.NewWriter req eq_refl)
    as (H401 & H403 & H304 & H200 & H304' & H200').
  cbn zeta in *.
  set (auth := http.Header_Get (http.ReqHeader req) "Authorization") in *.
  set (etag := http.Header_Get (http.ReqHeader req) "If-None-Match") in *.
  destruct (decide (auth = "")) as [Ha | Ha];
    [destruct (H401 Ha) as [H _]; eauto |].
  destruct (decide (auth = "Bearer secret")) as [Hb | Hb];
    [| destruct (H403 Ha Hb) as [H _]; eauto].
  destruct (decide (etag = "")) as [He | He].
  - match type of H304' with
    | _ -> _ -> ?s <> 0 -> _ => destruct (decide (s = 0)) as [Hs | Hs];
                                [| destruct (Z_lt_le_dec s modified) as [Hl | Hl]]
    end.
    + destruct (H200' Hb He (or_introl Hs)) as [H _]; eauto.
    + destruct (H304' Hb He Hs Hl) as [H _]; eauto.
    + destruct (H200' Hb He (or_intror Hl)) as [H _]; eauto.
  - destruct (decide (etag = hash)) as [Hh | Hh].
    + destruct (H304 Hb He Hh) as [H _]; eauto.
    + destruct (H200 Hb He Hh) as [H _]; eauto.
Qed.

Lemma direct_delivers (time_Parse : string -> string -> result Z)
      (time_Format : Z -> string -> string) (content hash : string)
      (modified : Z) :
  delivers (direct (testURLHandler_serve time_Parse time_Format content hash
                                         modified))
           (testURLHandler_serve time_Parse time_Format content hash modified).
Proof.
  intros req.
  destruct (handler_sends time_Parse time_Format content hash modified req)
    as (status & hdr & Hsent).
  unfold direct.
  match goal with
  | |- context [httptest.WriteHeader ?x 200] =>
      assert (Hw : httptest.WriteHeader x 200 = x)
        by (unfold httptest.WriteHeader; now rewrite Hsent)
  end.
  rewrite Hw. eexists _, status, hdr. split; [reflexivity |].
  split; [exact Hsent |].
  cbn [http.StatusCode http.RespHeader http.RespBody]. rewrite Hsent.
  repeat split.
Qed.

Lemma X24_fetch_twice_witness :
  exists w1 req2,
    ensureDownloadFile (test_env (direct file1)) 436 token_world = Done [] w1
    /\ bytes_at (fs w1) "/srv/a.txt" = Some "hello"
    /\ data_Get (data w1) "etag" = quote_plain "sha256:hello"
    /\ data_Get (data w1) "content_sha256" = "sha256:hello"
    /\ http.ReqHeader req2 !! "If-None-Match" = Some [quote_plain "sha256:hello"]
    /\ ensureDownloadFile (test_env (direct file1)) 436 w1
       = Done [] (logged w1 [EvHTTP req2]).
Proof.
  apply (X24_fetch_twice (test_env (direct file1))
           test_time_Parse test_time_Format "hello" (quote_plain "sha256:hello")
           63271811045000000500 436 token_world token_request).
  - apply direct_delivers.
  - discriminate.
  - vm_compute. reflexivity.
  - reflexivity.
  - reflexivity.
  - reflexivity.
  - reflexivity.
  - reflexivity.
  - left. reflexivity.
  - reflexivity.
  - reflexivity.
Defined.

(** * The file of a test handler *)

(** X25: [readTestFile] makes the calls of [hashFile] and changes
    nothing.  It fails the test just when [hashFile] returns an error;
    otherwise it returns the bytes of the file and the quoted form of the
    fingerprint that [hashFile] returns, and [testURLHandler] makes the
    handler of these bytes and of this quoted fingerprint. *)
Theorem X25_readTestFile_hashFile (env : Env)
        (time_Parse : string -> string -> result Z)
        (time_Format : Z -> string -> string)
        (filename : string) (now : Z) (w : World) :
  exists r,
    readTestFile env filename w
    = Done r (logged w (hash_events (fs w) filename))
    /\ hashFile env filename w
       = Done (fingerprint env (fs w) filename)
              (logged w (hash_events (fs w) filename))
    /\ read_only (hash_events (fs w) filename)
    /\ match fingerprint env (fs w) filename with
       | Val d =>
           exists content,
             bytes_at (fs w) filename = Some content
             /\ d = sha256_hex env content
             /\ r = Some (content, Quote env d)
             /\ testURLHandler env time_Parse time_Format filename now w
                = Done (Some (testURLHandler_serve time_Parse time_Format
                                                   content (Quote env d) now))
                       (logged w (hash_events (fs w) filename))
       | Err _ =>
           r = None
           /\ testURLHandler env time_Parse time_Format filename now w
              = Done None (logged w (hash_events (fs w) filename))
       end.
Proof.
  unfold testURLHandler, readTestFile, fingerprint, hash_events, logged. run_os.
  rewrite hashFile_run. unfold fingerprint, hash_events, logged, bytes_at.
  unfold os.open_of, os.read_of.
  destruct (fs w !! filename) as [[f | md |] |] eqn:E; cbn [fst snd fs data log];
    rewrite ?E; cbn [fst snd fs data log].
  - destruct (f_bad f) as [n |]; cbn [fst snd fs data log]; eexists;
      (split; [rewrite <- !app_assoc; reflexivity |]);
      (split; [reflexivity |]); (split; [repeat constructor |]).
    + split; [reflexivity |]. rewrite <- !app_assoc. reflexivity.
    + exists (f_data f). repeat split. rewrite <- !app_assoc. reflexivity.
  - eexists. split; [rewrite <- !app_assoc; reflexivity |].
    split; [reflexivity |]. split; [repeat constructor |].
    split; [reflexivity |]. rewrite <- !app_assoc. reflexivity.
  - eexists. split; [reflexivity |]. split; [reflexivity |].
    split; [repeat constructor |]. now split.
  - eexists. split; [reflexivity |]. split; [reflexivity |].
    split; [repeat constructor |]. now split.
Qed.

(** * A source that is missing, and a file copied onto itself *)

(** X26: a source that is missing passes the plan when the destination is
    missing too: the plan marks the fingerprint as computed anew and
    returns no error, having opened the destination only, while the Create
    that follows fails with the error of opening the source and changes
    nothing. *)
Theorem X26_missing_source_passes_plan (env : Env) (diff : schema.ResourceDiff)
        (w : World) :
  schema.diff_schema diff = resourceFileSchema ->
  schema.ResourceDiff_Get diff "source" = data_Get (data w) "source" ->
  schema.ResourceDiff_Get diff "destination" = data_Get (data w) "destination" ->
  fs w !! data_Get (data w) "source" = None ->
  fs w !! data_Get (data w) "destination" = None ->
  (exists diff',
      resourceFile_CustomizeDiff env diff w
      = Done (diff', None) (logged w [EvOpen (data_Get (data w) "destination")])
      /\ "content_sha256" ∈ schema.diff_computed diff')
  /\ resourceFileCreate env w
     = Done (FromErr env (PathError "open" (data_Get (data w) "source") ENOENT))
            (logged w [EvOpen (data_Get (data w) "source")]).
Proof.
  intros Hs Hsrc Hdst Hns Hnd. split.
  - rewrite (resourceFile_CustomizeDiff_run env diff w Hs). cbn zeta.
    rewrite Hdst, Hnd. eexists. split; [reflexivity |].
    cbn [schema.diff_computed]. set_solver.
  - unfold resourceFileCreate, ensureCopyFile. run_step. rewrite hashFile_run.
    unfold fingerprint, hash_events, os.open_of. rewrite Hns. reflexivity.
Qed.

Lemma X26_missing_source_passes_plan_witness :
  (exists diff',
      resourceFile_CustomizeDiff (test_env unreachable) no_source_diff
                                 no_source_world
      = Done (diff', None) (logged no_source_world [EvOpen "/etc/motd"])
      /\ "content_sha256" ∈ schema.diff_computed diff')
  /\ resourceFileCreate (test_env unreachable) no_source_world
     = Done (FromErr (test_env unreachable) (PathError "open" "/src/motd" ENOENT))
            (logged no_source_world [EvOpen "/src/motd"]).
Proof.
  apply (X26_missing_source_passes_plan (test_env unreachable) no_source_diff
                                    no_source_world); reflexivity.
Defined.

(** X27: a file that is its own destination is never emptied by the local
    copy engine, which compares the fingerprints first: it makes no call
    that creates, writes or removes a file, and changes no byte and no
    field.  The copy itself would empty it: [copyFile] from a regular file
    onto itself returns with the file truncated to no bytes. *)
Theorem X27_self_sync (env : Env) (w : World) :
  data_Get (data w) "source" = data_Get (data w) "destination" ->
  (exists ds evs m',
      ensureCopyFile env w =
      Done ds {| fs := m'; data := data w; log := log w ++ evs |}
      /\ same_bytes (fs w) m'
      /\ no_copy evs)
  /\ (forall f mode,
         fs w !! data_Get (data w) "destination" = Some (File f) ->
         exists r w',
           copyFile env (data_Get (data w) "destination")
                    (data_Get (data w) "destination") mode w = Done r w'
           /\ bytes_at (fs w') (data_Get (data w) "destination") = Some "").
Proof.
  intros Hself. split.
  - destruct (fingerprint env (fs w) (data_Get (data w) "source")) as [h | e] eqn:Hh.
    + assert (Hd : fingerprint env (fs w) (data_Get (data w) "destination") = Val h)
        by now rewrite <- Hself.
      rewrite (ensureCopyFile_matched env w h Hh Hd).
      match goal with
      | |- context [ensureFileMode env ?w1] =>
          destruct (ensureFileMode_frame env w1)
            as (ds & evs & m' & Hrun & Hsb & Hnc & _)
      end.
      cbn [logged fs data log] in *. rewrite Hrun.
      exists ds, ((hash_events (fs w) (data_Get (data w) "source")
                   ++ hash_events (fs w) (data_Get (data w) "destination")) ++ evs),
             m'.
      split; [now rewrite <- !app_assoc |]. split; [exact Hsb |].
      unfold no_copy. rewrite !Forall_app.
      repeat split; try apply hash_events_no_copy. exact Hnc.
    + unfold ensureCopyFile. run_step. rewrite hashFile_run, Hh.
      do 3 eexists. split; [reflexivity |].
      split; [apply same_bytes_refl | apply hash_events_no_copy].
  - intros f mode Hf. set (p := data_Get (data w) "destination") in *.
    unfold copyFile. run_os. unfold os.open_of. rewrite Hf.
    cbn [fst snd fs data log].
    destruct (mode =? 0); run_os; unfold os.stat_of; rewrite ?Hf;
      cbn [fst snd fs data log]; unfold os.create_of; rewrite !Hf;
      cbn [fst snd fs data log]; unfold os.read_of; rewrite !lookup_insert_eq;
      cbn [f_data f_bad fs data log fst snd];
      (assert (Hplan : io.copy_plan (write_quota env p) p "" None = ("", None))
        by (unfold io.copy_plan; now destruct (write_quota env p) as [[|q] |]));
      rewrite Hplan; cbn [fst snd]; unfold os.append_of;
      rewrite lookup_insert_eq; cbn beta; cbn [fs data log f_data];
      do 2 eexists; (split; [reflexivity |]); cbn [fs];
      unfold bytes_at; now rewrite lookup_insert_eq.
Qed.

Lemma X27_self_sync_witness :
  (exists ds evs m',
      ensureCopyFile (test_env unreachable) self_world =
      Done ds {| fs := m'; data := data self_world; log := log self_world ++ evs |}
      /\ same_bytes (fs self_world) m'
      /\ no_copy evs)
  /\ exists r w',
      copyFile (test_env unreachable) "/etc/motd" "/etc/motd" 0 self_world
      = Done r w'
      /\ bytes_at (fs w') "/etc/motd" = Some "".
Proof.
  destruct (X27_self_sync (test_env unreachable) self_world eq_refl)
    as [H1 H2].
  split; [exact H1 |].
  exact (H2 {| f_data := "welcome"; f_mode := 420; f_bad := None |} 0 eq_refl).
Defined.

(** * The fingerprint of a fetch, and a Read after a Delete *)

(** X28: the fingerprint that a fetch stores is the fingerprint of the file
    it wrote.  After an answer of 200 whose body arrives whole, the
    destination holds the bytes of the body, and [hashFile] of the
    destination returns the value of [content_sha256]. *)
Theorem X28_fetched_fingerprint (env : Env) (mode : Z) (w : World)
        (req : http.Request) (resp : http.Response) :
  makeRequest http.MethodGet (data w) = Val req ->
  response_of (client_Do env req) = Some resp ->
  http.StatusCode resp = http.StatusOK ->
  let dest := data_Get (data w) "filename" in
  writable (fs w) dest ->
  stream_error env dest (http.body_bytes (http.RespBody resp))
               (http.body_err (http.RespBody resp)) = None ->
  close_fails env dest = false ->
  exists w',
    ensureDownloadFile env mode w = Done [] w'
    /\ bytes_at (fs w') dest = Some (http.body_bytes (http.RespBody resp))
    /\ hashFile env dest w'
       = Done (Val (data_Get (data w') "content_sha256"))
              (logged w' [EvOpen dest; EvRead dest; EvClose dest]).
Proof.
  intros Hreq Hdo Hcode dest Hw Hs Hc.
  rewrite (ensureDownloadFile_ok env mode w req resp Hreq Hdo Hcode Hw Hs Hc).
  fold dest. eexists. split; [reflexivity |]. cbn [fs data log].
  split; [unfold bytes_at; now rewrite lookup_insert_eq |].
  rewrite hashFile_run. cbn [fs data log].
  unfold fingerprint, hash_events, os.open_of, os.read_of.
  rewrite !lookup_insert_eq. cbn [f_data f_bad fst snd].
  unfold data_Get, fetched_attrs. cbn [d_attrs]. now rewrite lookup_insert_eq.
Qed.

Lemma X28_fetched_fingerprint_witness :
  exists w',
    ensureDownloadFile (test_env (answers C2_response)) 436 fetched_world
    = Done [] w'
    /\ bytes_at (fs w') "/srv/www/index.html" = Some "new page"
    /\ hashFile (test_env (answers C2_response)) "/srv/www/index.html" w'
       = Done (Val (data_Get (data w') "content_sha256"))
              (logged w' [EvOpen "/srv/www/index.html";
                          EvRead "/srv/www/index.html";
                          EvClose "/srv/www/index.html"]).
Proof.
  apply (X28_fetched_fingerprint (test_env (answers C2_response)) 436
           fetched_world fetched_request C2_response fetched_request_made
           eq_refl eq_refl); try reflexivity.
  right. eexists. reflexivity.
Defined.

(** X29: a Read after a Delete that removed the file finds the resource
    gone, for both resources: the Delete succeeds, and the Read that
    follows succeeds, clears the identity and changes no file; the Read of
    the URL resource sends no request. *)
Theorem X29_delete_then_read (env : Env) (w : World) (name : string) (f : file) :
  idToFile env (d_id (data w)) = Val name ->
  fs w !! name = Some (File f) ->
  exists w1,
    resourceFileDelete env w = Done [] w1
    /\ resourceURLDelete env w = Done [] w1
    /\ fs w1 = delete name (fs w)
    /\ (exists w2 evs,
           resourceFileRead env w1 = Done [] w2
           /\ d_id (data w2) = "" /\ fs w2 = fs w1
           /\ log w2 = log w1 ++ evs /\ read_only evs)
    /\ (exists w2 evs,
           resourceURLRead env w1 = Done [] w2
           /\ d_id (data w2) = "" /\ fs w2 = fs w1
           /\ log w2 = log w1 ++ evs /\ read_only evs /\ no_request evs).
Proof.
  intros Hid Hf.
  pose proof (resourceFileDelete_file env w name f Hid Hf) as Hdel.
  eexists. split; [exact Hdel |]. split; [exact Hdel |].
  cbn [fs data log]. split; [reflexivity |].
  split.
  - rewrite (resourceFileRead_run env _ name) by exact Hid. cbn [fs data log].
    unfold fingerprint, hash_events, os.open_of. rewrite !lookup_delete_eq.
    cbn [IsNotExist]. do 2 eexists. split; [reflexivity |]. cbn [fs data log d_id].
    repeat split. repeat constructor.
  - unfold resourceURLRead. run_os. rewrite Hid. unfold os.stat_of.
    cbn [fs data log]. rewrite !lookup_delete_eq. cbn [IsNotExist fs data log].
    do 2 eexists. split; [reflexivity |]. cbn [fs data log d_id].
    repeat split; repeat constructor.
Qed.

Lemma X29_delete_then_read_witness :
  exists w1,
    resourceFileDelete (test_env unreachable) read_file_world = Done [] w1
    /\ resourceURLDelete (test_env unreachable) read_file_world = Done [] w1
    /\ fs w1 = delete "/etc/motd" (fs read_file_world)
    /\ (exists w2 evs,
           resourceFileRead (test_env unreachable) w1 = Done [] w2
           /\ d_id (data w2) = "" /\ fs w2 = fs w1
           /\ log w2 = log w1 ++ evs /\ read_only evs)
    /\ (exists w2 evs,
           resourceURLRead (test_env unreachable) w1 = Done [] w2
           /\ d_id (data w2) = "" /\ fs w2 = fs w1
           /\ log w2 = log w1 ++ evs /\ read_only evs /\ no_request evs).
Proof.
  apply (X29_delete_then_read (test_env unreachable) read_file_world "/etc/motd"
           {| f_data := "changed by hand"; f_mode := 420; f_bad := None |});
    reflexivity.
Defined.
